(** * Transaction pattern analysis engine: anomaly and rising-payment detection

    A shallow embedding of [services/anomaly_service.py] and
    [services/payment_service.py] of the AI-insights microservice, and of the
    two endpoints of [main.py] over them, with the properties its
    specification states about them and further properties of the code.

    Numbers.  Python floats are embedded as exact real numbers ([R]): sums,
    quotients and square roots carry no rounding error, and there are no
    infinities.  The one place where the code divides by a quantity that can
    be zero without a guard (the z-score) is embedded with an explicit
    not-a-number outcome, and so is the quotient of the percentage increase,
    which the code takes under a guard.  Integers (timestamps, day gaps, hours, counts) are
    [Z] or [nat].

    Libraries.  pandas, numpy and scipy operations are embedded from their
    documented behaviour in [Module builtins]; [pd.to_datetime] and the
    scikit-learn estimators are parameters of the services.

    Effects.  A Python function that may raise returns a [result]; the
    [async]/[await] of the services is sequential and is dropped, and so are
    the log lines. *)

From Stdlib Require Import Reals Lra Lia ZArith.
From Stdlib Require Import Sorting.Sorted Sorting.Permutation.
From Stdlib Require Import Strings.Ascii Strings.String.
From stdpp Require Import base decidable option list sorting gmap strings pretty.

(** ** Python exceptions and the functions that may raise them *)

Inductive exn : Type :=
  | DateParseError (text : string)
  | KeyError (key : string)
  | IndexError
  | EstimatorError (msg : string)
  | AttributeError (msg : string).

Inductive result (A : Type) : Type :=
  | Ok (a : A)
  | Raise (e : exn).
Arguments Ok {A} a.
Arguments Raise {A} e.

#[global] Instance result_ret : MRet result := fun A a => Ok a.
#[global] Instance result_bind : MBind result :=
  fun A B f m => match m with Ok a => f a | Raise e => Raise e end.

(** [try: body except Exception as e: handler e] *)
Definition try_except {A : Type} (body : result A) (handler : exn -> result A)
  : result A :=
  match body with
  | Ok a => Ok a
  | Raise e => handler e
  end.

(** Comparisons of floats are decided on the reals. *)
#[global] Instance R_eq_dec : EqDecision R := Req_dec_T.
#[global] Instance Rlt_rel_dec : RelDecision Rlt := Rlt_dec.
#[global] Instance Rle_rel_dec : RelDecision Rle := Rle_dec.
#[global] Instance Rgt_rel_dec : RelDecision Rgt := Rgt_dec.
#[global] Instance Rge_rel_dec : RelDecision Rge := Rge_dec.

(** A formatted string literal, kept as its pieces: the text the findings
    carry is never inspected by the engine. *)
Inductive fpiece : Type :=
  | Lit (s : string)
  | Str (s : string)             (* {s} *)
  | Fixed (digits : nat) (x : R) (* {x:.2f}, {x:.1f} *)
  | Int02 (n : Z).               (* {n:02d} *)
Definition fstring : Type := list fpiece.

Module builtins.
Local Open Scope R_scope.

(** *** Python builtins *)

(** [min(a, b)] returns [a] unless [b < a]; [max(a, b)] returns [a] unless
    [b > a]. *)
Definition min (a b : R) : R := if decide (b < a) then b else a.
Definition max (a b : R) : R := if decide (b > a) then b else a.

(** [a / b] on numpy floats: with a zero divisor the quotient is inf or nan
    (numpy warns and goes on), here [None]. *)
Definition truediv (a b : R) : option R :=
  if decide (b = 0) then None else Some (a / b).

(** [int(x)]: truncation towards zero. *)
Definition int (x : R) : Z :=
  if decide (0 <= x) then Zfloor x else (- Zfloor (- x))%Z.

(** [sorted(l, key=key)] and [l.sort(key=key)] are stable: insertion into
    the sorted tail puts an element before the first one whose key is not
    strictly before its own.  [lt] is [<] on the keys, and [>] when
    [reverse=True].  [DataFrame.sort_values] is embedded by the same sort:
    rows of equal key keep their order, as the specification has it. *)
Section sorting.
Context {A K : Type} (lt : K -> K -> Prop) `{!RelDecision lt}.
Context (key : A -> K).

Fixpoint insort (x : A) (l : list A) : list A :=
    match l with
    | [] => [x]
    | y :: l' =>
        if decide (lt (key y) (key x)) then y :: insort x l'
        else x :: y :: l'
    end.

Definition sorted (l : list A) : list A := foldr insort [] l.
End sorting.

(** *** numpy *)

Definition sum (a : list R) : R := foldr Rplus 0 a.

(** [np.mean(a)], [a.mean()] *)
Definition mean (a : list R) : R := sum a / INR (length a).

(** [np.std(a)], [a.std()]: population standard deviation. *)
Definition std (a : list R) : R :=
  let m := mean a in
  sqrt (mean (map (fun x => (x - m) * (x - m)) a)).

(** [np.round(x, digits)]: scale, round half to even, scale back. *)
Definition rint (x : R) : Z :=
  let f := Zfloor x in
  let frac := x - IZR f in
  if decide (frac < 1 / 2) then f
  else if decide (frac > 1 / 2) then (f + 1)%Z
  else if Z.even f then f else (f + 1)%Z.

Definition round (x : R) (digits : nat) : R :=
  IZR (rint (x * 10 ^ digits)) / 10 ^ digits.

(** [np.polyfit(x, y, 1)] with [x = np.arange(len(y))]: the least-squares
    line, in closed form; returns (slope, intercept). *)
Definition arange (n : nat) : list R := map INR (seq 0 n).

Definition polyfit1 (x y : list R) : R * R :=
  let mx := mean x in
  let my := mean y in
  let sxy := sum (zip_with (fun xi yi => (xi - mx) * (yi - my)) x y) in
  let sxx := sum (map (fun xi => (xi - mx) * (xi - mx)) x) in
  let slope := sxy / sxx in
  (slope, my - slope * mx).

(** *** scipy *)

(** [stats.zscore(a)]: [(a - a.mean()) / a.std()].  With a zero standard
    deviation every entry of [a] equals the mean, the quotient is 0/0 and
    the entry is [nan], here [None]. *)
Definition zscore (a : list R) : list (option R) :=
  let mn := mean a in
  let sd := std a in
  map (fun x => if decide (sd = 0) then None else Some ((x - mn) / sd)) a.

(** [np.abs] on an array that may hold [nan]. *)
Definition abs (z : list (option R)) : list (option R) := map (fmap Rabs) z.

(** *** pandas *)

(** [Series.unique()]: the distinct values, in order of first appearance. *)
Fixpoint unique `{EqDecision A} (l : list A) : list A :=
  match l with
  | [] => []
  | x :: l' => x :: filter (fun y => y <> x) (unique l')
  end.

(** [Series.value_counts()], looked up at one value. *)
Definition value_count `{EqDecision A} (l : list A) (x : A) : nat :=
  length (filter (fun y => y = x) l).

(** [Series.std()]: sample standard deviation (ddof=1). *)
Definition sample_std (a : list R) : R :=
  let m := mean a in
  sqrt (sum (map (fun x => (x - m) * (x - m)) a) / (INR (length a) - 1)).

(** [Series.mode().tolist()]: the most frequent values, ascending. *)
Definition string_lt (s1 s2 : string) : Prop := String.ltb s1 s2 = true.
#[global] Instance string_lt_dec : RelDecision string_lt :=
  fun s1 s2 => decide (String.ltb s1 s2 = true).

Definition mode (l : list string) : list string :=
  let values := unique l in
  let top := foldr Nat.max 0%nat (map (value_count l) values) in
  sorted string_lt (fun v => v) (filter (fun v => value_count l v = top) values).
End builtins.

(** ** Timestamps

    A [pd.Timestamp] is its count of nanoseconds since 1970-01-01T00:00:00
    (UTC); a [pd.Timedelta] is a difference of two of them. *)
Module calendar.
Local Open Scope Z_scope.

Definition Timestamp : Type := Z.
Definition Timedelta : Type := Z.

Definition ns_per_second : Z := 1000000000.
Definition ns_per_hour : Z := 3600 * ns_per_second.
Definition ns_per_day : Z := 86400 * ns_per_second.

(** [Timedelta.days]: whole days, rounded down. *)
Definition days (d : Timedelta) : Z := d / ns_per_day.

(** [Timedelta.total_seconds()] *)
Definition total_seconds (d : Timedelta) : R := (IZR d / IZR ns_per_second)%R.

(** [Timestamp.hour] *)
Definition hour (t : Timestamp) : Z := (t / ns_per_hour) mod 24.

(** [Timestamp.dayofweek]: Monday is 0; 1970-01-01 was a Thursday. *)
Definition dayofweek (t : Timestamp) : Z := (t / ns_per_day + 3) mod 7.

(** Days since the epoch to (year, month, day) in the proleptic Gregorian
    calendar, and back. *)
Definition civil_from_days (n : Z) : Z * Z * Z :=
  let z := n + 719468 in
  let era := z / 146097 in
  let doe := z - era * 146097 in
  let yoe := (doe - doe / 1460 + doe / 36524 - doe / 146096) / 365 in
  let doy := doe - (365 * yoe + yoe / 4 - yoe / 100) in
  let mp := (5 * doy + 2) / 153 in
  let d := doy - (153 * mp + 2) / 5 + 1 in
  let m := if decide (mp < 10) then mp + 3 else mp - 9 in
  let y := yoe + era * 400 in
  (if decide (m <= 2) then y + 1 else y, m, d).

Definition days_from_civil (y m d : Z) : Z :=
  let y' := if decide (m <= 2) then y - 1 else y in
  let era := y' / 400 in
  let yoe := y' - era * 400 in
  let doy := (153 * (if decide (m > 2) then m - 3 else m + 9) + 2) / 5 + d - 1 in
  let doe := yoe * 365 + yoe / 4 - yoe / 100 + doy in
  era * 146097 + doe - 719468.

(** [Timestamp.day]: day of the month. *)
Definition day (t : Timestamp) : Z := (civil_from_days (t / ns_per_day)).2.

(** [Timestamp.strftime('%Y-%m-%d')] *)
Definition pad (width : nat) (n : Z) : string :=
  let s := pretty n in
  String.concat "" (replicate (width - String.length s) "0"%string) +:+ s.

Definition strftime_ymd (t : Timestamp) : string :=
  let '(y, m, d) := civil_from_days (t / ns_per_day) in
  pad 4 y +:+ "-" +:+ pad 2 m +:+ "-" +:+ pad 2 d.

(** One instance of the timestamp parser, for the ISO-8601 texts the
    service's tests send ("2024-01-15T10:30:00Z", also without the "Z", or the
    date alone).  [pd.to_datetime] reads many more formats; the services
    below take the parser as a parameter, and this one is used to run them on
    concrete batches. *)
Definition digit (c : ascii) : option Z :=
  let n := Z.of_N (N_of_ascii c) in
  if decide (48 <= n <= 57) then Some (n - 48) else None.

Fixpoint number (acc : Z) (cs : list ascii) : option Z :=
  match cs with
  | [] => Some acc
  | c :: cs' => d ← digit c; number (acc * 10 + d) cs'
  end.

Definition days_in_month (y m : Z) : Z :=
  days_from_civil (if decide (m = 12) then y + 1 else y)
                  (if decide (m = 12) then 1 else m + 1) 1
  - days_from_civil y m 1.

Definition parse_date (cs : list ascii) : option Z :=
  match cs with
  | [y1; y2; y3; y4; "-"%char; m1; m2; "-"%char; d1; d2] =>
      y ← number 0 [y1; y2; y3; y4];
      m ← number 0 [m1; m2];
      d ← number 0 [d1; d2];
      if decide (1 <= m <= 12 /\ 1 <= d <= days_in_month y m)
      then Some (days_from_civil y m d) else None
  | _ => None
  end.

Definition parse_time (cs : list ascii) : option Z :=
  match cs with
  | [h1; h2; ":"%char; m1; m2; ":"%char; s1; s2] =>
      h ← number 0 [h1; h2];
      m ← number 0 [m1; m2];
      s ← number 0 [s1; s2];
      if decide (h < 24 /\ m < 60 /\ s < 60)
      then Some (h * 3600 + m * 60 + s) else None
  | _ => None
  end.

Definition iso_to_datetime (text : string) : option Timestamp :=
  let cs := String.list_ascii_of_string text in
  let date := take 10 cs in
  let rest := drop 10 cs in
  n ← parse_date date;
  match rest with
  | [] => Some (n * ns_per_day)
  | "T"%char :: time =>
      let time := match reverse time with
                  | "Z"%char :: t => reverse t
                  | _ => time
                  end in
      s ← parse_time time;
      Some (n * ns_per_day + s * ns_per_second)
  | _ => None
  end.
End calendar.

(** ** The request and response models

    Modelled from the spec: [models/schemas.py] is not part of the sources.
    The fields are those the spec's data model lists (Transaction,
    AnomalyFinding, RisingPaymentFinding) under the names the two services
    read and write; [posted_at] is the timestamp as text, [amount] is signed
    (negative is spending). *)
Module schemas.

Record TransactionData : Type := {
  id : string;
  posted_at : string;
  amount : R;
  category : string;
  merchant_name : string;
  is_recurring : bool
}.

Inductive AnomalyType : Type :=
  | UNUSUAL_AMOUNT
  | UNUSUAL_MERCHANT
  | UNUSUAL_TIMING
  | UNUSUAL_FREQUENCY.

Inductive Severity : Type := low | medium | high.

Record AnomalyResponse : Type := {
  transaction_id : string;
  anomaly_type : AnomalyType;
  severity : Severity;
  confidence : R;
  description : fstring;
  expected_value : option R;
  actual_value : R;
  z_score : R;
  recommendation : fstring
}.

Record RisingPaymentResponse : Type := {
  rp_merchant_name : string;
  rp_category : string;
  current_amount : R;
  previous_amount : R;
  increase_percentage : R;
  increase_amount : R;
  frequency : string;
  rp_confidence : R;
  first_detected : string;
  last_payment : string;
  rp_recommendation : fstring
}.

#[global] Instance AnomalyType_eq_dec : EqDecision AnomalyType.
Proof. solve_decision. Defined.
#[global] Instance Severity_eq_dec : EqDecision Severity.
Proof. solve_decision. Defined.
End schemas.

(** ** services/anomaly_service.py *)
Module anomaly_service.
Import calendar.
Local Open Scope R_scope.

(** A row of the DataFrame built by [_prepare_data]; the DataFrame is the
    list of its rows, in index order. *)
Record Row : Type := {
  id : string;
  date : Timestamp;
  amount : R;
  category : string;
  merchant : string;
  is_recurring : bool;
  hour : Z;
  day_of_week : Z;
  day_of_month : Z
}.

(** An entry of the [merchant_profiles] dict. *)
Record Profile : Type := {
  avg_amount : R;
  std_amount : R;
  typical_categories : list string;
  transaction_count : nat
}.

Section AnomalyDetectionService.

(** [pd.to_datetime]: [None] when the text is not a timestamp (pandas raises). *)
Variable to_datetime : string -> option Timestamp.
(** [self.scaler.fit_transform], [self.isolation_forest.fit_predict] and
    [self.isolation_forest.decision_function] of scikit-learn. *)
Variable scaler_fit_transform : list (list R) -> result (list (list R)).
Variable isolation_forest_fit_predict : list (list R) -> result (list Z).
Variable isolation_forest_decision_function : list (list R) -> result (list R).

Definition pd_to_datetime (text : string) : result Timestamp :=
  match to_datetime text with
  | Some t => Ok t
  | None => Raise (DateParseError text)
  end.

Definition _prepare_data (transactions : list schemas.TransactionData)
  : result (list Row) :=
  data ← mapM (fun txn =>
    posted ← pd_to_datetime (schemas.posted_at txn);
    mret {| id := schemas.id txn;
            date := posted;
            amount := Rabs (schemas.amount txn);
            category := schemas.category txn;
            merchant := schemas.merchant_name txn;
            is_recurring := schemas.is_recurring txn;
            hour := calendar.hour posted;
            day_of_week := calendar.dayofweek posted;
            day_of_month := calendar.day posted |}) transactions;
  mret (builtins.sorted Z.lt date data).

Definition _calculate_severity (z_score threshold : R) : schemas.Severity :=
  if decide (z_score > threshold * 2) then schemas.high
  else if decide (z_score > threshold * 1.5) then schemas.medium
  else schemas.low.

Definition _calculate_severity_from_score (score : R) : schemas.Severity :=
  if decide (score < -0.3) then schemas.high
  else if decide (score < -0.1) then schemas.medium
  else schemas.low.

(** [_detect_statistical_anomalies], first loop: overall amount anomalies. *)
Definition overall_amount_anomalies (df : list Row)
  : list schemas.AnomalyResponse :=
  let amounts := map amount df in
  let z_scores := builtins.abs (builtins.zscore amounts) in
  let threshold := 3.0 in
  omap (fun '(row, z) =>
    match z with
    | Some z_score =>
        if decide (z_score > threshold) then
          let expected_amount := builtins.mean amounts in
          let severity := _calculate_severity z_score threshold in
          let confidence := builtins.min 0.95 (z_score / 5.0) in
          Some {| schemas.transaction_id := id row;
                  schemas.anomaly_type := schemas.UNUSUAL_AMOUNT;
                  schemas.severity := severity;
                  schemas.confidence := confidence;
                  schemas.description :=
                    [Lit "Transaction amount $"; Fixed 2 (amount row);
                     Lit " is unusually high"];
                  schemas.expected_value := Some expected_amount;
                  schemas.actual_value := amount row;
                  schemas.z_score := z_score;
                  schemas.recommendation :=
                    [Lit "Review this $"; Fixed 2 (amount row);
                     Lit " transaction at "; Str (merchant row)] |}
        else None
    | None => None
    end) (zip df z_scores).

(** [_detect_statistical_anomalies], second loop: category-specific
    anomalies. *)
Definition category_anomalies (df : list Row) (category_name : string)
  : list schemas.AnomalyResponse :=
  let category_data := filter (fun row => category row = category_name) df in
  if decide (length category_data < 3)%nat then []
  else
    let cat_amounts := map amount category_data in
    let cat_z_scores := builtins.abs (builtins.zscore cat_amounts) in
    omap (fun '(row, z) =>
      match z with
      | Some z_score =>
          if decide (z_score > 2.5) then
            let expected_amount := builtins.mean cat_amounts in
            let severity := _calculate_severity z_score 2.5 in
            let confidence := builtins.min 0.90 (z_score / 4.0) in
            Some {| schemas.transaction_id := id row;
                    schemas.anomaly_type := schemas.UNUSUAL_AMOUNT;
                    schemas.severity := severity;
                    schemas.confidence := confidence;
                    schemas.description :=
                      [Lit "Unusual "; Str category_name; Lit " spending: $";
                       Fixed 2 (amount row)];
                    schemas.expected_value := Some expected_amount;
                    schemas.actual_value := amount row;
                    schemas.z_score := z_score;
                    schemas.recommendation :=
                      [Lit "This "; Str category_name; Lit " transaction is ";
                       Fixed 1 z_score; Lit "x above normal"] |}
          else None
      | None => None
      end) (zip category_data cat_z_scores).

Definition category_specific_anomalies (df : list Row)
  : list schemas.AnomalyResponse :=
  concat (map (category_anomalies df) (builtins.unique (map category df))).

Definition _detect_statistical_anomalies (df : list Row)
  : list schemas.AnomalyResponse :=
  overall_amount_anomalies df ++ category_specific_anomalies df.

Definition _detect_ml_anomalies (df : list Row)
  : result (list schemas.AnomalyResponse) :=
  if decide (length df < 20)%nat then mret []
  else
    let merchant_counts := builtins.value_count (map merchant df) in
    let category_counts := builtins.value_count (map category df) in
    let features :=
      map (fun row => [amount row; IZR (hour row); IZR (day_of_week row);
                       IZR (day_of_month row);
                       INR (merchant_counts (merchant row));
                       INR (category_counts (category row))]) df in
    features_scaled ← scaler_fit_transform features;
    anomaly_labels ← isolation_forest_fit_predict features_scaled;
    anomaly_scores ← isolation_forest_decision_function features_scaled;
    found ← mapM (fun '(idx, (label, score)) =>
      if decide (label = (-1)%Z) then
        match df !! idx with
        | None => Raise IndexError
        | Some row =>
            let confidence := builtins.min 0.95 (Rabs score * 2) in
            let severity := _calculate_severity_from_score score in
            mret [ {| schemas.transaction_id := id row;
                      schemas.anomaly_type := schemas.UNUSUAL_MERCHANT;
                      schemas.severity := severity;
                      schemas.confidence := confidence;
                      schemas.description :=
                        [Lit "ML detected unusual transaction pattern at ";
                         Str (merchant row)];
                      schemas.expected_value := None;
                      schemas.actual_value := amount row;
                      schemas.z_score := score;
                      schemas.recommendation :=
                        [Lit "Review this transaction - unusual for your spending patterns"] |} ]
        end
      else mret [])
      (zip (seq 0 (length anomaly_labels)) (zip anomaly_labels anomaly_scores));
    mret (concat found).

(** [_detect_merchant_anomalies], first loop: the merchant profiles. *)
Definition merchant_data (df : list Row) (merchant_name : string) : list Row :=
  filter (fun row => merchant row = merchant_name) df.

Definition merchant_profile (data : list Row) : Profile :=
  {| avg_amount := builtins.mean (map amount data);
     std_amount := builtins.sample_std (map amount data);
     typical_categories := builtins.mode (map category data);
     transaction_count := length data |}.

Definition build_merchant_profiles (df : list Row) : gmap string Profile :=
  foldl (fun merchant_profiles merchant_name =>
    let data := merchant_data df merchant_name in
    if decide (2 <= length data)%nat then
      <[ merchant_name := merchant_profile data ]> merchant_profiles
    else merchant_profiles) ∅ (builtins.unique (map merchant df)).

(** [_detect_merchant_anomalies], second loop: each transaction against its
    merchant's profile. *)
Definition check_against_profile (merchant_profiles : gmap string Profile)
  (row : Row) : option schemas.AnomalyResponse :=
  match merchant_profiles !! merchant row with
  | None => None
  | Some profile =>
      if decide (std_amount profile > 0) then
        let z_score := Rabs (amount row - avg_amount profile) / std_amount profile in
        if decide (z_score > 2.0 /\ (3 <= transaction_count profile)%nat) then
          let severity := _calculate_severity z_score 2.0 in
          let confidence := builtins.min 0.85 (z_score / 3.0) in
          Some {| schemas.transaction_id := id row;
                  schemas.anomaly_type := schemas.UNUSUAL_AMOUNT;
                  schemas.severity := severity;
                  schemas.confidence := confidence;
                  schemas.description :=
                    [Lit "Unusual amount for "; Str (merchant row); Lit ": $";
                     Fixed 2 (amount row)];
                  schemas.expected_value := Some (avg_amount profile);
                  schemas.actual_value := amount row;
                  schemas.z_score := z_score;
                  schemas.recommendation :=
                    [Lit "This amount is unusual for "; Str (merchant row);
                     Lit " (typical: $"; Fixed 2 (avg_amount profile); Lit ")"] |}
        else None
      else None
  end.

Definition _detect_merchant_anomalies (df : list Row)
  : list schemas.AnomalyResponse :=
  let merchant_profiles := build_merchant_profiles df in
  omap (check_against_profile merchant_profiles) df.

(** [_detect_temporal_anomalies], first loop: unusual timing. *)
Definition unusual_timing_anomalies (df : list Row)
  : list schemas.AnomalyResponse :=
  omap (fun row =>
    if decide (2 <= hour row <= 5)%Z then
      Some {| schemas.transaction_id := id row;
              schemas.anomaly_type := schemas.UNUSUAL_TIMING;
              schemas.severity := schemas.medium;
              schemas.confidence := 0.70;
              schemas.description :=
                [Lit "Transaction at unusual time: "; Int02 (hour row);
                 Lit ":00"];
              schemas.expected_value := None;
              schemas.actual_value := IZR (hour row);
              schemas.z_score := 0;
              schemas.recommendation :=
                [Lit "Verify this transaction wasn't unauthorized"] |}
    else None) df.

(** [Series.max()] and [Series.min()] of a date column. *)
Definition date_max (dates : list Timestamp) : Timestamp :=
  match dates with
  | [] => 0%Z
  | t :: dates' => foldr Z.max t dates'
  end.

Definition date_min (dates : list Timestamp) : Timestamp :=
  match dates with
  | [] => 0%Z
  | t :: dates' => foldr Z.min t dates'
  end.

Definition time_span (window : list Row) : R :=
  total_seconds (date_max (map date window) - date_min (map date window))%Z / 3600.

Definition frequency_anomaly (row : Row) : schemas.AnomalyResponse :=
  {| schemas.transaction_id := id row;
     schemas.anomaly_type := schemas.UNUSUAL_FREQUENCY;
     schemas.severity := schemas.high;
     schemas.confidence := 0.80;
     schemas.description := [Lit "High transaction frequency detected"];
     schemas.expected_value := None;
     schemas.actual_value := 5;
     schemas.z_score := 0;
     schemas.recommendation :=
       [Lit "Multiple transactions in short time - verify legitimacy"] |}.

(** [_detect_temporal_anomalies], second loop: [for i in range(...)] over
    the windows, left at the first window flagged ([break]). *)
Fixpoint frequency_scan (df_sorted : list Row) (range : list nat)
  : list schemas.AnomalyResponse :=
  match range with
  | [] => []
  | i :: range' =>
      let window := take 5 (drop i df_sorted) in
      if decide (time_span window <= 1.0) then map frequency_anomaly window
      else frequency_scan df_sorted range'
  end.

Definition frequency_anomalies (df : list Row) : list schemas.AnomalyResponse :=
  let df_sorted := builtins.sorted Z.lt date df in
  frequency_scan df_sorted (seq 0 (length df_sorted - 4)).

Definition _detect_temporal_anomalies (df : list Row)
  : list schemas.AnomalyResponse :=
  unusual_timing_anomalies df ++ frequency_anomalies df.

(** [_deduplicate_anomalies]: the loop over [sorted_anomalies], with the set
    [seen_transactions]. *)
Fixpoint keep_unseen (seen_transactions : gset string)
  (sorted_anomalies : list schemas.AnomalyResponse)
  : list schemas.AnomalyResponse :=
  match sorted_anomalies with
  | [] => []
  | anomaly :: rest =>
      if decide (schemas.transaction_id anomaly ∉ seen_transactions) then
        anomaly ::
          keep_unseen ({[ schemas.transaction_id anomaly ]} ∪ seen_transactions) rest
      else keep_unseen seen_transactions rest
  end.

Definition _deduplicate_anomalies (anomalies : list schemas.AnomalyResponse)
  : list schemas.AnomalyResponse :=
  let sorted_anomalies := builtins.sorted Rgt schemas.confidence anomalies in
  keep_unseen ∅ sorted_anomalies.

(** The list [anomalies] of [detect_anomalies] once the four detectors have
    extended it. *)
Definition anomalies (df : list Row) : result (list schemas.AnomalyResponse) :=
  let statistical_anomalies := _detect_statistical_anomalies df in
  ml_anomalies ← _detect_ml_anomalies df;
  let merchant_anomalies := _detect_merchant_anomalies df in
  let temporal_anomalies := _detect_temporal_anomalies df in
  mret (statistical_anomalies ++ ml_anomalies ++ merchant_anomalies
          ++ temporal_anomalies).

(** The body of the [try] block of [detect_anomalies]. *)
Definition detect_anomalies_body (transactions : list schemas.TransactionData)
  : result (list schemas.AnomalyResponse) :=
  if decide (length transactions < 10)%nat then mret []
  else
    df ← _prepare_data transactions;
    found ← anomalies df;
    let unique_anomalies := _deduplicate_anomalies found in
    mret (builtins.sorted Rgt schemas.confidence unique_anomalies).

Definition detect_anomalies (transactions : list schemas.TransactionData)
  : result (list schemas.AnomalyResponse) :=
  try_except (detect_anomalies_body transactions) (fun e => mret []).

End AnomalyDetectionService.
End anomaly_service.

(** ** services/payment_service.py *)
Module payment_service.
Import calendar.
Local Open Scope R_scope.

(** A row of the DataFrame built by [_prepare_data]. *)
Record Row : Type := {
  date : Timestamp;
  amount : R;
  merchant : string;
  category : string;
  is_recurring : bool
}.

(** [df.groupby('merchant')]: one group per merchant name, the names in
    ascending order, each group in the order of [df].  A DataFrame made from
    an empty list has no column to group by. *)
Definition groupby_merchant (df : list Row) : result (list (string * list Row)) :=
  match df with
  | [] => Raise (KeyError "merchant")
  | _ =>
      let names :=
        builtins.sorted builtins.string_lt (fun name => name)
          (builtins.unique (map merchant df)) in
      mret (map (fun name => (name, filter (fun row => merchant row = name) df))
                names)
  end.

(** The day gaps [(dates[i] - dates[i-1]).days] for [i] from 1. *)
Definition intervals (group : list Row) : list Z :=
  let dates := map date group in
  zip_with (fun previous current => days (current - previous)%Z) dates (tail dates).

Definition _is_recurring_pattern (group : list Row) : bool :=
  if decide (length group < 3)%nat then false
  else
    let intervals := intervals group in
    match intervals with
    | [] => false
    | _ =>
        let avg_interval := builtins.mean (map IZR intervals) in
        let std_interval := builtins.std (map IZR intervals) in
        if decide ((7 <= avg_interval /\ avg_interval <= 90)
                   /\ std_interval < avg_interval * 0.3) then true
        else
          let monthly_intervals :=
            filter (fun i => 25 <= i <= 35)%Z intervals in
          if decide (INR (length monthly_intervals)
                     >= INR (length intervals) * 0.7) then true
          else false
    end.

Definition _determine_frequency (group : list Row) : string :=
  if decide (length (map date group) < 2)%nat then "unknown"
  else
    let avg_interval := builtins.mean (map IZR (intervals group)) in
    if decide (avg_interval <= 10) then "weekly"
    else if decide (25 <= avg_interval /\ avg_interval <= 35) then "monthly"
    else if decide (85 <= avg_interval /\ avg_interval <= 95) then "quarterly"
    else if decide (avg_interval >= 350) then "yearly"
    else "every_" +:+ pretty (builtins.int avg_interval) +:+ "_days".

Definition _has_consistent_intervals (group : list Row) : bool :=
  if decide (length (map date group) < 3)%nat then false
  else
    let std_dev := builtins.std (map IZR (intervals group)) in
    let mean_interval := builtins.mean (map IZR (intervals group)) in
    if decide (mean_interval > 0)
    then bool_decide (std_dev < mean_interval * 0.2)
    else false.

Definition _calculate_confidence (group : list Row)
  (slope increase_percentage : R) : R :=
  let confidence := 0.5 in
  let data_points := length group in
  let confidence := confidence + builtins.min 0.2 (INR data_points / 50) in
  let confidence := confidence + builtins.min 0.2 (slope / 10) in
  let confidence := confidence + builtins.min 0.2 (increase_percentage / 100) in
  let confidence :=
    if _has_consistent_intervals group then confidence + 0.1 else confidence in
  builtins.min 0.95 (builtins.max 0.3 confidence).

Definition _generate_recommendation (merchant_name : string)
  (increase_percentage : R) (frequency : string) : fstring :=
  if decide (increase_percentage > 50) then
    [Lit "Review your "; Str frequency; Lit " payment to "; Str merchant_name;
     Lit " - it has increased significantly. Consider contacting them about the price change or looking for alternatives."]
  else if decide (increase_percentage > 20) then
    [Lit "Your "; Str frequency; Lit " payment to "; Str merchant_name;
     Lit " has increased notably. You may want to review your subscription or service plan."]
  else
    [Lit "Your "; Str frequency; Lit " payment to "; Str merchant_name;
     Lit " has increased moderately. This could be due to plan changes or price adjustments."].

(** [(increase_amount / older_amount) * 100 if older_amount > 0 else 0];
    [None] is the inf or nan of a quotient by zero. *)
Definition percent_increase (recent_amount older_amount : R) : option R :=
  let increase_amount := recent_amount - older_amount in
  if decide (older_amount > 0) then
    quotient ← builtins.truediv increase_amount older_amount;
    Some (quotient * 100)
  else Some 0.

Definition _analyze_merchant_payments (merchant_name : string)
  (group : list Row) : option schemas.RisingPaymentResponse :=
  let group := builtins.sorted Z.lt date group in
  if negb (_is_recurring_pattern group) then None
  else
    let amounts := map amount group in
    if decide (length amounts < 3)%nat then None
    else
      let x := builtins.arange (length amounts) in
      let '(slope, intercept) := builtins.polyfit1 x amounts in
      if decide (slope <= 0.5) then None
      else
        let recent_amount := List.last amounts 0 in
        let older_amount := List.hd 0 amounts in
        let increase_amount := recent_amount - older_amount in
        match percent_increase recent_amount older_amount with
        | None => None (* not reached: the quotient is taken under the guard *)
        | Some increase_percentage =>
        if decide (increase_percentage < 5) then None
        else
          let frequency := _determine_frequency group in
          let confidence := _calculate_confidence group slope increase_percentage in
          let recommendation :=
            _generate_recommendation merchant_name increase_percentage frequency in
          Some {| schemas.rp_merchant_name := merchant_name;
                  schemas.rp_category := List.last (map category group) "";
                  schemas.current_amount := builtins.round recent_amount 2;
                  schemas.previous_amount := builtins.round older_amount 2;
                  schemas.increase_percentage := builtins.round increase_percentage 1;
                  schemas.increase_amount := builtins.round increase_amount 2;
                  schemas.frequency := frequency;
                  schemas.rp_confidence := confidence;
                  schemas.first_detected :=
                    strftime_ymd (List.hd 0%Z (map date group));
                  schemas.last_payment :=
                    strftime_ymd (List.last (map date group) 0%Z);
                  schemas.rp_recommendation := recommendation |}
        end.

Section PaymentAnalysisService.

(** [pd.to_datetime]: [None] when the text is not a timestamp (pandas raises). *)
Variable to_datetime : string -> option Timestamp.

Definition pd_to_datetime (text : string) : result Timestamp :=
  match to_datetime text with
  | Some t => Ok t
  | None => Raise (DateParseError text)
  end.

(** Only the transactions with a negative amount (spending) are read. *)
Definition _prepare_data (transactions : list schemas.TransactionData)
  : result (list Row) :=
  data ← mapM (fun txn =>
    posted ← pd_to_datetime (schemas.posted_at txn);
    mret {| date := posted;
            amount := Rabs (schemas.amount txn);
            merchant := schemas.merchant_name txn;
            category := schemas.category txn;
            is_recurring := schemas.is_recurring txn |})
    (filter (fun txn => schemas.amount txn < 0) transactions);
  mret (if decide (0 < length data)%nat then builtins.sorted Z.lt date data
        else data).

(** The list [rising_payments] once the loop over the merchant groups is
    done. *)
Definition rising_payments (merchant_groups : list (string * list Row))
  : list schemas.RisingPaymentResponse :=
  omap (fun '(merchant_name, group) =>
    if decide (length group < 3)%nat then None
    else _analyze_merchant_payments merchant_name group) merchant_groups.

(** The body of the [try] block of [detect_rising_payments]. *)
Definition detect_rising_payments_body
  (transactions : list schemas.TransactionData)
  : result (list schemas.RisingPaymentResponse) :=
  if decide (length transactions < 10)%nat then mret []
  else
    df ← _prepare_data transactions;
    merchant_groups ← groupby_merchant df;
    let found := rising_payments merchant_groups in
    let found := builtins.sorted Rgt schemas.increase_percentage found in
    mret (take 10 found).

Definition detect_rising_payments (transactions : list schemas.TransactionData)
  : result (list schemas.RisingPaymentResponse) :=
  try_except (detect_rising_payments_body transactions) (fun e => mret []).

End PaymentAnalysisService.
End payment_service.

(** ** main.py: the service globals, the startup and the two endpoints *)
Module main.

(** The service objects.  An [AnomalyDetectionService] holds the scaler and
    the isolation forest its constructor creates; a [PaymentAnalysisService]
    holds nothing. *)
Record AnomalyDetectionService : Type := {
  scaler_fit_transform : list (list R) -> result (list (list R));
  isolation_forest_fit_predict : list (list R) -> result (list Z);
  isolation_forest_decision_function : list (list R) -> result (list R)
}.

Inductive PaymentAnalysisService : Type := PaymentAnalysisService_object.

(** The module globals [anomaly_service] and [payment_service]: [None] until
    [lifespan] has run. *)
Record globals : Type := {
  anomaly_service_global : option AnomalyDetectionService;
  payment_service_global : option PaymentAnalysisService
}.

(** The globals as the module body leaves them. *)
Definition at_import : globals :=
  {| anomaly_service_global := None; payment_service_global := None |}.

(** The startup part of [lifespan]: the globals are bound to new service
    objects. *)
Definition lifespan (estimators : AnomalyDetectionService) : globals :=
  {| anomaly_service_global := Some estimators;
     payment_service_global := Some PaymentAnalysisService_object |}.

(** How an endpoint function ends: it returns the response body, or raises
    an [HTTPException].  The [detail] of the exception is kept as the text
    before [str(e)] and the exception [e] itself. *)
Inductive response (A : Type) : Type :=
  | Return (body : A)
  | HTTPException (status_code : Z) (detail : string) (e : exn).
Arguments Return {A} body.
Arguments HTTPException {A} status_code detail e.

Section endpoints.
Variable to_datetime : string -> option calendar.Timestamp.

(** [POST /anomalies/detect] *)
Definition detect_anomalies (g : globals)
  (transactions : list schemas.TransactionData)
  : response (list schemas.AnomalyResponse) :=
  let body :=
    match anomaly_service_global g with
    | None =>
        Raise (AttributeError
                 "'NoneType' object has no attribute 'detect_anomalies'")
    | Some service =>
        anomaly_service.detect_anomalies to_datetime
          (scaler_fit_transform service) (isolation_forest_fit_predict service)
          (isolation_forest_decision_function service) transactions
    end in
  match body with
  | Ok anomalies => Return anomalies
  | Raise e => HTTPException 500 "Anomaly detection failed: " e
  end.

(** [POST /payments/rising-detection] *)
Definition detect_rising_payments (g : globals)
  (transactions : list schemas.TransactionData)
  : response (list schemas.RisingPaymentResponse) :=
  let body :=
    match payment_service_global g with
    | None =>
        Raise (AttributeError
                 "'NoneType' object has no attribute 'detect_rising_payments'")
    | Some service =>
        payment_service.detect_rising_payments to_datetime transactions
    end in
  match body with
  | Ok rising_payments => Return rising_payments
  | Raise e => HTTPException 500 "Rising payment detection failed: " e
  end.

End endpoints.
End main.

(** ** The specification's wording, where the claims need it beside the code *)
Module spec.
Import calendar.

(** The span between the first and the last timestamp of the window of 5
    consecutive records that starts at position [i] of the time-sorted
    records. *)
Definition first_last_span (records : list anomaly_service.Row) (i : nat)
  : option Timedelta :=
  first ← records !! i;
  last ← records !! (i + 4)%nat;
  Some (anomaly_service.date last - anomaly_service.date first)%Z.

(** A merchant name lowercased and trimmed of surrounding whitespace, as
    [merchant_name.lower().strip()] of the merchant tagging service does it,
    on ASCII text. *)
Definition lower_ascii (c : ascii) : ascii :=
  let n := N_of_ascii c in
  if decide (65 <= n <= 90)%N then ascii_of_N (n + 32) else c.

Definition is_space (c : ascii) : bool :=
  let n := N_of_ascii c in
  bool_decide (n = 32 \/ 9 <= n <= 13)%N.

Fixpoint lstrip (cs : list ascii) : list ascii :=
  match cs with
  | c :: cs' => if is_space c then lstrip cs' else cs
  | [] => []
  end.

Definition lower_strip (name : string) : string :=
  let cs := map lower_ascii (String.list_ascii_of_string name) in
  String.string_of_list_ascii (reverse (lstrip (reverse (lstrip cs)))).
End spec.

(** ** Concrete batches *)
Module examples.
Import schemas.
Local Open Scope R_scope.

(** Stand-ins for the scikit-learn estimators: no scaling, no outlier. *)
Definition scaler_fit_transform (X : list (list R)) : result (list (list R)) :=
  Ok X.
Definition isolation_forest_fit_predict (X : list (list R)) : result (list Z) :=
  Ok (map (fun _ => 1%Z) X).
Definition isolation_forest_decision_function (X : list (list R))
  : result (list R) :=
  Ok (map (fun _ => 0.1) X).

Definition txn (id posted_at : string) (amount : R)
  (merchant_name category : string) : TransactionData :=
  {| id := id; posted_at := posted_at; amount := amount;
     category := category; merchant_name := merchant_name;
     is_recurring := false |}.

(** The request of [test_rising_payments] in tests/test_main.py. *)
Definition two_payments : list TransactionData :=
  [ txn "txn_1" "2024-01-15T10:30:00Z" (-9.99) "Netflix" "Entertainment";
    txn "txn_2" "2024-02-15T10:30:00Z" (-12.99) "Netflix" "Entertainment" ].

(** Ten spending records, the fourth with a timestamp that is no timestamp. *)
Definition bad_record : TransactionData :=
  txn "a4" "the day before yesterday" (-45.67) "Starbucks" "Food & Dining".

Definition batch_with_bad_timestamp : list TransactionData :=
  [ txn "a1" "2024-03-01T09:00:00Z" (-12.50) "Bakery" "Food & Dining";
    txn "a2" "2024-03-02T09:00:00Z" (-30.00) "Pharmacy" "Healthcare";
    txn "a3" "2024-03-03T09:00:00Z" (-8.20) "Bakery" "Food & Dining";
    bad_record;
    txn "a5" "2024-03-05T09:00:00Z" (-125.50) "Grocery Store" "Groceries";
    txn "a6" "2024-03-06T09:00:00Z" (-60.00) "Gas Station" "Transport";
    txn "a7" "2024-03-07T09:00:00Z" (-15.00) "Bakery" "Food & Dining";
    txn "a8" "2024-03-08T09:00:00Z" (-99.00) "Grocery Store" "Groceries";
    txn "a9" "2024-03-09T09:00:00Z" (-20.00) "Pharmacy" "Healthcare";
    txn "a10" "2024-03-10T09:00:00Z" (-5.00) "Bakery" "Food & Dining" ].

(** Five transactions at five merchants within 40 minutes, and a sixth two
    hours after the fifth. *)
Definition burst_transactions : list TransactionData :=
  [ txn "b1" "2024-03-01T10:00:00Z" (-20.00) "Bakery" "Food & Dining";
    txn "b2" "2024-03-01T10:10:00Z" (-35.00) "Pharmacy" "Healthcare";
    txn "b3" "2024-03-01T10:20:00Z" (-18.00) "Bookshop" "Shopping";
    txn "b4" "2024-03-01T10:30:00Z" (-42.00) "Gas Station" "Transport";
    txn "b5" "2024-03-01T10:40:00Z" (-27.00) "Grocery Store" "Groceries";
    txn "b6" "2024-03-01T12:40:00Z" (-31.00) "Florist" "Shopping" ].

Definition burst_df : list anomaly_service.Row :=
  match anomaly_service._prepare_data calendar.iso_to_datetime burst_transactions with
  | Ok df => df
  | Raise _ => []
  end.

(** A subscription charged 9.99 on the 15th of six months and 19.99 on the
    15th of the seventh, in a batch of ten records. *)
Definition subscription_batch : list TransactionData :=
  [ txn "s1" "2024-01-15T08:00:00Z" (-9.99) "Netflix" "Entertainment";
    txn "s2" "2024-02-15T08:00:00Z" (-9.99) "Netflix" "Entertainment";
    txn "s3" "2024-03-15T08:00:00Z" (-9.99) "Netflix" "Entertainment";
    txn "s4" "2024-04-15T08:00:00Z" (-9.99) "Netflix" "Entertainment";
    txn "s5" "2024-05-15T08:00:00Z" (-9.99) "Netflix" "Entertainment";
    txn "s6" "2024-06-15T08:00:00Z" (-9.99) "Netflix" "Entertainment";
    txn "s7" "2024-07-15T08:00:00Z" (-19.99) "Netflix" "Entertainment";
    txn "s8" "2024-02-01T09:00:00Z" 3000 "Employer" "Income";
    txn "s9" "2024-03-20T18:30:00Z" (-54.20) "Grocery Store" "Groceries";
    txn "s10" "2024-05-02T07:45:00Z" (-4.50) "Coffee Shop" "Food & Dining" ].

Definition payment_row (date : calendar.Timestamp) (amount : R)
  (merchant category : string) : payment_service.Row :=
  {| payment_service.date := date; payment_service.amount := amount;
     payment_service.merchant := merchant; payment_service.category := category;
     payment_service.is_recurring := false |}.

(** The seven rows of the subscription, as [_prepare_data] makes them. *)
Definition subscription_group : list payment_service.Row :=
  [ payment_row 1705305600000000000%Z 9.99 "Netflix" "Entertainment";
    payment_row 1707984000000000000%Z 9.99 "Netflix" "Entertainment";
    payment_row 1710489600000000000%Z 9.99 "Netflix" "Entertainment";
    payment_row 1713168000000000000%Z 9.99 "Netflix" "Entertainment";
    payment_row 1715760000000000000%Z 9.99 "Netflix" "Entertainment";
    payment_row 1718438400000000000%Z 9.99 "Netflix" "Entertainment";
    payment_row 1721030400000000000%Z 19.99 "Netflix" "Entertainment" ].

(** The spending records of [subscription_batch], in the order of the batch. *)
Definition subscription_spending : list TransactionData :=
  [ txn "s1" "2024-01-15T08:00:00Z" (-9.99) "Netflix" "Entertainment";
    txn "s2" "2024-02-15T08:00:00Z" (-9.99) "Netflix" "Entertainment";
    txn "s3" "2024-03-15T08:00:00Z" (-9.99) "Netflix" "Entertainment";
    txn "s4" "2024-04-15T08:00:00Z" (-9.99) "Netflix" "Entertainment";
    txn "s5" "2024-05-15T08:00:00Z" (-9.99) "Netflix" "Entertainment";
    txn "s6" "2024-06-15T08:00:00Z" (-9.99) "Netflix" "Entertainment";
    txn "s7" "2024-07-15T08:00:00Z" (-19.99) "Netflix" "Entertainment";
    txn "s9" "2024-03-20T18:30:00Z" (-54.20) "Grocery Store" "Groceries";
    txn "s10" "2024-05-02T07:45:00Z" (-4.50) "Coffee Shop" "Food & Dining" ].

(** The same batch with an income record whose timestamp is no timestamp. *)
Definition pending_income : TransactionData :=
  txn "s8" "pending" 3000 "Employer" "Income".

Definition subscription_batch_pending_income : list TransactionData :=
  take 7 subscription_batch ++ pending_income :: drop 8 subscription_batch.

(** What [detect_rising_payments] reports for the subscription. *)
Definition subscription_finding : RisingPaymentResponse :=
  {| rp_merchant_name := "Netflix";
     rp_category := "Entertainment";
     current_amount := 19.99;
     previous_amount := 9.99;
     increase_percentage := 100.1;
     increase_amount := 10;
     frequency := "monthly";
     rp_confidence := 0.95;
     first_detected := "2024-01-15";
     last_payment := "2024-07-15";
     rp_recommendation :=
       [Lit "Review your "; Str "monthly"; Lit " payment to "; Str "Netflix";
        Lit " - it has increased significantly. Consider contacting them about the price change or looking for alternatives."] |}.

(** The spending rows of [subscription_batch], by date. *)
Definition subscription_df : list payment_service.Row :=
  [ payment_row 1705305600000000000%Z 9.99 "Netflix" "Entertainment";
    payment_row 1707984000000000000%Z 9.99 "Netflix" "Entertainment";
    payment_row 1710489600000000000%Z 9.99 "Netflix" "Entertainment";
    payment_row 1710959400000000000%Z 54.20 "Grocery Store" "Groceries";
    payment_row 1713168000000000000%Z 9.99 "Netflix" "Entertainment";
    payment_row 1714635900000000000%Z 4.50 "Coffee Shop" "Food & Dining";
    payment_row 1715760000000000000%Z 9.99 "Netflix" "Entertainment";
    payment_row 1718438400000000000%Z 9.99 "Netflix" "Entertainment";
    payment_row 1721030400000000000%Z 19.99 "Netflix" "Entertainment" ].

(** A group whose first payment is of amount 0. *)
Definition free_trial_group : list payment_service.Row :=
  [ payment_row 1705305600000000000%Z 0 "Streaming" "Entertainment";
    payment_row 1707984000000000000%Z 9.99 "Streaming" "Entertainment";
    payment_row 1710489600000000000%Z 19.99 "Streaming" "Entertainment" ].

Definition anomaly_row (id : string) (date : calendar.Timestamp) (amount : R)
  (merchant category : string) : anomaly_service.Row :=
  {| anomaly_service.id := id; anomaly_service.date := date;
     anomaly_service.amount := amount;
     anomaly_service.category := category;
     anomaly_service.merchant := merchant;
     anomaly_service.is_recurring := false;
     anomaly_service.hour := calendar.hour date;
     anomaly_service.day_of_week := calendar.dayofweek date;
     anomaly_service.day_of_month := calendar.day date |}.

Definition day_at_noon (n : Z) : calendar.Timestamp :=
  ((19783 + n) * calendar.ns_per_day + 12 * calendar.ns_per_hour)%Z.

(** Twelve records: eleven of amount 50 and one of amount 5000. *)
Definition outlier_df : list anomaly_service.Row :=
  [ anomaly_row "t1" (day_at_noon 1) 50 "Grocery Store" "Groceries";
    anomaly_row "t2" (day_at_noon 2) 50 "Grocery Store" "Groceries";
    anomaly_row "t3" (day_at_noon 3) 50 "Grocery Store" "Groceries";
    anomaly_row "t4" (day_at_noon 4) 50 "Grocery Store" "Groceries";
    anomaly_row "t5" (day_at_noon 5) 50 "Grocery Store" "Groceries";
    anomaly_row "t6" (day_at_noon 6) 50 "Grocery Store" "Groceries";
    anomaly_row "t7" (day_at_noon 7) 5000 "Electronics Store" "Shopping";
    anomaly_row "t8" (day_at_noon 8) 50 "Grocery Store" "Groceries";
    anomaly_row "t9" (day_at_noon 9) 50 "Grocery Store" "Groceries";
    anomaly_row "t10" (day_at_noon 10) 50 "Grocery Store" "Groceries";
    anomaly_row "t11" (day_at_noon 11) 50 "Grocery Store" "Groceries";
    anomaly_row "t12" (day_at_noon 12) 50 "Grocery Store" "Groceries" ].

(** The transactions [outlier_df] is prepared from. *)
Definition outlier_transactions : list TransactionData :=
  [ txn "t1" "2024-03-02T12:00:00Z" (-50) "Grocery Store" "Groceries";
    txn "t2" "2024-03-03T12:00:00Z" (-50) "Grocery Store" "Groceries";
    txn "t3" "2024-03-04T12:00:00Z" (-50) "Grocery Store" "Groceries";
    txn "t4" "2024-03-05T12:00:00Z" (-50) "Grocery Store" "Groceries";
    txn "t5" "2024-03-06T12:00:00Z" (-50) "Grocery Store" "Groceries";
    txn "t6" "2024-03-07T12:00:00Z" (-50) "Grocery Store" "Groceries";
    txn "t7" "2024-03-08T12:00:00Z" (-5000) "Electronics Store" "Shopping";
    txn "t8" "2024-03-09T12:00:00Z" (-50) "Grocery Store" "Groceries";
    txn "t9" "2024-03-10T12:00:00Z" (-50) "Grocery Store" "Groceries";
    txn "t10" "2024-03-11T12:00:00Z" (-50) "Grocery Store" "Groceries";
    txn "t11" "2024-03-12T12:00:00Z" (-50) "Grocery Store" "Groceries";
    txn "t12" "2024-03-13T12:00:00Z" (-50) "Grocery Store" "Groceries" ].

(** Ten records of one amount. *)
Definition flat_df : list anomaly_service.Row :=
  map (fun n => anomaly_row ("f" +:+ pretty n) (day_at_noon n) 50
                  "Grocery Store" "Groceries")
      [1; 2; 3; 4; 5; 6; 7; 8; 9; 10]%Z.

(** One merchant written in two ways. *)
Definition cafe_1 : anomaly_service.Row :=
  anomaly_row "c1" (day_at_noon 1) 4.50 "Corner Cafe" "Food & Dining".
Definition cafe_2 : anomaly_service.Row :=
  anomaly_row "c2" (day_at_noon 2) 4.50 "Corner Cafe" "Food & Dining".
Definition cafe_3 : anomaly_service.Row :=
  anomaly_row "c3" (day_at_noon 3) 45.00 " corner cafe" "Food & Dining".
Definition cafe_df : list anomaly_service.Row := [cafe_1; cafe_2; cafe_3].

(** Estimators that fail to fit. *)
Definition failing_scaler (X : list (list R)) : result (list (list R)) :=
  Raise (EstimatorError "Input contains NaN").
Definition failing_fit_predict (X : list (list R)) : result (list Z) :=
  Raise (EstimatorError "Input contains NaN").
Definition failing_decision_function (X : list (list R)) : result (list R) :=
  Raise (EstimatorError "Input contains NaN").

(** Twenty records, one a day. *)
Definition twenty_transactions : list TransactionData :=
  map (fun n => txn ("m" +:+ pretty n)
                  ("2024-03-" +:+ calendar.pad 2 n +:+ "T12:00:00Z")
                  (- 50) "Grocery Store" "Groceries")
      [1; 2; 3; 4; 5; 6; 7; 8; 9; 10; 11; 12; 13; 14; 15; 16; 17; 18; 19; 20]%Z.

(** Ten deposits and no spending. *)
Definition income_batch : list TransactionData :=
  map (fun n => txn ("d" +:+ pretty n)
                  ("2024-03-" +:+ calendar.pad 2 n +:+ "T09:00:00Z")
                  3000 "Employer" "Income")
      [1; 2; 3; 4; 5; 6; 7; 8; 9; 10]%Z.

(** A membership charged every seven days. *)
Definition weekly_group : list payment_service.Row :=
  [ payment_row (day_at_noon 1) 20 "Gym" "Health";
    payment_row (day_at_noon 8) 22 "Gym" "Health";
    payment_row (day_at_noon 15) 24 "Gym" "Health" ].

(** A coffee a day, each dearer than the one before. *)
Definition daily_group : list payment_service.Row :=
  [ payment_row (day_at_noon 1) 3 "Coffee Shop" "Food & Dining";
    payment_row (day_at_noon 2) 4 "Coffee Shop" "Food & Dining";
    payment_row (day_at_noon 3) 5 "Coffee Shop" "Food & Dining";
    payment_row (day_at_noon 4) 6 "Coffee Shop" "Food & Dining" ].

(** Seven purchases at one shop, the third a hundred times the others. *)
Definition corner_shop_outlier : anomaly_service.Row :=
  anomaly_row "k3" (day_at_noon 3) 5000 "Corner Shop" "Groceries".

Definition corner_shop_df : list anomaly_service.Row :=
  [ anomaly_row "k1" (day_at_noon 1) 50 "Corner Shop" "Groceries";
    anomaly_row "k2" (day_at_noon 2) 50 "Corner Shop" "Groceries";
    corner_shop_outlier;
    anomaly_row "k4" (day_at_noon 4) 50 "Corner Shop" "Groceries";
    anomaly_row "k5" (day_at_noon 5) 50 "Corner Shop" "Groceries";
    anomaly_row "k6" (day_at_noon 6) 50 "Corner Shop" "Groceries";
    anomaly_row "k7" (day_at_noon 7) 50 "Corner Shop" "Groceries" ].

(** A subscription that goes from 0.50 to 0.99 in three months. *)
Definition cheap_group : list payment_service.Row :=
  [ payment_row 1705305600000000000%Z 0.50 "Newsletter" "Entertainment";
    payment_row 1707984000000000000%Z 0.75 "Newsletter" "Entertainment";
    payment_row 1710489600000000000%Z 0.99 "Newsletter" "Entertainment" ].
End examples.

(** * Properties *)

(** ** The calendar *)

Example iso_to_datetime_test_request :
  calendar.iso_to_datetime "2024-01-15T10:30:00Z" = Some 1705314600000000000%Z
  /\ calendar.iso_to_datetime "2024-01-15T10:30:00" = Some 1705314600000000000%Z
  /\ calendar.iso_to_datetime "2024-01-15" = Some 1705276800000000000%Z.
Proof. vm_compute. repeat split; reflexivity. Qed.

Example iso_to_datetime_rejects :
  calendar.iso_to_datetime "the day before yesterday" = None
  /\ calendar.iso_to_datetime "2024-02-30T10:30:00Z" = None
  /\ calendar.iso_to_datetime "2024-01-15T25:00:00Z" = None.
Proof. vm_compute. repeat split; reflexivity. Qed.

Example timestamp_fields :
  calendar.strftime_ymd 1705314600000000000%Z = "2024-01-15"%string
  /\ calendar.hour 1705314600000000000%Z = 10%Z
  /\ calendar.dayofweek 1705314600000000000%Z = 0%Z
  /\ calendar.day 1705314600000000000%Z = 15%Z.
Proof. vm_compute. repeat split; reflexivity. Qed.

Example lower_strip_test :
  spec.lower_strip "  Corner CAFE " = "corner cafe"%string.
Proof. vm_compute. reflexivity. Qed.

(** ** The exception monad *)

Lemma bind_Ok {A B : Type} (m : result A) (f : A -> result B) (b : B) :
  m ≫= f = Ok b <-> exists a, m = Ok a /\ f a = Ok b.
Proof.
  destruct m as [a|e]; simpl; split.
  - intros H. exists a. auto.
  - intros (a' & Ha & Hf). inversion Ha. subst. exact Hf.
  - discriminate.
  - intros (a' & Ha & _). discriminate.
Qed.

Lemma try_except_returns {A : Type} (body : result A) (fallback : A) :
  exists out, try_except body (fun _ => mret fallback) = Ok out
    /\ (forall e, body = Raise e -> out = fallback)
    /\ (forall a, body = Ok a -> out = a).
Proof.
  destruct body as [a|e]; simpl.
  - exists a. repeat split; intros; congruence.
  - exists fallback. repeat split; intros; congruence.
Qed.

Lemma mapM_cons {A B : Type} (f : A -> result B) (x : A) (l : list A) :
  mapM f (x :: l) = (y ← f x; k ← mapM f l; mret (y :: k)).
Proof. reflexivity. Qed.

Lemma mapM_Ok_length {A B : Type} (f : A -> result B) (l : list A) (k : list B) :
  mapM f l = Ok k -> length k = length l.
Proof.
  revert k. induction l as [|x l IH]; intros k H.
  - inversion H. reflexivity.
  - rewrite mapM_cons in H.
    apply bind_Ok in H as (y & _ & H).
    apply bind_Ok in H as (k' & Hk' & H).
    inversion H. subst. simpl. f_equal. apply IH. exact Hk'.
Qed.

Lemma mapM_Raise {A B : Type} (f : A -> result B) (l : list A) (x : A) :
  x ∈ l -> (exists e, f x = Raise e) -> exists e, mapM f l = Raise e.
Proof.
  intros Hin [e He]. induction l as [|y l IH]; [inversion Hin|].
  rewrite mapM_cons. apply elem_of_cons in Hin as [<-|Hin].
  - rewrite He. exists e. reflexivity.
  - destruct (f y) as [b|e']; [|exists e'; reflexivity].
    destruct (IH Hin) as [e'' IH']. rewrite IH'. exists e''. reflexivity.
Qed.

(** ** Stable sorting *)

Section sorting_facts.
Context {A K : Type} (lt : K -> K -> Prop) `{!RelDecision lt} (key : A -> K).

Lemma insort_Permutation (x : A) (l : list A) :
  builtins.insort lt key x l ≡ₚ x :: l.
Proof.
  induction l as [|y l IH]; simpl; [reflexivity|].
  case_decide; [|reflexivity].
  rewrite IH. apply perm_swap.
Qed.

Lemma sorted_Permutation (l : list A) : builtins.sorted lt key l ≡ₚ l.
Proof.
  induction l as [|x l IH]; simpl; [reflexivity|].
  rewrite insort_Permutation. rewrite IH. reflexivity.
Qed.

Lemma sorted_length (l : list A) : length (builtins.sorted lt key l) = length l.
Proof. apply Permutation_length, sorted_Permutation. Qed.

Lemma elem_of_sorted (x : A) (l : list A) : x ∈ builtins.sorted lt key l <-> x ∈ l.
Proof. rewrite sorted_Permutation. reflexivity. Qed.

(** The order of the keys is a strict weak order. *)
Hypothesis lt_asym : forall a b, lt a b -> ~ lt b a.
Hypothesis lt_negtrans : forall a b c, ~ lt a b -> ~ lt b c -> ~ lt a c.

Lemma insort_StronglySorted (x : A) (l : list A) :
  StronglySorted (fun a b => ~ lt (key b) (key a)) l ->
  StronglySorted (fun a b => ~ lt (key b) (key a)) (builtins.insort lt key x l).
Proof.
  induction l as [|y l IH]; intros Hs; simpl.
  - repeat constructor.
  - apply StronglySorted_inv in Hs as [Hs Hy].
    case_decide as Hyx.
    + constructor; [apply IH; exact Hs|].
      rewrite insort_Permutation. constructor; [|exact Hy].
      apply lt_asym. exact Hyx.
    + constructor; [constructor; assumption|].
      constructor; [exact Hyx|].
      rewrite Forall_forall in Hy |- *. intros z Hz.
      apply (lt_negtrans _ (key y)); [apply Hy; exact Hz | exact Hyx].
Qed.

Lemma sorted_StronglySorted (l : list A) :
  StronglySorted (fun a b => ~ lt (key b) (key a)) (builtins.sorted lt key l).
Proof.
  induction l as [|x l IH]; simpl; [constructor|].
  apply insort_StronglySorted. exact IH.
Qed.

(** Sorting is stable: the elements of one key keep their order. *)
Context `{!EqDecision K}.

Lemma insort_stable (k : K) (x : A) (l : list A) :
  filter (fun a => key a = k) (builtins.insort lt key x l)
  = filter (fun a => key a = k) (x :: l).
Proof.
  induction l as [|y l IH]; simpl; [reflexivity|].
  case_decide as Hyx; [|reflexivity].
  rewrite filter_cons, IH, !filter_cons.
  destruct (decide (key y = k)) as [Hy|Hy], (decide (key x = k)) as [Hx|Hx];
    try reflexivity.
  exfalso. rewrite Hy, <- Hx in Hyx. exact (lt_asym _ _ Hyx Hyx).
Qed.

Lemma sorted_stable (k : K) (l : list A) :
  filter (fun a => key a = k) (builtins.sorted lt key l)
  = filter (fun a => key a = k) l.
Proof.
  induction l as [|x l IH]; simpl; [reflexivity|].
  rewrite insort_stable, !filter_cons, IH. reflexivity.
Qed.

(** Sorting a sorted list changes nothing. *)
Lemma sorted_of_sorted (l : list A) :
  StronglySorted (fun a b => ~ lt (key b) (key a)) l ->
  builtins.sorted lt key l = l.
Proof.
  induction l as [|x l IH]; intros Hs; simpl; [reflexivity|].
  apply StronglySorted_inv in Hs as [Hs Hx].
  rewrite IH by exact Hs.
  destruct l as [|y l]; simpl; [reflexivity|].
  rewrite decide_False; [reflexivity|].
  apply Forall_inv in Hx. exact Hx.
Qed.

End sorting_facts.

Lemma Rgt_asym (a b : R) : (a > b)%R -> ~ (b > a)%R.
Proof. lra. Qed.

Lemma Rgt_negtrans (a b c : R) : ~ (a > b)%R -> ~ (b > c)%R -> ~ (a > c)%R.
Proof. lra. Qed.

Lemma Zlt_asym (a b : Z) : (a < b)%Z -> ~ (b < a)%Z.
Proof. lia. Qed.

Lemma Zlt_negtrans (a b c : Z) : ~ (a < b)%Z -> ~ (b < c)%Z -> ~ (a < c)%Z.
Proof. lia. Qed.

Lemma StronglySorted_weaken {A : Type} (R1 R2 : A -> A -> Prop) (l : list A) :
  (forall a b, R1 a b -> R2 a b) -> StronglySorted R1 l -> StronglySorted R2 l.
Proof.
  intros Himp Hs. induction Hs as [|a l Hs IH Ha]; constructor.
  - exact IH.
  - eapply Forall_impl; [exact Ha|]. intros b. apply Himp.
Qed.

(** [sorted(..., reverse=True)] on a real key: non-increasing keys. *)
Lemma sorted_reverse_nonincreasing {A : Type} (key : A -> R) (l : list A) :
  StronglySorted (fun a b => (key a >= key b)%R) (builtins.sorted Rgt key l).
Proof.
  eapply StronglySorted_weaken;
    [|apply sorted_StronglySorted; [exact Rgt_asym | exact Rgt_negtrans]].
  intros a b H. simpl in H. lra.
Qed.

(** ** Deduplication *)

Section deduplication.
Import schemas.

Lemma keep_unseen_elem (seen : gset string) (l : list AnomalyResponse)
  (f : AnomalyResponse) :
  f ∈ anomaly_service.keep_unseen seen l -> f ∈ l /\ transaction_id f ∉ seen.
Proof.
  revert seen. induction l as [|a l IH]; intros seen Hf; simpl in Hf.
  - inversion Hf.
  - case_decide as Ha.
    + apply elem_of_cons in Hf as [->|Hf].
      * split; [left | exact Ha].
      * pose proof (IH _ Hf) as [Hin Hns]. split; [right; exact Hin|].
        intros Hs. apply Hns, elem_of_union. right. exact Hs.
    + pose proof (IH _ Hf) as [Hin Hns]. split; [right; exact Hin | exact Hns].
Qed.

Lemma keep_unseen_NoDup (seen : gset string) (l : list AnomalyResponse) :
  NoDup (map transaction_id (anomaly_service.keep_unseen seen l)).
Proof.
  revert seen. induction l as [|a l IH]; intros seen; simpl.
  - constructor.
  - case_decide as Ha; [|apply IH].
    simpl. constructor; [|apply IH].
    intros Hin. apply list_elem_of_In, in_map_iff in Hin as (f & Hid & Hf).
    apply list_elem_of_In, keep_unseen_elem in Hf as [_ Hns].
    apply Hns, elem_of_union. left. apply elem_of_singleton. exact Hid.
Qed.

(** A finding that is kept is the first of its transaction in the list. *)
Lemma keep_unseen_first (seen : gset string) (l : list AnomalyResponse)
  (f : AnomalyResponse) :
  f ∈ anomaly_service.keep_unseen seen l ->
  exists l1 l2, l = l1 ++ f :: l2
    /\ forall c, c ∈ l1 -> transaction_id c <> transaction_id f.
Proof.
  revert seen. induction l as [|a l IH]; intros seen Hf; simpl in Hf.
  - inversion Hf.
  - case_decide as Ha.
    + apply elem_of_cons in Hf as [->|Hf].
      * exists [], l. split; [reflexivity|]. intros c Hc. inversion Hc.
      * pose proof (keep_unseen_elem _ _ _ Hf) as [_ Hns].
        pose proof (IH _ Hf) as (l1 & l2 & -> & Hl1).
        exists (a :: l1), l2. split; [reflexivity|].
        intros c Hc. apply elem_of_cons in Hc as [->|Hc].
        { intros Heq. apply Hns, elem_of_union. left.
          apply elem_of_singleton. symmetry. exact Heq. }
        apply Hl1. exact Hc.
    + pose proof (keep_unseen_elem _ _ _ Hf) as [_ Hns].
      pose proof (IH _ Hf) as (l1 & l2 & -> & Hl1).
      exists (a :: l1), l2. split; [reflexivity|].
      intros c Hc. apply elem_of_cons in Hc as [->|Hc].
      * intros Heq. apply Hns. rewrite <- Heq. exact Ha.
      * apply Hl1. exact Hc.
Qed.

(** Every transaction of the list keeps one finding. *)
Lemma keep_unseen_complete (seen : gset string) (l : list AnomalyResponse)
  (c : AnomalyResponse) :
  c ∈ l -> transaction_id c ∉ seen ->
  exists f, f ∈ anomaly_service.keep_unseen seen l
    /\ transaction_id f = transaction_id c.
Proof.
  revert seen. induction l as [|a l IH]; intros seen Hc Hns; [inversion Hc|].
  simpl. apply elem_of_cons in Hc as [->|Hc].
  - rewrite decide_True by exact Hns. exists a. split; [left | reflexivity].
  - case_decide as Ha.
    + destruct (decide (transaction_id a = transaction_id c)) as [Heq|Hne].
      * exists a. split; [left | exact Heq].
      * assert (Hns' : transaction_id c ∉ {[transaction_id a]} ∪ seen).
        { intros Hu. apply elem_of_union in Hu as [Hu|Hu]; [|exact (Hns Hu)].
          apply elem_of_singleton in Hu. congruence. }
        pose proof (IH _ Hc Hns') as (f & Hf & Hid).
        exists f. split; [right; exact Hf | exact Hid].
    + apply IH; assumption.
Qed.

Lemma filter_none {A : Type} (P : A -> Prop) `{!forall x, Decision (P x)}
  (l : list A) :
  (forall x, x ∈ l -> ~ P x) -> filter P l = [].
Proof.
  induction l as [|x l IH]; intros Hnone; [reflexivity|].
  rewrite filter_cons, decide_False by (apply Hnone; left).
  apply IH. intros y Hy. apply Hnone. right. exact Hy.
Qed.

(** What [_deduplicate_anomalies] followed by the final sort returns, in
    terms of the candidate findings. *)
Lemma aggregate_spec (cands : list AnomalyResponse) :
  let out := builtins.sorted Rgt confidence
               (anomaly_service._deduplicate_anomalies cands) in
  NoDup (map transaction_id out)
  /\ (forall f, f ∈ out ->
        f ∈ cands
        /\ (forall c, c ∈ cands -> transaction_id c = transaction_id f ->
              (confidence c <= confidence f)%R)
        /\ head (filter (fun c => transaction_id c = transaction_id f
                                  /\ confidence c = confidence f) cands)
           = Some f)
  /\ (forall c, c ∈ cands ->
        exists f, f ∈ out /\ transaction_id f = transaction_id c).
Proof.
  intros out. subst out. unfold anomaly_service._deduplicate_anomalies.
  set (S := builtins.sorted Rgt confidence cands).
  assert (HS : StronglySorted (fun a b => ~ (confidence b > confidence a)%R) S)
    by (apply sorted_StronglySorted; [exact Rgt_asym | exact Rgt_negtrans]).
  split; [|split].
  - rewrite (Permutation_map transaction_id (sorted_Permutation Rgt confidence _)).
    apply keep_unseen_NoDup.
  - intros f Hf. apply elem_of_sorted in Hf.
    destruct (keep_unseen_first _ _ _ Hf) as (l1 & l2 & HSeq & Hl1).
    apply keep_unseen_elem in Hf as [HfS _].
    rewrite HSeq in HS. apply StronglySorted_app in HS as (_ & _ & Hfl2).
    apply StronglySorted_inv in Hfl2 as [_ Hfl2].
    rewrite Forall_forall in Hfl2.
    split; [|split].
    + apply (elem_of_sorted Rgt confidence). exact HfS.
    + intros c Hc Hid. apply (elem_of_sorted Rgt confidence) in Hc.
      fold S in Hc. rewrite HSeq in Hc.
      apply elem_of_app in Hc as [Hc|Hc]; [exfalso; exact (Hl1 c Hc Hid)|].
      apply elem_of_cons in Hc as [->|Hc]; [lra|].
      specialize (Hfl2 c Hc). lra.
    + rewrite <- (list_filter_filter (fun c => transaction_id c = transaction_id f)
                   (fun c => confidence c = confidence f)).
      rewrite <- (sorted_stable Rgt confidence Rgt_asym (confidence f) cands).
      fold S. rewrite list_filter_filter, HSeq, filter_app.
      rewrite (filter_none _ l1) by (intros c Hc [Hid _]; exact (Hl1 c Hc Hid)).
      simpl. rewrite filter_cons_True by (split; reflexivity). reflexivity.
  - intros c Hc. apply (elem_of_sorted Rgt confidence) in Hc. fold S in Hc.
    assert (Hns : transaction_id c ∉ (∅ : gset string)) by apply not_elem_of_empty.
    pose proof (keep_unseen_complete ∅ S c Hc Hns) as (f & Hf & Hid).
    exists f. split; [|exact Hid]. apply elem_of_sorted. exact Hf.
Qed.
End deduplication.

(** ** The two entry points *)

Lemma mapM_Raise_inv {A B : Type} (f : A -> result B) (l : list A) (e : exn) :
  mapM f l = Raise e -> exists x, x ∈ l /\ f x = Raise e.
Proof.
  induction l as [|y l IH]; intros Hr; [discriminate|].
  rewrite mapM_cons in Hr. destruct (f y) as [b|e'] eqn:Hy.
  - destruct (mapM f l) as [k|e'']; [discriminate|].
    simpl in Hr. destruct (IH Hr) as (x & Hx & Hfx).
    exists x. split; [right; exact Hx | exact Hfx].
  - simpl in Hr. exists y. split; [left | congruence].
Qed.

Lemma StronglySorted_take {A : Type} (R : A -> A -> Prop) (n : nat) (l : list A) :
  StronglySorted R l -> StronglySorted R (take n l).
Proof.
  intros Hs. rewrite <- (take_drop n l) in Hs.
  apply StronglySorted_app in Hs as (_ & Hs & _). exact Hs.
Qed.

Section entry_points.
Import schemas.
Variable to_datetime : string -> option calendar.Timestamp.
Variable scaler_fit_transform : list (list R) -> result (list (list R)).
Variable isolation_forest_fit_predict : list (list R) -> result (list Z).
Variable isolation_forest_decision_function : list (list R) -> result (list R).

#[local] Abbreviation detect_anomalies :=
  (anomaly_service.detect_anomalies to_datetime scaler_fit_transform
     isolation_forest_fit_predict isolation_forest_decision_function).
#[local] Abbreviation detect_anomalies_body :=
  (anomaly_service.detect_anomalies_body to_datetime scaler_fit_transform
     isolation_forest_fit_predict isolation_forest_decision_function).
#[local] Abbreviation anomalies :=
  (anomaly_service.anomalies scaler_fit_transform
     isolation_forest_fit_predict isolation_forest_decision_function).
#[local] Abbreviation detect_rising_payments :=
  (payment_service.detect_rising_payments to_datetime).
#[local] Abbreviation detect_rising_payments_body :=
  (payment_service.detect_rising_payments_body to_datetime).

(** The two ways [detect_anomalies] ends: with nothing, or with the
    deduplicated and sorted findings of the four detectors. *)
Lemma detect_anomalies_cases (transactions : list TransactionData) :
  detect_anomalies transactions = Ok []
  \/ exists df cands,
       anomaly_service._prepare_data to_datetime transactions = Ok df
       /\ anomalies df = Ok cands
       /\ detect_anomalies transactions
          = Ok (builtins.sorted Rgt confidence
                  (anomaly_service._deduplicate_anomalies cands)).
Proof.
  unfold anomaly_service.detect_anomalies, anomaly_service.detect_anomalies_body.
  case_decide; [left; reflexivity|].
  destruct (anomaly_service._prepare_data to_datetime transactions) as [df|e];
    [|left; reflexivity].
  simpl. destruct (anomalies df) as [cands|e] eqn:Hcands; [|left; reflexivity].
  right. exists df, cands. split; [reflexivity|]. split; [exact Hcands | reflexivity].
Qed.

(** The same for [detect_rising_payments]. *)
Lemma detect_rising_payments_cases (transactions : list TransactionData) :
  detect_rising_payments transactions = Ok []
  \/ exists df merchant_groups,
       payment_service._prepare_data to_datetime transactions = Ok df
       /\ payment_service.groupby_merchant df = Ok merchant_groups
       /\ detect_rising_payments transactions
          = Ok (take 10 (builtins.sorted Rgt increase_percentage
                           (payment_service.rising_payments merchant_groups))).
Proof.
  unfold payment_service.detect_rising_payments,
    payment_service.detect_rising_payments_body.
  case_decide; [left; reflexivity|].
  destruct (payment_service._prepare_data to_datetime transactions) as [df|e];
    [|left; reflexivity].
  simpl. destruct (payment_service.groupby_merchant df) as [groups|e] eqn:Hgroups;
    [|left; reflexivity].
  right. exists df, groups. split; [reflexivity|]. split; [exact Hgroups | reflexivity].
Qed.

(** C2.  With fewer than 10 records both [detect_anomalies] and
    [detect_rising_payments] return the empty sequence, and neither raises. *)
Theorem fewer_than_ten_records_empty (transactions : list TransactionData) :
  (length transactions < 10)%nat ->
  detect_anomalies transactions = Ok []
  /\ detect_rising_payments transactions = Ok [].
Proof.
  intros Hlen.
  unfold anomaly_service.detect_anomalies, anomaly_service.detect_anomalies_body,
    payment_service.detect_rising_payments,
    payment_service.detect_rising_payments_body.
  rewrite !decide_True by exact Hlen. split; reflexivity.
Qed.

(** C10.  On every input, well-formed or not, [detect_anomalies] and
    [detect_rising_payments] return a value and never an exception; when the
    body of the [try] block raises, the value returned is the empty
    sequence. *)
Theorem detectors_return_normally (transactions : list TransactionData) :
  (exists out, detect_anomalies transactions = Ok out
     /\ forall e, detect_anomalies_body transactions = Raise e -> out = [])
  /\ (exists out, detect_rising_payments transactions = Ok out
     /\ forall e, detect_rising_payments_body transactions = Raise e -> out = []).
Proof.
  split.
  - destruct (try_except_returns (detect_anomalies_body transactions) [])
      as (out & Hout & Hraise & _).
    exists out. split; assumption.
  - destruct (try_except_returns (detect_rising_payments_body transactions) [])
      as (out & Hout & Hraise & _).
    exists out. split; assumption.
Qed.

(** From 10 records on, with the rows prepared and the four detectors run,
    [detect_anomalies] returns the deduplicated candidates, sorted. *)
Lemma detect_anomalies_run (transactions : list TransactionData)
  (df : list anomaly_service.Row) (cands : list AnomalyResponse) :
  (10 <= length transactions)%nat ->
  anomaly_service._prepare_data to_datetime transactions = Ok df ->
  anomalies df = Ok cands ->
  detect_anomalies transactions
  = Ok (builtins.sorted Rgt confidence
          (anomaly_service._deduplicate_anomalies cands)).
Proof.
  intros Hlen Hdf Hcands.
  unfold anomaly_service.detect_anomalies, anomaly_service.detect_anomalies_body.
  rewrite decide_False by lia. rewrite Hdf. simpl. rewrite Hcands. reflexivity.
Qed.

(** C3.  [detect_anomalies] returns at most one finding per transaction; a
    finding it returns is one of the candidates of the four detectors, no
    candidate of the same transaction has a higher confidence, and among the
    candidates of that transaction with that confidence it is the first in
    detector order.  And no transaction is lost: from 10 records on, when the
    rows are prepared and the detectors have run, every transaction with a
    candidate has a finding in the result, of a confidence at least that of
    the candidate. *)
Theorem one_finding_per_transaction_max_confidence
  (transactions : list TransactionData) :
  exists out, detect_anomalies transactions = Ok out
    /\ NoDup (map transaction_id out)
    /\ (forall f, f ∈ out ->
         exists df cands,
           anomaly_service._prepare_data to_datetime transactions = Ok df
           /\ anomalies df = Ok cands
           /\ f ∈ cands
           /\ (forall c, c ∈ cands -> transaction_id c = transaction_id f ->
                 (confidence c <= confidence f)%R)
           /\ head (filter (fun c => transaction_id c = transaction_id f
                                     /\ confidence c = confidence f) cands)
              = Some f)
    /\ (forall df cands,
          (10 <= length transactions)%nat ->
          anomaly_service._prepare_data to_datetime transactions = Ok df ->
          anomalies df = Ok cands ->
          forall c, c ∈ cands ->
            exists f, f ∈ out /\ transaction_id f = transaction_id c
                      /\ (confidence c <= confidence f)%R).
Proof.
  destruct (detect_anomalies_cases transactions)
    as [Hnil | (df & cands & Hdf & Hcands & Hout)].
  - exists []. split; [exact Hnil|]. split; [constructor|].
    split; [intros f Hf; inversion Hf|].
    intros df cands Hlen Hdf Hcands c Hc. exfalso.
    rewrite (detect_anomalies_run transactions df cands Hlen Hdf Hcands) in Hnil.
    injection Hnil as Hnil.
    destruct (aggregate_spec cands) as (_ & _ & Hall). cbv zeta in Hall.
    destruct (Hall c Hc) as (f & Hf & _). rewrite Hnil in Hf. inversion Hf.
  - eexists. split; [exact Hout|].
    destruct (aggregate_spec cands) as (Hnodup & Hmax & Hall).
    split; [exact Hnodup|].
    split.
    + intros f Hf. exists df, cands. destruct (Hmax f Hf) as (Hin & Hle & Hfirst).
      repeat split; assumption.
    + intros df' cands' Hlen Hdf' Hcands' c Hc.
      assert (df' = df) by congruence. subst df'.
      assert (cands' = cands) by congruence. subst cands'.
      destruct (Hall c Hc) as (f & Hf & Hid).
      exists f. split; [exact Hf|]. split; [exact Hid|].
      destruct (Hmax f Hf) as (_ & Hle & _). apply Hle; [exact Hc|].
      symmetry. exact Hid.
Qed.

(** C4.  The sequence returned by [detect_anomalies] is non-increasing in
    confidence; the sequence returned by [detect_rising_payments] is
    non-increasing in increase_percentage and has at most 10 elements. *)
Theorem outputs_sorted_descending (transactions : list TransactionData) :
  (exists out, detect_anomalies transactions = Ok out
     /\ StronglySorted (fun a b => (confidence a >= confidence b)%R) out)
  /\ (exists out, detect_rising_payments transactions = Ok out
     /\ StronglySorted
          (fun a b => (increase_percentage a >= increase_percentage b)%R) out
     /\ (length out <= 10)%nat).
Proof.
  split.
  - destruct (detect_anomalies_cases transactions)
      as [Hnil | (df & cands & _ & _ & Hout)].
    + exists []. split; [exact Hnil | constructor].
    + eexists. split; [exact Hout|]. apply sorted_reverse_nonincreasing.
  - destruct (detect_rising_payments_cases transactions)
      as [Hnil | (df & groups & _ & _ & Hout)].
    + exists []. split; [exact Hnil|]. split; [constructor | simpl; lia].
    + eexists. split; [exact Hout|]. split.
      * apply StronglySorted_take, sorted_reverse_nonincreasing.
      * rewrite length_take. lia.
Qed.

(** A timestamp that does not parse makes [_prepare_data] raise, at the first
    such record. *)
Lemma prepare_data_raises (transactions : list TransactionData)
  (txn : TransactionData) :
  txn ∈ transactions ->
  to_datetime (posted_at txn) = None ->
  exists bad, bad ∈ transactions
    /\ to_datetime (posted_at bad) = None
    /\ anomaly_service._prepare_data to_datetime transactions
       = Raise (DateParseError (posted_at bad)).
Proof.
  intros Hin Hbad. unfold anomaly_service._prepare_data.
  match goal with |- context [mapM ?f transactions] =>
    destruct (mapM_Raise f transactions txn Hin) as [e He];
      [unfold anomaly_service.pd_to_datetime; rewrite Hbad; eexists; reflexivity|];
    destruct (mapM_Raise_inv f transactions e He) as (bad & Hbin & Hbe);
    rewrite He
  end.
  exists bad. split; [exact Hbin|].
  unfold anomaly_service.pd_to_datetime in Hbe.
  destruct (to_datetime (posted_at bad)); [discriminate|].
  split; [reflexivity|]. simpl in Hbe |- *. congruence.
Qed.

Lemma detect_anomalies_unparsable (transactions : list TransactionData)
  (txn : TransactionData) :
  txn ∈ transactions ->
  to_datetime (posted_at txn) = None ->
  detect_anomalies transactions = Ok [].
Proof.
  intros Hin Hbad.
  unfold anomaly_service.detect_anomalies, anomaly_service.detect_anomalies_body.
  case_decide; [reflexivity|].
  destruct (prepare_data_raises transactions txn Hin Hbad) as (bad & _ & _ & ->).
  reflexivity.
Qed.

Lemma detect_rising_payments_unparsable (transactions : list TransactionData)
  (txn : TransactionData) :
  txn ∈ transactions ->
  to_datetime (posted_at txn) = None ->
  (amount txn < 0)%R ->
  detect_rising_payments transactions = Ok [].
Proof.
  intros Hin Hbad Hneg. unfold payment_service.detect_rising_payments,
    payment_service.detect_rising_payments_body.
  case_decide; [reflexivity|].
  unfold payment_service._prepare_data.
  match goal with |- context [mapM ?f ?l] =>
    destruct (mapM_Raise f l txn) as [e He]
  end.
  - apply list_elem_of_filter. split; assumption.
  - unfold payment_service.pd_to_datetime. rewrite Hbad. eexists. reflexivity.
  - rewrite He. reflexivity.
Qed.

(** C1, as the code has it.  When a record of the batch has a timestamp that
    does not parse, [detect_anomalies] returns the empty sequence: in a batch
    of 10 or more the parse error is raised inside the [try] block and
    caught there.  [detect_rising_payments] does the same when that record is
    a spending record (negative amount). *)
Theorem unparsable_timestamp_empty_result
  (transactions : list TransactionData) (txn : TransactionData) :
  txn ∈ transactions ->
  to_datetime (posted_at txn) = None ->
  detect_anomalies transactions = Ok []
  /\ ((10 <= length transactions)%nat ->
      exists bad, bad ∈ transactions
        /\ to_datetime (posted_at bad) = None
        /\ detect_anomalies_body transactions
           = Raise (DateParseError (posted_at bad)))
  /\ ((amount txn < 0)%R -> detect_rising_payments transactions = Ok []).
Proof.
  intros Hin Hbad. split; [|split].
  - exact (detect_anomalies_unparsable transactions txn Hin Hbad).
  - intros Hlen. unfold anomaly_service.detect_anomalies_body.
    rewrite decide_False by lia.
    destruct (prepare_data_raises transactions txn Hin Hbad)
      as (bad & Hbin & Hnone & Hraise).
    exists bad. rewrite Hraise. repeat split; assumption.
  - exact (detect_rising_payments_unparsable transactions txn Hin Hbad).
Qed.

End entry_points.

(** ** The temporal detector *)

Section temporal.
Import schemas calendar.

Lemma time_span_le_hour (window : list anomaly_service.Row) :
  (anomaly_service.time_span window <= 1.0)%R
  <-> (anomaly_service.date_max (map anomaly_service.date window)
       - anomaly_service.date_min (map anomaly_service.date window)
       <= ns_per_hour)%Z.
Proof.
  unfold anomaly_service.time_span, total_seconds.
  set (d := (_ - _)%Z).
  change (IZR ns_per_second) with 1000000000%R.
  split; intros H.
  - apply le_IZR. change (IZR ns_per_hour) with 3600000000000%R. lra.
  - apply IZR_le in H. change (IZR ns_per_hour) with 3600000000000%R in H. lra.
Qed.

Lemma window_extremes (w0 w1 w2 w3 w4 : anomaly_service.Row) :
  StronglySorted (fun a b => ~ (anomaly_service.date b < anomaly_service.date a)%Z)
    [w0; w1; w2; w3; w4] ->
  (anomaly_service.date_max (map anomaly_service.date [w0; w1; w2; w3; w4])
   - anomaly_service.date_min (map anomaly_service.date [w0; w1; w2; w3; w4])
   = anomaly_service.date w4 - anomaly_service.date w0)%Z.
Proof.
  intros Hs.
  apply StronglySorted_inv in Hs as [Hs H0].
  apply StronglySorted_inv in Hs as [Hs H1].
  apply StronglySorted_inv in Hs as [Hs H2].
  apply StronglySorted_inv in Hs as [Hs H3].
  rewrite Forall_forall in H0, H1, H2, H3.
  pose proof (H0 w1 ltac:(set_solver)). pose proof (H0 w4 ltac:(set_solver)).
  pose proof (H1 w2 ltac:(set_solver)). pose proof (H2 w3 ltac:(set_solver)).
  pose proof (H3 w4 ltac:(set_solver)).
  simpl. lia.
Qed.

Lemma window_shape (s : list anomaly_service.Row) (j : nat)
  (first last : anomaly_service.Row) :
  s !! j = Some first -> s !! (j + 4)%nat = Some last ->
  exists w1 w2 w3, take 5 (drop j s) = [first; w1; w2; w3; last].
Proof.
  intros Hfirst Hlast.
  assert (Hlen : length (take 5 (drop j s)) = 5%nat).
  { apply lookup_lt_Some in Hlast. rewrite length_take, length_drop. lia. }
  assert (H0 : take 5 (drop j s) !! 0%nat = Some first).
  { rewrite lookup_take, decide_True by lia. rewrite lookup_drop.
    rewrite Nat.add_0_r. exact Hfirst. }
  assert (H4 : take 5 (drop j s) !! 4%nat = Some last).
  { rewrite lookup_take, decide_True by lia. rewrite lookup_drop. exact Hlast. }
  destruct (take 5 (drop j s)) as [|a0 [|a1 [|a2 [|a3 [|a4 [|a5 w]]]]]];
    try discriminate.
  simpl in H0, H4. inversion H0. inversion H4. subst. eauto.
Qed.

(** In the time-sorted records, the code's span of a window (latest minus
    earliest timestamp) is the span between its first and last record. *)
Lemma sorted_window_span (df : list anomaly_service.Row) (j : nat) (d : Timedelta) :
  let df_sorted := builtins.sorted Z.lt anomaly_service.date df in
  spec.first_last_span df_sorted j = Some d ->
  ((anomaly_service.time_span (take 5 (drop j df_sorted)) <= 1.0)%R
   <-> (d <= ns_per_hour)%Z)
  /\ length (take 5 (drop j df_sorted)) = 5%nat.
Proof.
  intros s Hspan. unfold spec.first_last_span in Hspan.
  destruct (s !! j) as [first|] eqn:Hfirst; [|discriminate].
  destruct (s !! (j + 4)%nat) as [last|] eqn:Hlast; [|discriminate].
  simpl in Hspan. inversion Hspan as [Hd]. clear Hspan.
  destruct (window_shape s j first last Hfirst Hlast) as (w1 & w2 & w3 & Hw).
  rewrite Hw. split; [|reflexivity].
  rewrite time_span_le_hour, window_extremes; [reflexivity|].
  rewrite <- Hw.
  assert (Hs : StronglySorted
                 (fun a b => ~ (anomaly_service.date b < anomaly_service.date a)%Z) s)
    by (apply sorted_StronglySorted; [exact Zlt_asym | exact Zlt_negtrans]).
  rewrite <- (take_drop j s) in Hs.
  apply StronglySorted_app in Hs as (_ & _ & Hs).
  apply StronglySorted_take. exact Hs.
Qed.

Lemma frequency_scan_none (s : list anomaly_service.Row) (range : list nat) :
  (forall j, j ∈ range -> ~ (anomaly_service.time_span (take 5 (drop j s)) <= 1.0)%R) ->
  anomaly_service.frequency_scan s range = [].
Proof.
  induction range as [|j range IH]; intros Hnone; [reflexivity|].
  simpl. rewrite decide_False by (apply Hnone; left).
  apply IH. intros k Hk. apply Hnone. right. exact Hk.
Qed.

Lemma frequency_scan_first (s : list anomaly_service.Row) (before after : list nat)
  (i : nat) :
  (forall j, j ∈ before -> ~ (anomaly_service.time_span (take 5 (drop j s)) <= 1.0)%R) ->
  (anomaly_service.time_span (take 5 (drop i s)) <= 1.0)%R ->
  anomaly_service.frequency_scan s (before ++ i :: after)
  = map anomaly_service.frequency_anomaly (take 5 (drop i s)).
Proof.
  induction before as [|j before IH]; intros Hnone Hi.
  - simpl. rewrite decide_True by exact Hi. reflexivity.
  - simpl. rewrite decide_False by (apply Hnone; left).
    apply IH; [|exact Hi]. intros k Hk. apply Hnone. right. exact Hk.
Qed.

Lemma filter_all {A : Type} (P : A -> Prop) `{!forall x, Decision (P x)}
  (l : list A) :
  (forall x, x ∈ l -> P x) -> filter P l = l.
Proof.
  induction l as [|x l IH]; intros Hall; [reflexivity|].
  rewrite filter_cons_True by (apply Hall; left).
  f_equal. apply IH. intros y Hy. apply Hall. right. exact Hy.
Qed.

(** The UNUSUAL_FREQUENCY findings of [_detect_temporal_anomalies] are those
    of its second loop. *)
Lemma frequency_findings (df : list anomaly_service.Row) :
  filter (fun f => anomaly_type f = UNUSUAL_FREQUENCY)
    (anomaly_service._detect_temporal_anomalies df)
  = anomaly_service.frequency_anomalies df.
Proof.
  unfold anomaly_service._detect_temporal_anomalies. rewrite filter_app.
  rewrite filter_none, filter_all; [reflexivity| |].
  - intros f Hf. unfold anomaly_service.frequency_anomalies in Hf.
    set (s := builtins.sorted _ _ _) in Hf. clearbody s.
    induction (seq 0 (length s - 4)) as [|i range IH]; simpl in Hf;
      [inversion Hf|].
    case_decide; [|apply IH; exact Hf].
    apply list_elem_of_In, in_map_iff in Hf as (row & <- & _). reflexivity.
  - intros f Hf. unfold anomaly_service.unusual_timing_anomalies in Hf.
    apply list_elem_of_omap in Hf as (row & _ & Hrow).
    case_decide; [|discriminate]. inversion Hrow. simpl. discriminate.
Qed.

(** C6.  Scanning the time-sorted records with a window of 5 consecutive
    records: when the window at position [i] is the first whose first and
    last timestamps are at most 1 hour apart, the UNUSUAL_FREQUENCY findings
    are exactly one per record of that window, in order, each with severity
    high and confidence 0.80, and no later window adds any. *)
Theorem first_burst_window_flagged (df : list anomaly_service.Row) (i : nat)
  (d : Timedelta) :
  let df_sorted := builtins.sorted Z.lt anomaly_service.date df in
  let flagged :=
    filter (fun f => anomaly_type f = UNUSUAL_FREQUENCY)
      (anomaly_service._detect_temporal_anomalies df) in
  spec.first_last_span df_sorted i = Some d ->
  (d <= ns_per_hour)%Z ->
  (forall j d', (j < i)%nat -> spec.first_last_span df_sorted j = Some d' ->
     (ns_per_hour < d')%Z) ->
  length flagged = 5%nat
  /\ map transaction_id flagged = map anomaly_service.id (take 5 (drop i df_sorted))
  /\ Forall (fun f => anomaly_type f = UNUSUAL_FREQUENCY /\ severity f = high
                      /\ confidence f = 0.80%R) flagged.
Proof.
  intros s flagged Hspan Hd Hbefore. subst flagged.
  rewrite frequency_findings. unfold anomaly_service.frequency_anomalies.
  fold s.
  destruct (sorted_window_span df i d Hspan) as [Hiff Hlen]. fold s in Hiff, Hlen.
  assert (Hi : (i + 5 <= length s)%nat).
  { rewrite length_take, length_drop in Hlen. lia. }
  replace (length s - 4)%nat with (i + S (length s - 5 - i))%nat by lia.
  rewrite seq_app. simpl.
  rewrite frequency_scan_first.
  - split; [|split].
    + rewrite length_map. exact Hlen.
    + rewrite map_map. reflexivity.
    + apply Forall_forall. intros f Hf.
      apply list_elem_of_In, in_map_iff in Hf as (row & <- & _).
      repeat split; reflexivity.
  - intros j Hj. apply list_elem_of_In, in_seq in Hj.
    destruct (spec.first_last_span s j) as [d'|] eqn:Hj'.
    + destruct (sorted_window_span df j d' Hj') as [Hiff' _]. fold s in Hiff'.
      rewrite Hiff'. specialize (Hbefore j d' ltac:(lia) Hj'). lia.
    + exfalso. unfold spec.first_last_span in Hj'.
      destruct (lookup_lt_is_Some_2 s j ltac:(lia)) as [r0 Hr0].
      destruct (lookup_lt_is_Some_2 s (j + 4) ltac:(lia)) as [r4 Hr4].
      rewrite Hr0, Hr4 in Hj'. discriminate.
  - apply Hiff. exact Hd.
Qed.
End temporal.

Section temporal_example.
Import schemas calendar.

Lemma burst_df_ok :
  anomaly_service._prepare_data iso_to_datetime examples.burst_transactions
  = Ok examples.burst_df.
Proof. reflexivity. Qed.

Lemma first_burst_window_flagged_witness :
  map anomaly_service.id examples.burst_df
    = ["b1"; "b2"; "b3"; "b4"; "b5"; "b6"]%string
  /\ spec.first_last_span
       (builtins.sorted Z.lt anomaly_service.date examples.burst_df) 0
     = Some (2400 * ns_per_second)%Z
  /\ (2400 * ns_per_second <= ns_per_hour)%Z
  /\ map transaction_id
       (filter (fun f => anomaly_type f = UNUSUAL_FREQUENCY)
          (anomaly_service._detect_temporal_anomalies examples.burst_df))
     = ["b1"; "b2"; "b3"; "b4"; "b5"]%string
  /\ Forall (fun f => anomaly_type f = UNUSUAL_FREQUENCY /\ severity f = high
                      /\ confidence f = 0.80%R)
       (filter (fun f => anomaly_type f = UNUSUAL_FREQUENCY)
          (anomaly_service._detect_temporal_anomalies examples.burst_df)).
Proof.
  assert (Hspan : spec.first_last_span
            (builtins.sorted Z.lt anomaly_service.date examples.burst_df) 0
          = Some (2400 * ns_per_second)%Z) by (vm_compute; reflexivity).
  assert (Hle : (2400 * ns_per_second <= ns_per_hour)%Z) by (vm_compute; discriminate).
  assert (Hbefore : forall j d', (j < 0)%nat ->
            spec.first_last_span
              (builtins.sorted Z.lt anomaly_service.date examples.burst_df) j
            = Some d' -> (ns_per_hour < d')%Z) by (intros j d' Hj; lia).
  pose proof (first_burst_window_flagged examples.burst_df 0 _ Hspan Hle Hbefore)
    as Hthm.
  cbv zeta in Hthm. destruct Hthm as (_ & Hids & Hall).
  split; [vm_compute; reflexivity|].
  split; [exact Hspan|]. split; [exact Hle|].
  split; [rewrite Hids; vm_compute; reflexivity | exact Hall].
Defined.
End temporal_example.

(** ** The entry points on concrete batches *)

Section entry_point_examples.
Import schemas.

#[local] Abbreviation detect_anomalies :=
  (anomaly_service.detect_anomalies calendar.iso_to_datetime
     examples.scaler_fit_transform examples.isolation_forest_fit_predict
     examples.isolation_forest_decision_function).
#[local] Abbreviation detect_rising_payments :=
  (payment_service.detect_rising_payments calendar.iso_to_datetime).

Lemma fewer_than_ten_records_empty_witness :
  (length examples.two_payments < 10)%nat
  /\ detect_anomalies examples.two_payments = Ok []
  /\ detect_rising_payments examples.two_payments = Ok [].
Proof.
  split; [simpl; lia|].
  apply fewer_than_ten_records_empty. simpl. lia.
Defined.

Lemma bad_record_in_batch :
  examples.bad_record ∈ examples.batch_with_bad_timestamp
  /\ calendar.iso_to_datetime (posted_at examples.bad_record) = None
  /\ (amount examples.bad_record < 0)%R.
Proof.
  split; [|split].
  - unfold examples.batch_with_bad_timestamp. set_solver.
  - vm_compute. reflexivity.
  - simpl. lra.
Qed.

Lemma unparsable_timestamp_empty_result_witness :
  examples.bad_record ∈ examples.batch_with_bad_timestamp
  /\ calendar.iso_to_datetime (posted_at examples.bad_record) = None
  /\ detect_anomalies examples.batch_with_bad_timestamp = Ok []
  /\ detect_rising_payments examples.batch_with_bad_timestamp = Ok [].
Proof.
  assert (Hin : examples.bad_record ∈ examples.batch_with_bad_timestamp)
    by (unfold examples.batch_with_bad_timestamp; do 3 right; left).
  assert (Hbad : calendar.iso_to_datetime (posted_at examples.bad_record) = None)
    by (vm_compute; reflexivity).
  assert (Hneg : (amount examples.bad_record < 0)%R) by (simpl; lra).
  destruct (unparsable_timestamp_empty_result calendar.iso_to_datetime
              examples.scaler_fit_transform examples.isolation_forest_fit_predict
              examples.isolation_forest_decision_function
              examples.batch_with_bad_timestamp examples.bad_record Hin Hbad)
    as (Hanomalies & _ & Hpayments).
  split; [exact Hin|]. split; [exact Hbad|].
  split; [exact Hanomalies | exact (Hpayments Hneg)].
Defined.

(** The claim C1 as the specification states it fails on this batch: one of
    its ten records has a timestamp that does not parse, and neither entry
    point fails with an error: both return the empty sequence. *)
Lemma unparsable_timestamp_not_raised :
  (exists txn, txn ∈ examples.batch_with_bad_timestamp
     /\ calendar.iso_to_datetime (posted_at txn) = None)
  /\ (forall e, detect_anomalies examples.batch_with_bad_timestamp <> Raise e)
  /\ (forall e, detect_rising_payments examples.batch_with_bad_timestamp <> Raise e).
Proof.
  destruct bad_record_in_batch as (Hin & Hbad & Hneg).
  split; [exists examples.bad_record; split; assumption|].
  split; intros e.
  - rewrite (detect_anomalies_unparsable _ _ _ _ _ _ Hin Hbad). discriminate.
  - rewrite (detect_rising_payments_unparsable _ _ _ Hin Hbad Hneg). discriminate.
Qed.
End entry_point_examples.

(** ** Degenerate statistics *)

Section degenerate.
Import schemas.
Local Open Scope R_scope.

Lemma omap_none {A B : Type} (f : A -> option B) (l : list A) :
  (forall x, x ∈ l -> f x = None) -> omap f l = [].
Proof.
  induction l as [|x l IH]; intros Hnone; [reflexivity|].
  simpl. rewrite (Hnone x) by left.
  apply IH. intros y Hy. apply Hnone. right. exact Hy.
Qed.

Lemma elem_of_zip_r {A B : Type} (l : list A) (k : list B) (x : A) (y : B) :
  (x, y) ∈ zip l k -> y ∈ k.
Proof.
  revert k. induction l as [|a l IH]; intros [|b k] Hin; simpl in Hin;
    try (inversion Hin; fail).
  apply elem_of_cons in Hin as [Heq|Hin].
  - inversion Heq. left.
  - right. apply (IH k). exact Hin.
Qed.

Lemma sum_squares_nonneg (m : R) (a : list R) :
  0 <= builtins.sum (map (fun x => (x - m) * (x - m)) a).
Proof.
  induction a as [|x a IH]; simpl; [lra|].
  pose proof (Rle_0_sqr (x - m)) as Hsq. unfold Rsqr in Hsq. lra.
Qed.

Lemma sum_squares_zero (m : R) (a : list R) (x : R) :
  builtins.sum (map (fun x => (x - m) * (x - m)) a) = 0 -> x ∈ a -> x = m.
Proof.
  induction a as [|y a IH]; intros Hsum Hx; [inversion Hx|].
  simpl in Hsum. pose proof (sum_squares_nonneg m a) as Hrest.
  pose proof (Rle_0_sqr (y - m)) as Hsq. unfold Rsqr in Hsq.
  apply elem_of_cons in Hx as [->|Hx].
  - assert (Hy : (y - m) * (y - m) = 0) by lra.
    apply Rmult_integral in Hy. lra.
  - apply IH; [lra | exact Hx].
Qed.

(** A zero standard deviation means that every entry is the mean: the
    z-score of each entry is then 0/0, never a non-zero number over 0. *)
Lemma std_zero_all_mean (a : list R) (x : R) :
  builtins.std a = 0 -> x ∈ a -> x = builtins.mean a.
Proof.
  intros Hstd Hx. unfold builtins.std in Hstd.
  set (m := builtins.mean a) in *.
  assert (Hlen : 0 < INR (length a)).
  { apply lt_0_INR. destruct a; [inversion Hx | simpl; lia]. }
  pose proof (sum_squares_nonneg m a) as Hnonneg.
  apply sqrt_eq_0 in Hstd.
  - apply (sum_squares_zero m a); [|exact Hx].
    unfold builtins.mean in Hstd. rewrite length_map in Hstd.
    apply Rmult_integral in Hstd as [Hs|Hinv]; [exact Hs|].
    pose proof (Rinv_0_lt_compat _ Hlen). lra.
  - unfold builtins.mean. rewrite length_map.
    apply Rmult_le_pos; [exact Hnonneg|].
    left. apply Rinv_0_lt_compat. exact Hlen.
Qed.

(** With a zero standard deviation every z-score is [nan]. *)
Lemma zscore_nan (a : list R) (z : option R) :
  builtins.std a = 0 -> z ∈ builtins.abs (builtins.zscore a) -> z = None.
Proof.
  intros Hstd Hz. unfold builtins.abs, builtins.zscore in Hz.
  rewrite map_map in Hz.
  apply list_elem_of_In, in_map_iff in Hz as (x & <- & _).
  rewrite decide_True by exact Hstd. reflexivity.
Qed.

Lemma overall_amount_anomalies_zero_std (df : list anomaly_service.Row) :
  builtins.std (map anomaly_service.amount df) = 0 ->
  anomaly_service.overall_amount_anomalies df = [].
Proof.
  intros Hstd. unfold anomaly_service.overall_amount_anomalies.
  apply omap_none. intros [row z] Hin.
  apply elem_of_zip_r in Hin. rewrite (zscore_nan _ _ Hstd Hin). reflexivity.
Qed.

Lemma percent_increase_zero (recent_amount : R) :
  payment_service.percent_increase recent_amount 0 = Some 0.
Proof.
  unfold payment_service.percent_increase.
  rewrite decide_False by lra. reflexivity.
Qed.

Lemma percent_increase_positive (recent_amount older_amount : R) :
  older_amount > 0 ->
  payment_service.percent_increase recent_amount older_amount
  = Some ((recent_amount - older_amount) / older_amount * 100).
Proof.
  intros Hpos. unfold payment_service.percent_increase, builtins.truediv.
  rewrite decide_True by exact Hpos. rewrite decide_False by lra. reflexivity.
Qed.

(** The quotient is never taken with a zero divisor: the percentage is a
    number for every pair of amounts. *)
Lemma percent_increase_finite (recent_amount older_amount : R) :
  is_Some (payment_service.percent_increase recent_amount older_amount).
Proof.
  destruct (decide (older_amount > 0)) as [Hpos|Hnot].
  - rewrite percent_increase_positive by exact Hpos. eexists. reflexivity.
  - unfold payment_service.percent_increase.
    rewrite decide_False by exact Hnot. eexists. reflexivity.
Qed.

Lemma analyze_first_amount_zero (merchant_name : string)
  (group : list payment_service.Row) :
  hd 0 (map payment_service.amount
          (builtins.sorted Z.lt payment_service.date group)) = 0 ->
  payment_service._analyze_merchant_payments merchant_name group = None.
Proof.
  intros Hfirst. unfold payment_service._analyze_merchant_payments.
  destruct (negb _); [reflexivity|].
  case_decide; [reflexivity|].
  unfold builtins.polyfit1. cbv zeta.
  case_decide; [reflexivity|].
  rewrite Hfirst, percent_increase_zero.
  rewrite decide_True by lra. reflexivity.
Qed.

End degenerate.

(** ** A bound on the z-scores of a batch *)

Section zscore_bound.
Import schemas.
Local Open Scope R_scope.

Lemma sum_app (l1 l2 : list R) :
  builtins.sum (l1 ++ l2) = builtins.sum l1 + builtins.sum l2.
Proof. induction l1 as [|x l1 IH]; simpl; [lra | rewrite IH; lra]. Qed.

Lemma sum_shift (m : R) (a : list R) :
  builtins.sum (map (fun y => y - m) a) = builtins.sum a - INR (length a) * m.
Proof.
  induction a as [|x a IH]; [simpl; lra|].
  cbn [map builtins.sum foldr length]. fold (builtins.sum (map (fun y => y - m) a)).
  fold (builtins.sum a). rewrite IH, S_INR. lra.
Qed.

(** The square of a sum is at most the count times the sum of the squares. *)
Lemma sum_square_le (l : list R) :
  builtins.sum l * builtins.sum l
  <= INR (length l) * builtins.sum (map (fun x => x * x) l).
Proof.
  induction l as [|x l IH]; [simpl; lra|].
  cbn [map builtins.sum foldr length].
  fold (builtins.sum l). fold (builtins.sum (map (fun x => x * x) l)).
  rewrite S_INR.
  set (s := builtins.sum l) in *. set (q := builtins.sum (map (fun x => x * x) l)) in *.
  set (n := INR (length l)) in *.
  assert (Hn : 0 <= n) by apply pos_INR.
  assert (Hq : 0 <= q).
  { subst q. clear. induction l as [|y l IH]; simpl; [lra|].
    fold (builtins.sum (map (fun x => x * x) l)). nra. }
  clearbody s q n.
  destruct (Req_dec n 0) as [Hz|Hnz].
  - assert (Hs : s * s = 0).
    { pose proof (Rle_0_sqr s) as Hs. unfold Rsqr in Hs. rewrite Hz in IH.
      rewrite Rmult_0_l in IH. apply Rle_antisym; assumption. }
    assert (Hs0 : s = 0) by (apply Rmult_integral in Hs; destruct Hs; assumption).
    rewrite Hz, Hs0. nra.
  - assert (Hpos : 0 < n) by lra.
    pose proof (Rle_0_sqr (n * x - s)) as Hsq. unfold Rsqr in Hsq.
    assert (Hkey : 0 <= n * (n * (x * x) + q - 2 * x * s)) by lra.
    assert (Hgap : 0 <= n * (x * x) + q - 2 * x * s).
    { apply (Rmult_le_reg_l n); [exact Hpos|]. lra. }
    lra.
Qed.

(** No entry is further from the mean than the root of (count - 1) standard
    deviations. *)
Lemma deviation_square_le (a : list R) (x : R) :
  x ∈ a ->
  let m := builtins.mean a in
  (x - m) * (x - m) * INR (length a)
  <= (INR (length a) - 1) * builtins.sum (map (fun y => (y - m) * (y - m)) a).
Proof.
  intros Hx m.
  assert (Hlen : 0 < INR (length a)).
  { apply lt_0_INR. destruct a; [inversion Hx | simpl; lia]. }
  assert (Hzero : builtins.sum (map (fun y => y - m) a) = 0).
  { rewrite sum_shift. subst m. unfold builtins.mean. field. lra. }
  apply list_elem_of_split in Hx as (l1 & l2 & ->).
  rewrite !map_app, !sum_app, !length_app in *. cbn [map builtins.sum foldr length] in *.
  fold (builtins.sum (map (fun y => y - m) l2)) in Hzero.
  fold (builtins.sum (map (fun y => (y - m) * (y - m)) l2)).
  pose proof (sum_square_le (map (fun y => y - m) (l1 ++ l2))) as Hcs.
  rewrite !map_app, !sum_app, length_app, !length_map, !map_map in Hcs.
  rewrite Nat.add_succ_r, S_INR. rewrite plus_INR in *.
  clearbody m.
  set (s1 := builtins.sum (map (fun y => y - m) l1)) in *.
  set (s2 := builtins.sum (map (fun y => y - m) l2)) in *.
  set (q1 := builtins.sum (map (fun y => (y - m) * (y - m)) l1)) in *.
  set (q2 := builtins.sum (map (fun y => (y - m) * (y - m)) l2)) in *.
  set (n1 := INR (length l1)) in *. set (n2 := INR (length l2)) in *.
  clearbody s1 s2 q1 q2 n1 n2.
  assert (Hd : x - m = - (s1 + s2)) by lra.
  rewrite Hd.
  replace (n1 + n2 + 1 - 1) with (n1 + n2) by lra.
  lra.
Qed.

Lemma zscore_square_le (a : list R) (x : R) :
  x ∈ a -> builtins.std a <> 0 ->
  Rabs ((x - builtins.mean a) / builtins.std a)
  * Rabs ((x - builtins.mean a) / builtins.std a)
  <= INR (length a) - 1.
Proof.
  intros Hx Hsd.
  pose proof (deviation_square_le a x Hx) as Hdev. cbv zeta in Hdev.
  assert (Hlen : 0 < INR (length a)).
  { apply lt_0_INR. destruct a; [inversion Hx | simpl; lia]. }
  unfold builtins.std in *. set (m := builtins.mean a) in *.
  pose proof (sum_squares_nonneg m a) as Hq.
  unfold builtins.mean in Hsd |- *. rewrite length_map in *.
  set (q := builtins.sum (map (fun y => (y - m) * (y - m)) a)) in *.
  set (n := INR (length a)) in *. clearbody q n m.
  assert (Hv : 0 <= q / n).
  { apply Rmult_le_pos; [exact Hq | left; apply Rinv_0_lt_compat; exact Hlen]. }
  assert (Hqpos : 0 < q).
  { destruct (Req_dec q 0) as [Hq0|Hq0]; [|lra].
    exfalso. apply Hsd. rewrite Hq0. unfold Rdiv. rewrite Rmult_0_l. apply sqrt_0. }
  pose proof (Rsqr_abs ((x - m) / sqrt (q / n))) as Habs. unfold Rsqr in Habs.
  rewrite <- Habs.
  replace ((x - m) / sqrt (q / n) * ((x - m) / sqrt (q / n)))
    with ((x - m) * (x - m) / (sqrt (q / n) * sqrt (q / n))) by (field; exact Hsd).
  rewrite sqrt_sqrt by exact Hv.
  replace ((x - m) * (x - m) / (q / n)) with ((x - m) * (x - m) * n / q)
    by (field; lra).
  apply (Rmult_le_reg_r q); [exact Hqpos|].
  replace ((x - m) * (x - m) * n / q * q) with ((x - m) * (x - m) * n)
    by (field; lra).
  lra.
Qed.

Lemma elem_of_zip_map {A B : Type} (h : A -> B) (l : list A) (x : A) (y : B) :
  (x, y) ∈ zip l (map h l) -> y = h x.
Proof.
  induction l as [|a l IH]; intros Hin; simpl in Hin; [inversion Hin|].
  apply elem_of_cons in Hin as [Heq|Hin]; [congruence | exact (IH Hin)].
Qed.

(** With at most 21 records no z-score of the overall pass exceeds 1.5 times
    the threshold: every finding of the pass has severity low. *)
Lemma overall_amount_anomalies_small_batch (df : list anomaly_service.Row) :
  (length df <= 21)%nat ->
  Forall (fun f => severity f = low /\ z_score f * z_score f <= 20)
    (anomaly_service.overall_amount_anomalies df).
Proof.
  intros Hlen. apply Forall_forall. intros f Hf.
  unfold anomaly_service.overall_amount_anomalies in Hf.
  apply list_elem_of_omap in Hf as ([row z] & Hrow & Hmk).
  unfold builtins.abs, builtins.zscore in Hrow. rewrite !map_map in Hrow.
  pose proof (elem_of_zip_l _ _ _ _ Hrow) as Hin.
  apply elem_of_zip_map in Hrow. subst z.
  destruct (decide (builtins.std (map anomaly_service.amount df) = 0))
    as [Hsd|Hsd]; [discriminate|].
  cbn [fmap option_fmap option_map] in Hmk.
  case_decide as Hflag; [|discriminate]. inversion Hmk as [Hf]. clear Hmk Hf.
  cbn [severity z_score].
  assert (Hx : anomaly_service.amount row ∈ map anomaly_service.amount df).
  { apply list_elem_of_In, in_map, list_elem_of_In. exact Hin. }
  pose proof (zscore_square_le _ _ Hx Hsd) as Hz.
  rewrite length_map in Hz.
  assert (Hn : INR (length df) <= 21).
  { replace 21 with (INR 21) by (simpl; lra). apply le_INR. exact Hlen. }
  set (z := Rabs _) in *. clearbody z.
  assert (Hz20 : z * z <= 20) by lra.
  split; [|exact Hz20].
  unfold anomaly_service._calculate_severity.
  rewrite !decide_False by nra. reflexivity.
Qed.
End zscore_bound.

(** ** The merchant profiles *)

Section merchant_profiles.
Import schemas.

Lemma elem_of_unique `{EqDecision A} (l : list A) (x : A) :
  x ∈ builtins.unique l <-> x ∈ l.
Proof.
  induction l as [|y l IH]; simpl; [reflexivity|].
  rewrite !elem_of_cons, list_elem_of_filter, IH.
  destruct (decide (x = y)) as [->|Hne]; tauto.
Qed.

Lemma elem_of_merchant_data (df : list anomaly_service.Row) (name : string)
  (row : anomaly_service.Row) :
  row ∈ anomaly_service.merchant_data df name
  <-> anomaly_service.merchant row = name /\ row ∈ df.
Proof.
  unfold anomaly_service.merchant_data. rewrite list_elem_of_filter.
  reflexivity.
Qed.

Lemma profiles_fold_lookup (df : list anomaly_service.Row) (names : list string)
  (acc : gmap string anomaly_service.Profile) (name : string) :
  foldl (fun merchant_profiles merchant_name =>
    let data := anomaly_service.merchant_data df merchant_name in
    if decide (2 <= length data)%nat then
      <[ merchant_name := anomaly_service.merchant_profile data ]> merchant_profiles
    else merchant_profiles) acc names !! name
  = if decide (name ∈ names
               /\ (2 <= length (anomaly_service.merchant_data df name))%nat)
    then Some (anomaly_service.merchant_profile
                 (anomaly_service.merchant_data df name))
    else acc !! name.
Proof.
  revert acc. induction names as [|n names IH]; intros acc; cbn [foldl].
  - destruct (decide _) as [[Hin _]|_]; [inversion Hin | reflexivity].
  - rewrite IH. clear IH.
    destruct (decide (name ∈ names /\ _)) as [[Hin Hlen]|Hno].
    + destruct (decide (name ∈ n :: names /\ _)) as [_|Hno]; [reflexivity|].
      exfalso. apply Hno. split; [right; exact Hin | exact Hlen].
    + destruct (decide (n = name)) as [->|Hne].
      * destruct (decide (2 <= length (anomaly_service.merchant_data df name))%nat)
          as [Hlen|Hlen].
        -- rewrite lookup_insert_eq.
           destruct (decide (name ∈ name :: names /\ _)) as [_|Hno']; [reflexivity|].
           exfalso. apply Hno'. split; [left | exact Hlen].
        -- destruct (decide (name ∈ name :: names /\ _)) as [[_ Hlen']|_];
             [exfalso; exact (Hlen Hlen') | reflexivity].
      * assert (Hsame : (if decide (2 <= length (anomaly_service.merchant_data df n))%nat
                 then <[n := anomaly_service.merchant_profile
                               (anomaly_service.merchant_data df n)]> acc
                 else acc) !! name = acc !! name).
        { case_decide; [apply lookup_insert_ne; exact Hne | reflexivity]. }
        rewrite Hsame.
        destruct (decide (name ∈ n :: names /\ _)) as [[Hin Hlen]|_]; [|reflexivity].
        exfalso. apply Hno. split; [|exact Hlen].
        apply elem_of_cons in Hin as [Heq|Hin]; [congruence | exact Hin].
Qed.

(** The profile under a name is built from the rows whose merchant is that
    name, character for character, when there are at least two. *)
Lemma build_merchant_profiles_lookup (df : list anomaly_service.Row)
  (name : string) :
  anomaly_service.build_merchant_profiles df !! name
  = if decide (2 <= length (anomaly_service.merchant_data df name))%nat
    then Some (anomaly_service.merchant_profile
                 (anomaly_service.merchant_data df name))
    else None.
Proof.
  unfold anomaly_service.build_merchant_profiles.
  rewrite profiles_fold_lookup.
  destruct (decide (2 <= length (anomaly_service.merchant_data df name))%nat)
    as [Hlen|Hlen].
  - destruct (decide (_ /\ _)) as [_|Hno]; [reflexivity|].
    exfalso. apply Hno. split; [|exact Hlen].
    destruct (anomaly_service.merchant_data df name) as [|row data] eqn:Hdata;
      [simpl in Hlen; lia|].
    assert (Hrow : row ∈ anomaly_service.merchant_data df name)
      by (rewrite Hdata; left).
    apply elem_of_merchant_data in Hrow as [<- Hrow].
    apply elem_of_unique, list_elem_of_In, in_map, list_elem_of_In. exact Hrow.
  - destruct (decide (_ /\ _)) as [[_ Hlen']|_]; [exfalso; exact (Hlen Hlen')|].
    apply lookup_empty.
Qed.

(** C9, as the code has it.  The merchant profiles are keyed by the merchant
    name as written: two records of the batch contribute to, and are checked
    against, the same profile when their merchant names are equal as
    strings, and a record never contributes to the profile of a name that
    differs from its own in any character. *)
Theorem merchant_profiles_keyed_by_exact_name (df : list anomaly_service.Row)
  (r1 r2 : anomaly_service.Row) :
  r1 ∈ df -> r2 ∈ df ->
  let merchant_profiles := anomaly_service.build_merchant_profiles df in
  let data := anomaly_service.merchant_data df (anomaly_service.merchant r1) in
  merchant_profiles !! anomaly_service.merchant r1
    = (if decide (2 <= length data)%nat
       then Some (anomaly_service.merchant_profile data) else None)
  /\ r1 ∈ data
  /\ (r2 ∈ data <-> anomaly_service.merchant r2 = anomaly_service.merchant r1)
  /\ (anomaly_service.merchant r2 = anomaly_service.merchant r1 ->
      anomaly_service.check_against_profile merchant_profiles r2
      = anomaly_service.check_against_profile
          (if decide (2 <= length data)%nat
           then {[ anomaly_service.merchant r1 := anomaly_service.merchant_profile data ]}
           else ∅) r2)
  /\ (anomaly_service.merchant r2 <> anomaly_service.merchant r1 ->
      anomaly_service.check_against_profile merchant_profiles r2
      = anomaly_service.check_against_profile
          (delete (anomaly_service.merchant r1) merchant_profiles) r2).
Proof.
  intros Hr1 Hr2 profiles data. subst profiles data.
  split; [apply build_merchant_profiles_lookup|].
  split; [apply elem_of_merchant_data; split; [reflexivity | exact Hr1]|].
  split.
  - rewrite elem_of_merchant_data. split; [intros [Heq _]; exact Heq|].
    intros Heq. split; [exact Heq | exact Hr2].
  - split.
    + intros Heq. unfold anomaly_service.check_against_profile.
      rewrite Heq, build_merchant_profiles_lookup.
      case_decide.
      * rewrite lookup_singleton_eq. reflexivity.
      * rewrite lookup_empty. reflexivity.
    + intros Hne. unfold anomaly_service.check_against_profile.
      rewrite lookup_delete_ne by congruence. reflexivity.
Qed.

Lemma cafe_rows_in_df :
  examples.cafe_1 ∈ examples.cafe_df /\ examples.cafe_2 ∈ examples.cafe_df
  /\ examples.cafe_3 ∈ examples.cafe_df.
Proof.
  unfold examples.cafe_df.
  split; [left|]. split; [right; left | right; right; left].
Qed.

Lemma merchant_profiles_keyed_by_exact_name_witness :
  examples.cafe_1 ∈ examples.cafe_df /\ examples.cafe_2 ∈ examples.cafe_df
  /\ anomaly_service.build_merchant_profiles examples.cafe_df !! "Corner Cafe"%string
     = Some (anomaly_service.merchant_profile [examples.cafe_1; examples.cafe_2])
  /\ examples.cafe_2
       ∈ anomaly_service.merchant_data examples.cafe_df "Corner Cafe"%string.
Proof.
  assert (H1 : examples.cafe_1 ∈ examples.cafe_df)
    by (unfold examples.cafe_df; left).
  assert (H2 : examples.cafe_2 ∈ examples.cafe_df)
    by (unfold examples.cafe_df; right; left).
  pose proof (merchant_profiles_keyed_by_exact_name examples.cafe_df
                examples.cafe_1 examples.cafe_2 H1 H2) as Hthm.
  cbv zeta in Hthm. destruct Hthm as (Hlookup & _ & Hdata & _).
  split; [exact H1|]. split; [exact H2|]. split.
  - exact Hlookup.
  - apply Hdata. reflexivity.
Defined.

(** The claim C9 as the specification states it fails on these rows: the two
    spellings are equal once lowercased and trimmed, and the rows are under
    two keys: the first has a profile that the third row is no part of, the
    third has none. *)
Lemma lower_strip_equal_profiles_differ :
  examples.cafe_1 ∈ examples.cafe_df /\ examples.cafe_3 ∈ examples.cafe_df
  /\ spec.lower_strip (anomaly_service.merchant examples.cafe_1)
     = spec.lower_strip (anomaly_service.merchant examples.cafe_3)
  /\ anomaly_service.build_merchant_profiles examples.cafe_df
       !! anomaly_service.merchant examples.cafe_1
     = Some (anomaly_service.merchant_profile [examples.cafe_1; examples.cafe_2])
  /\ anomaly_service.build_merchant_profiles examples.cafe_df
       !! anomaly_service.merchant examples.cafe_3
     = None
  /\ examples.cafe_3
       ∉ anomaly_service.merchant_data examples.cafe_df
           (anomaly_service.merchant examples.cafe_1).
Proof.
  destruct cafe_rows_in_df as (H1 & _ & H3).
  split; [exact H1|]. split; [exact H3|].
  split; [vm_compute; reflexivity|].
  rewrite !build_merchant_profiles_lookup.
  split; [reflexivity|]. split; [reflexivity|].
  rewrite elem_of_merchant_data. intros [Heq _]. discriminate Heq.
Qed.
End merchant_profiles.

(** ** A rising subscription *)

Section subscription.
Import schemas.
Local Open Scope R_scope.

Lemma sqrt_lt_bound (v c : R) : 0 <= v -> 0 <= c -> v < c * c -> sqrt v < c.
Proof.
  intros Hv Hc Hlt. rewrite <- (sqrt_square c) by exact Hc.
  apply sqrt_lt_1; [exact Hv | nra | exact Hlt].
Qed.

Lemma rint_below_half (x : R) (z : Z) :
  IZR z <= x < IZR z + 1 / 2 -> builtins.rint x = z.
Proof.
  intros Hx. unfold builtins.rint.
  rewrite (Zfloor_eq z x) by lra.
  rewrite decide_True by lra. reflexivity.
Qed.

Lemma subscription_sorted :
  builtins.sorted Z.lt payment_service.date examples.subscription_group
  = examples.subscription_group.
Proof. reflexivity. Qed.

Lemma subscription_intervals :
  payment_service.intervals examples.subscription_group
  = [31; 29; 31; 30; 31; 30]%Z.
Proof. vm_compute. reflexivity. Qed.

Lemma subscription_interval_mean :
  builtins.mean (map IZR [31; 29; 31; 30; 31; 30]%Z) = 91 / 3.
Proof. unfold builtins.mean. simpl. lra. Qed.

Lemma subscription_interval_std :
  0 <= builtins.std (map IZR [31; 29; 31; 30; 31; 30]%Z) < 1.
Proof.
  unfold builtins.std. rewrite subscription_interval_mean.
  split; [apply sqrt_pos|].
  apply sqrt_lt_bound; unfold builtins.mean; simpl; lra.
Qed.

Lemma subscription_recurring :
  payment_service._is_recurring_pattern examples.subscription_group = true.
Proof.
  unfold payment_service._is_recurring_pattern.
  rewrite decide_False by (simpl; lia).
  rewrite subscription_intervals, subscription_interval_mean.
  pose proof subscription_interval_std as Hstd.
  rewrite decide_True by lra. reflexivity.
Qed.

(** Both rules of the classification hold for these gaps. *)
Lemma subscription_both_rules :
  let gaps := payment_service.intervals examples.subscription_group in
  ((7 <= builtins.mean (map IZR gaps) /\ builtins.mean (map IZR gaps) <= 90)
   /\ builtins.std (map IZR gaps) < builtins.mean (map IZR gaps) * 0.3)
  /\ INR (length (filter (fun i => 25 <= i <= 35)%Z gaps))
     >= INR (length gaps) * 0.7.
Proof.
  intros gaps. subst gaps.
  rewrite subscription_intervals, subscription_interval_mean.
  pose proof subscription_interval_std as Hstd.
  split; [lra|].
  replace (filter _ _) with [31; 29; 31; 30; 31; 30]%Z by reflexivity.
  simpl. lra.
Qed.

Lemma subscription_frequency :
  payment_service._determine_frequency examples.subscription_group = "monthly"%string.
Proof.
  unfold payment_service._determine_frequency.
  rewrite decide_False by (simpl; lia).
  rewrite subscription_intervals, subscription_interval_mean.
  rewrite decide_False by lra. rewrite decide_True by lra. reflexivity.
Qed.

Lemma subscription_consistent :
  payment_service._has_consistent_intervals examples.subscription_group = true.
Proof.
  unfold payment_service._has_consistent_intervals.
  rewrite decide_False by (simpl; lia).
  rewrite subscription_intervals, subscription_interval_mean.
  pose proof subscription_interval_std as Hstd.
  rewrite decide_True by lra. apply bool_decide_eq_true. lra.
Qed.

Lemma subscription_polyfit :
  builtins.polyfit1 (builtins.arange 7)
    [9.99; 9.99; 9.99; 9.99; 9.99; 9.99; 19.99]
  = (15 / 14, 114.86 / 14).
Proof.
  unfold builtins.polyfit1, builtins.arange, builtins.mean. simpl.
  f_equal; lra.
Qed.

Lemma subscription_percent :
  payment_service.percent_increase 19.99 9.99 = Some (100000 / 999).
Proof.
  rewrite percent_increase_positive by lra. f_equal. lra.
Qed.

Lemma subscription_rounding :
  builtins.round 19.99 2 = 19.99 /\ builtins.round 9.99 2 = 9.99
  /\ builtins.round (100000 / 999) 1 = 100.1
  /\ builtins.round (19.99 - 9.99) 2 = 10.
Proof.
  unfold builtins.round.
  rewrite (rint_below_half (19.99 * 10 ^ 2) 1999) by (simpl; lra).
  rewrite (rint_below_half (9.99 * 10 ^ 2) 999) by (simpl; lra).
  rewrite (rint_below_half (100000 / 999 * 10 ^ 1) 1001) by (simpl; lra).
  rewrite (rint_below_half ((19.99 - 9.99) * 10 ^ 2) 1000) by (simpl; lra).
  simpl. repeat split; lra.
Qed.

Lemma subscription_confidence :
  payment_service._calculate_confidence examples.subscription_group
    (15 / 14) (100000 / 999) = 0.95.
Proof.
  unfold payment_service._calculate_confidence. cbv zeta.
  rewrite subscription_consistent.
  replace (INR (length examples.subscription_group)) with 7 by (simpl; lra).
  unfold builtins.min, builtins.max.
  rewrite (decide_True (P := 7 / 50 < 0.2)) by lra.
  rewrite (decide_True (P := 15 / 14 / 10 < 0.2)) by lra.
  rewrite (decide_False (P := 100000 / 999 / 100 < 0.2)) by lra.
  rewrite (decide_True (P := _ > 0.3)) by lra.
  rewrite decide_False by lra. reflexivity.
Qed.

Lemma subscription_analysis :
  payment_service._analyze_merchant_payments "Netflix" examples.subscription_group
  = Some examples.subscription_finding.
Proof.
  unfold payment_service._analyze_merchant_payments.
  rewrite subscription_sorted, subscription_recurring. cbn [negb].
  replace (map payment_service.amount examples.subscription_group)
    with [9.99; 9.99; 9.99; 9.99; 9.99; 9.99; 19.99] by reflexivity.
  rewrite decide_False by (simpl; lia).
  replace (length [9.99; 9.99; 9.99; 9.99; 9.99; 9.99; 19.99]) with 7%nat
    by reflexivity.
  rewrite subscription_polyfit.
  rewrite decide_False by lra.
  cbn [List.last hd]. rewrite subscription_percent.
  rewrite decide_False by lra.
  rewrite subscription_frequency, subscription_confidence.
  destruct subscription_rounding as (-> & -> & -> & ->).
  unfold payment_service._generate_recommendation.
  rewrite decide_True by lra.
  reflexivity.
Qed.

Lemma subscription_abs :
  Rabs (-9.99) = 9.99 /\ Rabs (-19.99) = 19.99 /\ Rabs (-54.20) = 54.20
  /\ Rabs (-4.50) = 4.50.
Proof. repeat split; rewrite Rabs_left; lra. Qed.

Lemma subscription_spending :
  filter (fun txn => amount txn < 0) examples.subscription_batch
  = examples.subscription_spending.
Proof.
  unfold examples.subscription_batch, examples.subscription_spending.
  do 7 (rewrite filter_cons_True by (simpl; lra); f_equal).
  rewrite filter_cons_False by (simpl; lra).
  do 2 (rewrite filter_cons_True by (simpl; lra); f_equal).
Qed.

Lemma subscription_prepared_from (batch : list TransactionData) :
  filter (fun txn => amount txn < 0) batch = examples.subscription_spending ->
  payment_service._prepare_data calendar.iso_to_datetime batch
  = Ok examples.subscription_df.
Proof.
  intros Hspending. unfold payment_service._prepare_data. rewrite Hspending.
  unfold examples.subscription_df, examples.payment_row.
  destruct subscription_abs as (H1 & H2 & H3 & H4).
  rewrite <- H1, <- H2, <- H3, <- H4. reflexivity.
Qed.

Lemma subscription_prepared :
  payment_service._prepare_data calendar.iso_to_datetime examples.subscription_batch
  = Ok examples.subscription_df.
Proof. apply subscription_prepared_from, subscription_spending. Qed.

Lemma subscription_groups :
  payment_service.groupby_merchant examples.subscription_df
  = Ok [ ("Coffee Shop"%string,
          [examples.payment_row 1714635900000000000%Z 4.50 "Coffee Shop" "Food & Dining"]);
         ("Grocery Store"%string,
          [examples.payment_row 1710959400000000000%Z 54.20 "Grocery Store" "Groceries"]);
         ("Netflix"%string, examples.subscription_group) ].
Proof. reflexivity. Qed.

Lemma subscription_detected_from (batch : list TransactionData) :
  (10 <= length batch)%nat ->
  filter (fun txn => amount txn < 0) batch = examples.subscription_spending ->
  payment_service.detect_rising_payments calendar.iso_to_datetime batch
  = Ok [examples.subscription_finding].
Proof.
  intros Hlen Hspending.
  unfold payment_service.detect_rising_payments,
    payment_service.detect_rising_payments_body.
  rewrite decide_False by lia.
  rewrite (subscription_prepared_from batch Hspending). cbn [mbind result_bind].
  rewrite subscription_groups. cbn [mbind result_bind].
  unfold payment_service.rising_payments. cbn [omap list_omap].
  rewrite !(decide_True (P := (length [_] < 3)%nat)) by (simpl; lia).
  rewrite decide_False by (simpl; lia).
  rewrite subscription_analysis. reflexivity.
Qed.

Lemma subscription_detected :
  payment_service.detect_rising_payments calendar.iso_to_datetime
    examples.subscription_batch
  = Ok [examples.subscription_finding].
Proof.
  apply subscription_detected_from; [simpl; lia | exact subscription_spending].
Qed.

(** A record that is not spending is dropped before its timestamp is read:
    with a timestamp that does not parse on the income record, the batch is
    analysed as if the record were not there. *)
Lemma unparsable_income_record_skipped :
  examples.pending_income ∈ examples.subscription_batch_pending_income
  /\ calendar.iso_to_datetime (posted_at examples.pending_income) = None
  /\ payment_service.detect_rising_payments calendar.iso_to_datetime
       examples.subscription_batch_pending_income
     = Ok [examples.subscription_finding].
Proof.
  split; [|split].
  - unfold examples.subscription_batch_pending_income.
    apply elem_of_app. right. left.
  - vm_compute. reflexivity.
  - apply subscription_detected_from; [simpl; lia|].
    unfold examples.subscription_batch_pending_income,
      examples.subscription_batch, examples.subscription_spending.
    cbn [take drop app].
    do 7 (rewrite filter_cons_True by (simpl; lra); f_equal).
    rewrite filter_cons_False by (simpl; lra).
    do 2 (rewrite filter_cons_True by (simpl; lra); f_equal).
Qed.

(** The claim C7 as the specification states it fails on this batch: the
    increase that is reported is not 100 but 100.1 (the increase itself is
    100000/999 percent); and the seven charges on their own, fewer than 10
    records, give no finding at all. *)
Lemma subscription_increase_is_not_100 :
  (exists f,
     payment_service.detect_rising_payments calendar.iso_to_datetime
       examples.subscription_batch = Ok [f]
     /\ increase_percentage f <> 100)
  /\ payment_service.percent_increase 19.99 9.99 <> Some 100
  /\ payment_service.detect_rising_payments calendar.iso_to_datetime
       (take 7 examples.subscription_batch) = Ok [].
Proof.
  split; [|split].
  - exists examples.subscription_finding.
    split; [exact subscription_detected|]. simpl. lra.
  - rewrite subscription_percent. intros [= Heq]. lra.
  - unfold payment_service.detect_rising_payments,
      payment_service.detect_rising_payments_body.
    rewrite decide_True by (simpl; lia). reflexivity.
Qed.
End subscription.

(** ** One outlier among twelve records *)

Section outlier.
Import schemas.
Local Open Scope R_scope.

Lemma outlier_prepared :
  anomaly_service._prepare_data calendar.iso_to_datetime examples.outlier_transactions
  = Ok examples.outlier_df.
Proof.
  unfold examples.outlier_df, examples.anomaly_row.
  replace 50 with (Rabs (-50)) by (rewrite Rabs_left; lra).
  replace 5000 with (Rabs (-5000)) by (rewrite Rabs_left; lra).
  reflexivity.
Qed.

Lemma outlier_amounts :
  map anomaly_service.amount examples.outlier_df
  = [50; 50; 50; 50; 50; 50; 5000; 50; 50; 50; 50; 50].
Proof. reflexivity. Qed.

Lemma outlier_mean :
  builtins.mean (map anomaly_service.amount examples.outlier_df) = 462.5.
Proof. rewrite outlier_amounts. unfold builtins.mean. simpl. lra. Qed.

Lemma outlier_std :
  let sd := builtins.std (map anomaly_service.amount examples.outlier_df) in
  sd * sd = 1871718.75 /\ 1368 < sd < 1369.
Proof.
  intros sd. subst sd. unfold builtins.std. rewrite outlier_mean.
  rewrite outlier_amounts. unfold builtins.mean. simpl.
  match goal with |- context [sqrt ?v] =>
    replace v with 1871718.75 by lra end.
  split; [apply sqrt_sqrt; lra|].
  split.
  - replace 1368 with (sqrt (1368 * 1368)) by (apply sqrt_square; lra).
    apply sqrt_lt_1; lra.
  - replace 1369 with (sqrt (1369 * 1369)) by (apply sqrt_square; lra).
    apply sqrt_lt_1; lra.
Qed.

Lemma outlier_overall :
  let sd := builtins.std (map anomaly_service.amount examples.outlier_df) in
  exists f, anomaly_service.overall_amount_anomalies examples.outlier_df = [f]
    /\ transaction_id f = "t7"%string
    /\ anomaly_type f = UNUSUAL_AMOUNT
    /\ severity f = low
    /\ z_score f = 4537.5 / sd
    /\ confidence f = 4537.5 / sd / 5.
Proof.
  intros sd. destruct outlier_std as [Hsq [Hlo Hhi]]. fold sd in Hsq, Hlo, Hhi.
  assert (Hinv : / 1369 < / sd < / 1368).
  { split; apply Rinv_lt_contravar; try lra; apply Rmult_lt_0_compat; lra. }
  unfold anomaly_service.overall_amount_anomalies, builtins.zscore, builtins.abs.
  cbv zeta. rewrite outlier_mean. fold sd.
  rewrite outlier_amounts.
  assert (Hsd : sd <> 0) by lra.
  cbn [map]. rewrite !(decide_False (P := sd = 0)) by exact Hsd.
  cbn [fmap option_fmap option_map].
  replace (Rabs ((50 - 462.5) / sd)) with (412.5 / sd)
    by (rewrite Rabs_left; lra).
  replace (Rabs ((5000 - 462.5) / sd)) with (4537.5 / sd)
    by (rewrite Rabs_right; lra).
  unfold examples.outlier_df. cbn [zip_with omap list_omap].
  rewrite !(decide_False (P := 412.5 / sd > 3.0)) by lra.
  rewrite (decide_True (P := 4537.5 / sd > 3.0)) by lra.
  eexists. split; [reflexivity|]. cbn [transaction_id anomaly_type severity z_score confidence].
  split; [reflexivity|]. split; [reflexivity|].
  split; [|split; [reflexivity|]].
  - unfold anomaly_service._calculate_severity.
    rewrite !decide_False by lra. reflexivity.
  - unfold builtins.min. rewrite decide_True by lra. lra.
Qed.

Lemma outlier_zscore :
  let sd := builtins.std (map anomaly_service.amount examples.outlier_df) in
  4537.5 / sd = sqrt 11.
Proof.
  intros sd. destruct outlier_std as [Hsq [Hlo Hhi]]. fold sd in Hsq, Hlo, Hhi.
  symmetry. apply sqrt_lem_1; [lra| |].
  - apply Rmult_le_pos; [lra|]. left. apply Rinv_0_lt_compat. lra.
  - replace (4537.5 / sd * (4537.5 / sd))
      with (4537.5 * 4537.5 * / (sd * sd)) by (field; lra).
    rewrite Hsq. lra.
Qed.

(** C8, as the code has it.  Of twelve records, eleven of amount 50 and one
    of amount 5000, the overall z-score pass flags the record of 5000 and no
    other, as UNUSUAL_AMOUNT; its z-score is the square root of 11, above the
    threshold 3.0 and not above 1.5 times the threshold, so the severity is
    low; the confidence is a fifth of the z-score. *)
Theorem single_outlier_of_twelve_flagged_low :
  exists f,
    anomaly_service._prepare_data calendar.iso_to_datetime
      examples.outlier_transactions = Ok examples.outlier_df
    /\ anomaly_service.overall_amount_anomalies examples.outlier_df = [f]
    /\ transaction_id f = "t7"%string
    /\ actual_value f = 5000
    /\ anomaly_type f = UNUSUAL_AMOUNT
    /\ z_score f = sqrt 11
    /\ 3.0 < z_score f
    /\ z_score f <= 3.0 * 1.5
    /\ severity f = anomaly_service._calculate_severity (z_score f) 3.0
    /\ severity f = low
    /\ confidence f = sqrt 11 / 5.
Proof.
  destruct outlier_overall as (f & Hf & Hid & Htype & Hsev & Hz & Hconf).
  pose proof outlier_zscore as Hsqrt. cbv zeta in Hz, Hconf, Hsqrt.
  destruct outlier_std as [_ [Hlo Hhi]].
  assert (Hinv : / 1369 < / builtins.std (map anomaly_service.amount examples.outlier_df) < / 1368).
  { split; apply Rinv_lt_contravar; try lra; apply Rmult_lt_0_compat; lra. }
  exists f. split; [exact outlier_prepared|]. split; [exact Hf|].
  split; [exact Hid|].
  split.
  { assert (Hin : f ∈ anomaly_service.overall_amount_anomalies examples.outlier_df)
      by (rewrite Hf; left).
    clear Hf. unfold anomaly_service.overall_amount_anomalies in Hin.
    apply list_elem_of_omap in Hin as ([row z] & Hrow & Hmk).
    destruct z as [z|]; [|discriminate]. case_decide; [|discriminate].
    inversion Hmk. subst f. simpl in Hid |- *.
    apply elem_of_zip_l in Hrow. unfold examples.outlier_df in Hrow.
    repeat (apply elem_of_cons in Hrow as [->|Hrow];
            [first [reflexivity | discriminate Hid]|]).
    inversion Hrow. }
  split; [exact Htype|].
  split; [rewrite Hz; exact Hsqrt|].
  split; [rewrite Hz; lra|].
  split; [rewrite Hz; lra|].
  split.
  { rewrite Hsev, Hz. unfold anomaly_service._calculate_severity.
    rewrite !decide_False by lra. reflexivity. }
  split; [exact Hsev|].
  rewrite Hconf, Hsqrt. reflexivity.
Qed.

(** The claim C8 as the specification states it fails on these records: the
    one finding of the overall pass, for the record of 5000, has severity
    low, not high. *)
Lemma single_outlier_of_twelve_not_high :
  exists f,
    anomaly_service._prepare_data calendar.iso_to_datetime
      examples.outlier_transactions = Ok examples.outlier_df
    /\ anomaly_service.overall_amount_anomalies examples.outlier_df = [f]
    /\ transaction_id f = "t7"%string
    /\ severity f <> high.
Proof.
  destruct outlier_overall as (f & Hf & Hid & _ & Hsev & _).
  exists f. split; [exact outlier_prepared|]. split; [exact Hf|].
  split; [exact Hid|]. rewrite Hsev. discriminate.
Qed.
End outlier.

(** * Further properties of the two services *)

(** ** Lists, sums and the exception monad, continued *)

Lemma mapM_Ok_Forall2 {A B : Type} (f : A -> result B) (l : list A) (k : list B) :
  mapM f l = Ok k -> Forall2 (fun x y => f x = Ok y) l k.
Proof.
  revert k. induction l as [|x l IH]; intros k Hk.
  - injection Hk as <-. constructor.
  - rewrite mapM_cons in Hk. destruct (f x) as [y|e] eqn:Hx; [|discriminate].
    simpl in Hk. destruct (mapM f l) as [k'|e]; [|discriminate].
    simpl in Hk. injection Hk as <-. constructor; [exact Hx | apply IH; reflexivity].
Qed.

Lemma Forall2_map_eq {A B C : Type} (R : A -> B -> Prop) (g : A -> C) (h : B -> C)
  (l : list A) (k : list B) :
  (forall x y, R x y -> g x = h y) -> Forall2 R l k -> map g l = map h k.
Proof.
  intros Hgh Hall. induction Hall as [|x y l k Hxy _ IH]; [reflexivity|].
  cbn [map]. rewrite IH, (Hgh x y Hxy). reflexivity.
Qed.

Lemma Forall2_Forall_r {A B : Type} (R : A -> B -> Prop) (P : B -> Prop)
  (l : list A) (k : list B) :
  (forall x y, R x y -> P y) -> Forall2 R l k -> Forall P k.
Proof.
  intros HP Hall. induction Hall as [|x y l k Hxy _ IH]; constructor;
    [exact (HP x y Hxy) | exact IH].
Qed.

Lemma Forall2_elem_of_r {A B : Type} (R : A -> B -> Prop) (l : list A) (k : list B)
  (y : B) :
  Forall2 R l k -> y ∈ k -> exists x, x ∈ l /\ R x y.
Proof.
  intros Hall. induction Hall as [|x y' l k Hxy _ IH]; intros Hy; [inversion Hy|].
  apply elem_of_cons in Hy as [->|Hy].
  - exists x. split; [left | exact Hxy].
  - destruct (IH Hy) as (x' & Hx' & HR). exists x'. split; [right; exact Hx' | exact HR].
Qed.

Lemma elem_of_concat {A : Type} (x : A) (ls : list (list A)) :
  x ∈ concat ls <-> exists l, x ∈ l /\ l ∈ ls.
Proof.
  rewrite list_elem_of_In, in_concat. split; intros (l & H1 & H2); exists l.
  - split; apply list_elem_of_In; assumption.
  - split; apply list_elem_of_In; assumption.
Qed.

Lemma StronglySorted_sublist {A : Type} (R : A -> A -> Prop) (l k : list A) :
  l `sublist_of` k -> StronglySorted R k -> StronglySorted R l.
Proof.
  intros Hsub. induction Hsub as [|x l k Hsub IH|x l k Hsub IH]; intros Hs.
  - constructor.
  - apply StronglySorted_inv in Hs as [Hs Hall]. constructor; [exact (IH Hs)|].
    apply Forall_forall. intros y Hy. rewrite Forall_forall in Hall.
    apply Hall. exact (elem_of_sublist _ _ _ Hy Hsub).
  - apply StronglySorted_inv in Hs as [Hs _]. exact (IH Hs).
Qed.

Lemma sorted_by_date_StronglySorted {A : Type} (date : A -> Z) (l : list A) :
  StronglySorted (fun a b => (date a <= date b)%Z) (builtins.sorted Z.lt date l).
Proof.
  eapply StronglySorted_weaken;
    [|apply sorted_StronglySorted; [exact Zlt_asym | exact Zlt_negtrans]].
  intros a b. simpl. lia.
Qed.

Lemma NoDup_unique `{EqDecision A} (l : list A) : NoDup (builtins.unique l).
Proof.
  induction l as [|x l IH]; simpl; constructor.
  - rewrite list_elem_of_filter. intros [Hne _]. exact (Hne eq_refl).
  - apply NoDup_filter. exact IH.
Qed.

Lemma length_filter_map {A B : Type} `{EqDecision B} (g : A -> B) (k : B)
  (l : list A) :
  length (filter (fun x => g x = k) l) = length (filter (fun y => y = k) (map g l)).
Proof.
  induction l as [|x l IH]; [reflexivity|].
  cbn [map]. rewrite !filter_cons. case_decide; simpl; rewrite IH; reflexivity.
Qed.

Lemma min_le_l (a b : R) : (builtins.min a b <= a)%R.
Proof. unfold builtins.min. case_decide; lra. Qed.

Lemma min_glb (a b c : R) : (c <= a)%R -> (c <= b)%R -> (c <= builtins.min a b)%R.
Proof. unfold builtins.min. case_decide; lra. Qed.

Lemma min_glb_lt (a b c : R) : (c < a)%R -> (c < b)%R -> (c < builtins.min a b)%R.
Proof. unfold builtins.min. case_decide; lra. Qed.

Lemma mean_constant (a : list R) (c : R) :
  a <> [] -> (forall x, x ∈ a -> x = c) -> builtins.mean a = c.
Proof.
  intros Hne Hall. unfold builtins.mean.
  assert (Hsum : builtins.sum a = (INR (length a) * c)%R).
  { clear Hne. induction a as [|x a IH]; [simpl; lra|].
    cbn [builtins.sum foldr length]. fold (builtins.sum a).
    rewrite S_INR, IH, (Hall x) by (try left; intros; apply Hall; right; assumption).
    lra. }
  rewrite Hsum. field. apply not_0_INR. destruct a; [congruence | simpl; lia].
Qed.

Lemma std_constant (a : list R) (c : R) :
  a <> [] -> (forall x, x ∈ a -> x = c) -> builtins.std a = 0%R.
Proof.
  intros Hne Hall. unfold builtins.std.
  rewrite (mean_constant a c Hne Hall).
  rewrite (mean_constant _ 0%R).
  - apply sqrt_0.
  - destruct a; [congruence | discriminate].
  - intros y Hy. apply list_elem_of_fmap in Hy as (x & -> & Hx).
    rewrite (Hall x Hx). lra.
Qed.

Lemma rint_ge (k : Z) (x : R) : (IZR k <= x)%R -> (k <= builtins.rint x)%Z.
Proof.
  intros Hk. apply Zfloor_lub in Hk. unfold builtins.rint.
  repeat case_decide; try destruct (Z.even _); lia.
Qed.

Lemma round_ge_5 (x : R) : (5 <= x)%R -> (5 <= builtins.round x 1)%R.
Proof.
  intros Hx. unfold builtins.round.
  assert (Hk : (50 <= builtins.rint (x * 10 ^ 1))%Z) by (apply rint_ge; simpl; lra).
  apply IZR_le in Hk. set (k := IZR (builtins.rint _)) in *. clearbody k.
  simpl. lra.
Qed.

(** ** The prepared rows *)

Section prepared_data.
Import schemas.
Local Open Scope R_scope.
Variable to_datetime : string -> option calendar.Timestamp.

(** The rows [_prepare_data] of the anomaly service builds before it sorts
    them: one per transaction, in the order of the batch. *)
Lemma prepare_data_Ok (transactions : list TransactionData)
  (df : list anomaly_service.Row) :
  anomaly_service._prepare_data to_datetime transactions = Ok df ->
  exists data,
    df = builtins.sorted Z.lt anomaly_service.date data
    /\ Forall2 (fun txn row =>
         anomaly_service.id row = id txn
         /\ 0 <= anomaly_service.amount row
         /\ (0 <= anomaly_service.hour row < 24)%Z
         /\ (0 <= anomaly_service.day_of_week row < 7)%Z) transactions data.
Proof.
  unfold anomaly_service._prepare_data.
  destruct (mapM _ transactions) as [data|e] eqn:Hdata; [|discriminate].
  simpl. intros [= <-]. exists data. split; [reflexivity|].
  apply mapM_Ok_Forall2 in Hdata.
  eapply Forall2_impl; [exact Hdata|].
  intros txn row Hrow. simpl in Hrow.
  unfold anomaly_service.pd_to_datetime in Hrow.
  destruct (to_datetime (posted_at txn)) as [t|]; [|discriminate].
  injection Hrow as <-. cbn.
  split; [reflexivity|]. split; [apply Rabs_pos|].
  unfold calendar.hour, calendar.dayofweek.
  split; apply Z.mod_pos_bound; lia.
Qed.

Lemma prepare_data_ids (transactions : list TransactionData)
  (df : list anomaly_service.Row) :
  anomaly_service._prepare_data to_datetime transactions = Ok df ->
  map anomaly_service.id df ≡ₚ map id transactions.
Proof.
  intros Hdf. apply prepare_data_Ok in Hdf as (data & -> & Hdata).
  rewrite sorted_Permutation.
  erewrite <- (Forall2_map_eq _ id anomaly_service.id); [reflexivity| |exact Hdata].
  intros txn row (Hid & _). symmetry. exact Hid.
Qed.

Lemma prepare_data_length (transactions : list TransactionData)
  (df : list anomaly_service.Row) :
  anomaly_service._prepare_data to_datetime transactions = Ok df ->
  length df = length transactions.
Proof.
  intros Hdf. apply prepare_data_ids, Permutation_length in Hdf.
  rewrite !length_map in Hdf. exact Hdf.
Qed.

(** X1.  [_prepare_data] of the anomaly service either raises the parse
    error of a record of the batch whose timestamp does not parse, or
    returns one row per transaction (the ids of the rows are the ids of the
    batch, rearranged), in ascending order of date, each with a non-negative
    amount, an hour from 0 to 23 and a day of the week from 0 to 6. *)
Theorem anomaly_rows_one_per_transaction (transactions : list TransactionData) :
  match anomaly_service._prepare_data to_datetime transactions with
  | Ok df =>
      map anomaly_service.id df ≡ₚ map id transactions
      /\ StronglySorted
           (fun a b => (anomaly_service.date a <= anomaly_service.date b)%Z) df
      /\ Forall (fun row => 0 <= anomaly_service.amount row
                            /\ (0 <= anomaly_service.hour row < 24)%Z
                            /\ (0 <= anomaly_service.day_of_week row < 7)%Z) df
  | Raise e =>
      exists bad, bad ∈ transactions
        /\ to_datetime (posted_at bad) = None
        /\ e = DateParseError (posted_at bad)
  end.
Proof.
  destruct (anomaly_service._prepare_data to_datetime transactions) as [df|e] eqn:Hdf.
  - split; [exact (prepare_data_ids transactions df Hdf)|].
    apply prepare_data_Ok in Hdf as (data & -> & Hdata).
    split; [apply sorted_by_date_StronglySorted|].
    apply Forall_forall. intros row Hrow. apply elem_of_sorted in Hrow.
    revert row Hrow. apply Forall_forall.
    eapply Forall2_Forall_r; [|exact Hdata].
    intros txn row (_ & Hrow). exact Hrow.
  - unfold anomaly_service._prepare_data in Hdf.
    destruct (mapM _ transactions) as [data|e'] eqn:Hdata; [discriminate|].
    simpl in Hdf. injection Hdf as ->.
    apply mapM_Raise_inv in Hdata as (bad & Hbad & Hraise).
    exists bad. split; [exact Hbad|].
    unfold anomaly_service.pd_to_datetime in Hraise.
    destruct (to_datetime (posted_at bad)); [discriminate|].
    split; [reflexivity|]. simpl in Hraise. congruence.
Qed.

(** The rows [_prepare_data] of the payment service builds: one per
    spending record. *)
Lemma payment_prepare_data_Ok (transactions : list TransactionData)
  (df : list payment_service.Row) :
  payment_service._prepare_data to_datetime transactions = Ok df ->
  exists data,
    df ≡ₚ data
    /\ Forall2 (fun txn row =>
         payment_service.merchant row = merchant_name txn
         /\ 0 < payment_service.amount row)
         (filter (fun txn => amount txn < 0) transactions) data
    /\ StronglySorted
         (fun a b => (payment_service.date a <= payment_service.date b)%Z) df.
Proof.
  unfold payment_service._prepare_data.
  set (spending := filter (fun txn => amount txn < 0) transactions).
  assert (Hneg : Forall (fun txn => amount txn < 0) spending).
  { apply Forall_forall. intros txn Htxn.
    apply list_elem_of_filter in Htxn as [Hneg _]. exact Hneg. }
  destruct (mapM _ spending) as [data|e] eqn:Hdata; [|discriminate].
  simpl. intros [= <-]. exists data.
  apply mapM_Ok_Forall2 in Hdata.
  split; [case_decide; [apply sorted_Permutation | reflexivity]|]. split.
  - clear -Hdata Hneg. induction Hdata as [|txn row l k Hrow _ IH]; [constructor|].
    apply Forall_cons in Hneg as [Hneg Hrest].
    constructor; [|exact (IH Hrest)].
    simpl in Hrow. unfold payment_service.pd_to_datetime in Hrow.
    destruct (to_datetime (posted_at txn)); [|discriminate].
    injection Hrow as <-. cbn. split; [reflexivity|]. apply Rabs_pos_lt. lra.
  - case_decide as Hlen; [apply sorted_by_date_StronglySorted|].
    destruct data; [constructor | simpl in Hlen; lia].
Qed.

Lemma payment_rows_merchants (transactions : list TransactionData)
  (df : list payment_service.Row) :
  payment_service._prepare_data to_datetime transactions = Ok df ->
  map payment_service.merchant df
  ≡ₚ map merchant_name (filter (fun txn => amount txn < 0) transactions).
Proof.
  intros Hdf. apply payment_prepare_data_Ok in Hdf as (data & Hperm & Hdata & _).
  rewrite Hperm.
  erewrite (Forall2_map_eq _ merchant_name payment_service.merchant);
    [reflexivity| |exact Hdata].
  intros txn row (Hm & _). symmetry. exact Hm.
Qed.

(** X2.  [_prepare_data] of the payment service reads the spending records
    only (negative amount): it either raises the parse error of a spending
    record whose timestamp does not parse, or returns one row per spending
    record (the merchants of the rows are those of the spending records,
    rearranged), in ascending order of date, each with a positive amount.
    The timestamp of a record that is no spending is never parsed. *)
Theorem payment_rows_are_the_spending_records (transactions : list TransactionData) :
  match payment_service._prepare_data to_datetime transactions with
  | Ok df =>
      map payment_service.merchant df
        ≡ₚ map merchant_name (filter (fun txn => amount txn < 0) transactions)
      /\ StronglySorted
           (fun a b => (payment_service.date a <= payment_service.date b)%Z) df
      /\ Forall (fun row => 0 < payment_service.amount row) df
  | Raise e =>
      exists bad, bad ∈ transactions
        /\ amount bad < 0
        /\ to_datetime (posted_at bad) = None
        /\ e = DateParseError (posted_at bad)
  end.
Proof.
  destruct (payment_service._prepare_data to_datetime transactions) as [df|e] eqn:Hdf.
  - split; [exact (payment_rows_merchants transactions df Hdf)|].
    apply payment_prepare_data_Ok in Hdf as (data & Hperm & Hdata & Hsorted).
    split; [exact Hsorted|].
    rewrite Hperm. eapply Forall2_Forall_r; [|exact Hdata].
    intros txn row (_ & Hpos). exact Hpos.
  - unfold payment_service._prepare_data in Hdf.
    destruct (mapM _ _) as [data|e'] eqn:Hdata; [discriminate|].
    simpl in Hdf. injection Hdf as ->.
    apply mapM_Raise_inv in Hdata as (bad & Hbad & Hraise).
    apply list_elem_of_filter in Hbad as [Hneg Hbad].
    exists bad. split; [exact Hbad|]. split; [exact Hneg|].
    unfold payment_service.pd_to_datetime in Hraise.
    destruct (to_datetime (posted_at bad)); [discriminate|].
    split; [reflexivity|]. simpl in Hraise. congruence.
Qed.
End prepared_data.

(** ** Degenerate statistics: the two cases of the specification *)

Section degenerate_cases.
Import schemas.
Local Open Scope R_scope.

(** C5.  The degenerate cases give no finding.  With a population standard
    deviation of 0 over the amounts the overall z-score pass emits nothing.
    The percentage increase is a number for every pair of amounts: its
    quotient is taken under the guard only, never with a zero divisor.  When
    the first amount of a merchant is 0 the guard gives 0 percent and the
    merchant is discarded; and on the rows [_prepare_data] builds the first
    amount of a merchant is positive, so there the quotient is always taken,
    with a positive divisor. *)
Theorem degenerate_cases_give_no_finding :
  (forall df : list anomaly_service.Row,
     builtins.std (map anomaly_service.amount df) = 0 ->
     anomaly_service.overall_amount_anomalies df = [])
  /\ (forall recent_amount older_amount : R,
        is_Some (payment_service.percent_increase recent_amount older_amount))
  /\ (forall (merchant_name : string) (group : list payment_service.Row),
        let amounts := map payment_service.amount
                         (builtins.sorted Z.lt payment_service.date group) in
        hd 0 amounts = 0 ->
        payment_service.percent_increase (List.last amounts 0) (hd 0 amounts)
        = Some 0
        /\ payment_service._analyze_merchant_payments merchant_name group = None)
  /\ (forall (to_datetime : string -> option calendar.Timestamp)
             (transactions : list TransactionData)
             (df : list payment_service.Row) (merchant_name : string),
        payment_service._prepare_data to_datetime transactions = Ok df ->
        let amounts :=
          map payment_service.amount
            (builtins.sorted Z.lt payment_service.date
               (filter (fun row => payment_service.merchant row = merchant_name) df)) in
        amounts <> [] ->
        0 < hd 0 amounts
        /\ payment_service.percent_increase (List.last amounts 0) (hd 0 amounts)
           = Some ((List.last amounts 0 - hd 0 amounts) / hd 0 amounts * 100)).
Proof.
  split; [exact overall_amount_anomalies_zero_std|].
  split; [exact percent_increase_finite|].
  split.
  - intros merchant_name group amounts Hfirst. split.
    + rewrite Hfirst. apply percent_increase_zero.
    + apply analyze_first_amount_zero. exact Hfirst.
  - intros to_datetime transactions df merchant_name Hdf amounts Hne.
    assert (Hpos : 0 < hd 0 amounts).
    { apply payment_prepare_data_Ok in Hdf as (data & Hperm & Hdata & _).
      destruct amounts as [|a rest] eqn:Hamounts; [congruence|].
      assert (Ha : a ∈ amounts) by (rewrite Hamounts; left).
      unfold amounts in Ha.
      apply list_elem_of_fmap in Ha as (row & -> & Hrow).
      apply elem_of_sorted, list_elem_of_filter in Hrow as [_ Hrow].
      rewrite Hperm in Hrow.
      destruct (Forall2_elem_of_r _ _ _ _ Hdata Hrow) as (txn & _ & _ & Hamount).
      exact Hamount. }
    split; [exact Hpos|].
    apply percent_increase_positive. lra.
Qed.

Lemma degenerate_cases_give_no_finding_witness :
  builtins.std (map anomaly_service.amount examples.flat_df) = 0
  /\ anomaly_service.overall_amount_anomalies examples.flat_df = []
  /\ hd 0 (map payment_service.amount
             (builtins.sorted Z.lt payment_service.date examples.free_trial_group)) = 0
  /\ payment_service.percent_increase 19.99 0 = Some 0
  /\ payment_service._analyze_merchant_payments "Streaming" examples.free_trial_group
     = None
  /\ payment_service._prepare_data calendar.iso_to_datetime
       examples.subscription_batch = Ok examples.subscription_df
  /\ payment_service.percent_increase 19.99 9.99
     = Some ((19.99 - 9.99) / 9.99 * 100).
Proof.
  destruct degenerate_cases_give_no_finding as (Hstd & _ & Hfirst & Hbuilt).
  assert (Hflat : builtins.std (map anomaly_service.amount examples.flat_df) = 0).
  { change (map anomaly_service.amount examples.flat_df) with (repeat 50 10).
    unfold builtins.std, builtins.mean. simpl.
    match goal with |- sqrt ?v = 0 => replace v with 0 by lra end.
    apply sqrt_0. }
  split; [exact Hflat|].
  split; [exact (Hstd examples.flat_df Hflat)|].
  split; [reflexivity|].
  destruct (Hfirst "Streaming"%string examples.free_trial_group eq_refl)
    as [Hpercent Hnone].
  split; [exact Hpercent|]. split; [exact Hnone|].
  split; [exact subscription_prepared|].
  pose proof (Hbuilt calendar.iso_to_datetime examples.subscription_batch
                examples.subscription_df "Netflix"%string subscription_prepared)
    as Hnetflix.
  cbv zeta in Hnetflix.
  change (map payment_service.amount
            (builtins.sorted Z.lt payment_service.date
               (filter (fun row => payment_service.merchant row = "Netflix"%string)
                  examples.subscription_df)))
    with [9.99; 9.99; 9.99; 9.99; 9.99; 9.99; 19.99] in Hnetflix.
  exact (proj2 (Hnetflix ltac:(discriminate))).
Defined.
End degenerate_cases.

(** ** What every anomaly finding satisfies *)

Section finding_invariants.
Import schemas.
Local Open Scope R_scope.
Variable to_datetime : string -> option calendar.Timestamp.
Variable scaler_fit_transform : list (list R) -> result (list (list R)).
Variable isolation_forest_fit_predict : list (list R) -> result (list Z).
Variable isolation_forest_decision_function : list (list R) -> result (list R).

#[local] Abbreviation detect_anomalies :=
  (anomaly_service.detect_anomalies to_datetime scaler_fit_transform
     isolation_forest_fit_predict isolation_forest_decision_function).
#[local] Abbreviation _detect_ml_anomalies :=
  (anomaly_service._detect_ml_anomalies scaler_fit_transform
     isolation_forest_fit_predict isolation_forest_decision_function).
#[local] Abbreviation anomalies :=
  (anomaly_service.anomalies scaler_fit_transform
     isolation_forest_fit_predict isolation_forest_decision_function).

(** A candidate finding is about a row of the DataFrame, and its confidence
    is in range. *)
#[local] Abbreviation candidate_ok df f :=
  (transaction_id f ∈ map anomaly_service.id df
   /\ 0 <= confidence f <= 0.95
   /\ (anomaly_type f <> UNUSUAL_MERCHANT -> 0.6 < confidence f)).

Lemma elem_of_map_id (df : list anomaly_service.Row) (row : anomaly_service.Row) :
  row ∈ df -> anomaly_service.id row ∈ map anomaly_service.id df.
Proof. intros Hrow. apply list_elem_of_In, in_map, list_elem_of_In. exact Hrow. Qed.

Lemma overall_candidate_ok (df : list anomaly_service.Row) (f : AnomalyResponse) :
  f ∈ anomaly_service.overall_amount_anomalies df -> candidate_ok df f.
Proof.
  unfold anomaly_service.overall_amount_anomalies. intros Hf.
  apply list_elem_of_omap in Hf as ([row z] & Hrow & Hmk).
  apply elem_of_zip_l in Hrow.
  destruct z as [z|]; [|discriminate].
  case_decide as Hz; [|discriminate]. injection Hmk as <-.
  split; [exact (elem_of_map_id df row Hrow)|]. cbn.
  pose proof (min_le_l 0.95 (z / 5.0)).
  assert (0.6 < builtins.min 0.95 (z / 5.0)) by (apply min_glb_lt; lra).
  split; [lra | intros _; lra].
Qed.

Lemma category_candidate_ok (df : list anomaly_service.Row) (f : AnomalyResponse) :
  f ∈ anomaly_service.category_specific_anomalies df -> candidate_ok df f.
Proof.
  unfold anomaly_service.category_specific_anomalies. intros Hf.
  apply elem_of_concat in Hf as (l & Hf & Hl).
  apply list_elem_of_fmap in Hl as (c & -> & _).
  unfold anomaly_service.category_anomalies in Hf.
  case_decide; [inversion Hf|].
  apply list_elem_of_omap in Hf as ([row z] & Hrow & Hmk).
  apply elem_of_zip_l in Hrow. apply list_elem_of_filter in Hrow as [_ Hrow].
  destruct z as [z|]; [|discriminate].
  case_decide as Hz; [|discriminate]. injection Hmk as <-.
  split; [exact (elem_of_map_id df row Hrow)|]. cbn.
  pose proof (min_le_l 0.90 (z / 4.0)).
  assert (0.6 < builtins.min 0.90 (z / 4.0)) by (apply min_glb_lt; lra).
  split; [lra | intros _; lra].
Qed.

Lemma ml_candidate_ok (df : list anomaly_service.Row) (found : list AnomalyResponse)
  (f : AnomalyResponse) :
  _detect_ml_anomalies df = Ok found -> f ∈ found -> candidate_ok df f.
Proof.
  unfold anomaly_service._detect_ml_anomalies. case_decide.
  { intros [= <-] Hf. inversion Hf. }
  destruct (scaler_fit_transform _) as [X|e]; [|discriminate]. simpl.
  destruct (isolation_forest_fit_predict X) as [labels|e]; [|discriminate]. simpl.
  destruct (isolation_forest_decision_function X) as [scores|e]; [|discriminate].
  simpl. destruct (mapM _ _) as [chunks|e] eqn:Hchunks; [|discriminate].
  simpl. intros [= <-] Hf.
  apply elem_of_concat in Hf as (chunk & Hf & Hchunk).
  apply mapM_Ok_Forall2 in Hchunks.
  destruct (Forall2_elem_of_r _ _ _ _ Hchunks Hchunk) as ([idx [label score]] & _ & Hmk).
  simpl in Hmk. case_decide; [|injection Hmk as <-; inversion Hf].
  destruct (df !! idx) as [row|] eqn:Hrow; [|discriminate].
  injection Hmk as <-. apply list_elem_of_singleton in Hf as ->.
  split; [apply elem_of_map_id; exact (list_elem_of_lookup_2 _ _ _ Hrow)|]. cbn.
  pose proof (min_le_l 0.95 (Rabs score * 2)).
  assert (0 <= builtins.min 0.95 (Rabs score * 2)).
  { apply min_glb; [lra|]. pose proof (Rabs_pos score). lra. }
  split; [lra | intros Hne; exfalso; apply Hne; reflexivity].
Qed.

Lemma merchant_candidate_ok (df : list anomaly_service.Row) (f : AnomalyResponse) :
  f ∈ anomaly_service._detect_merchant_anomalies df -> candidate_ok df f.
Proof.
  unfold anomaly_service._detect_merchant_anomalies. intros Hf.
  apply list_elem_of_omap in Hf as (row & Hrow & Hmk).
  unfold anomaly_service.check_against_profile in Hmk.
  destruct (_ !! _) as [profile|]; [|discriminate].
  case_decide; [|discriminate].
  case_decide as Hz; [|discriminate]. destruct Hz as [Hz _]. injection Hmk as <-.
  split; [exact (elem_of_map_id df row Hrow)|]. cbn.
  set (z := Rabs _ / _) in *. clearbody z.
  pose proof (min_le_l 0.85 (z / 3.0)).
  assert (0.6 < builtins.min 0.85 (z / 3.0)) by (apply min_glb_lt; lra).
  split; [lra | intros _; lra].
Qed.

Lemma frequency_scan_elem (s : list anomaly_service.Row) (range : list nat)
  (f : AnomalyResponse) :
  f ∈ anomaly_service.frequency_scan s range ->
  exists row, row ∈ s /\ f = anomaly_service.frequency_anomaly row.
Proof.
  induction range as [|i range IH]; simpl; intros Hf; [inversion Hf|].
  case_decide; [|exact (IH Hf)].
  apply list_elem_of_fmap in Hf as (row & -> & Hrow).
  exists row. split; [|reflexivity].
  apply (elem_of_sublist (take 5 (drop i s))); [exact Hrow|].
  etransitivity; [apply sublist_take | apply sublist_drop].
Qed.

Lemma temporal_candidate_ok (df : list anomaly_service.Row) (f : AnomalyResponse) :
  f ∈ anomaly_service._detect_temporal_anomalies df -> candidate_ok df f.
Proof.
  unfold anomaly_service._detect_temporal_anomalies. intros Hf.
  apply elem_of_app in Hf as [Hf|Hf].
  - unfold anomaly_service.unusual_timing_anomalies in Hf.
    apply list_elem_of_omap in Hf as (row & Hrow & Hmk).
    case_decide; [|discriminate]. injection Hmk as <-.
    split; [exact (elem_of_map_id df row Hrow)|]. cbn.
    split; [lra | intros _; lra].
  - apply frequency_scan_elem in Hf as (row & Hrow & ->).
    apply elem_of_sorted in Hrow.
    split; [exact (elem_of_map_id df row Hrow)|]. cbn.
    split; [lra | intros _; lra].
Qed.

Lemma candidates_ok (df : list anomaly_service.Row) (cands : list AnomalyResponse) :
  anomalies df = Ok cands -> Forall (fun f => candidate_ok df f) cands.
Proof.
  unfold anomaly_service.anomalies.
  destruct (_detect_ml_anomalies df) as [ml|e] eqn:Hml; [|discriminate].
  simpl. intros [= <-]. apply Forall_forall. intros f Hf.
  unfold anomaly_service._detect_statistical_anomalies in Hf.
  rewrite !elem_of_app in Hf.
  destruct Hf as [[Hf|Hf]|[Hf|[Hf|Hf]]].
  - exact (overall_candidate_ok df f Hf).
  - exact (category_candidate_ok df f Hf).
  - exact (ml_candidate_ok df ml f Hml Hf).
  - exact (merchant_candidate_ok df f Hf).
  - exact (temporal_candidate_ok df f Hf).
Qed.

(** Every finding [detect_anomalies] returns is a candidate of one of the
    four detectors on the prepared rows. *)
Lemma detect_anomalies_findings (transactions : list TransactionData) :
  exists out, detect_anomalies transactions = Ok out
    /\ forall f, f ∈ out ->
         exists df cands,
           anomaly_service._prepare_data to_datetime transactions = Ok df
           /\ anomalies df = Ok cands
           /\ f ∈ cands.
Proof.
  destruct (detect_anomalies_cases to_datetime scaler_fit_transform
              isolation_forest_fit_predict isolation_forest_decision_function
              transactions) as [Hnone|(df & cands & Hdf & Hcands & Hout)].
  - exists []. split; [exact Hnone|]. intros f Hf. inversion Hf.
  - eexists. split; [exact Hout|]. intros f Hf. exists df, cands.
    split; [exact Hdf|]. split; [exact Hcands|].
    apply elem_of_sorted in Hf.
    unfold anomaly_service._deduplicate_anomalies in Hf.
    apply keep_unseen_elem in Hf as [Hf _]. apply elem_of_sorted in Hf. exact Hf.
Qed.

(** X3.  Every finding [detect_anomalies] returns has a confidence from 0 to
    0.95, and a confidence above 0.6 unless it is a finding of the isolation
    forest (the only source of the type UNUSUAL_MERCHANT). *)
Theorem finding_confidence_in_range (transactions : list TransactionData) :
  exists out, detect_anomalies transactions = Ok out
    /\ Forall (fun f => 0 <= confidence f <= 0.95
                        /\ (anomaly_type f <> UNUSUAL_MERCHANT -> 0.6 < confidence f))
         out.
Proof.
  destruct (detect_anomalies_findings transactions) as (out & Hout & Hall).
  exists out. split; [exact Hout|]. apply Forall_forall. intros f Hf.
  destruct (Hall f Hf) as (df & cands & _ & Hcands & Hin).
  pose proof (candidates_ok df cands Hcands) as Hok.
  rewrite Forall_forall in Hok. exact (proj2 (Hok f Hin)).
Qed.

(** X4.  Every finding [detect_anomalies] returns carries the id of a
    transaction of the batch. *)
Theorem findings_name_transactions_of_the_batch (transactions : list TransactionData) :
  exists out, detect_anomalies transactions = Ok out
    /\ Forall (fun f => transaction_id f ∈ map id transactions) out.
Proof.
  destruct (detect_anomalies_findings transactions) as (out & Hout & Hall).
  exists out. split; [exact Hout|]. apply Forall_forall. intros f Hf.
  destruct (Hall f Hf) as (df & cands & Hdf & Hcands & Hin).
  pose proof (candidates_ok df cands Hcands) as Hok.
  rewrite Forall_forall in Hok.
  rewrite <- (prepare_data_ids to_datetime transactions df Hdf).
  exact (proj1 (Hok f Hin)).
Qed.

Lemma statistical_candidate_type (df : list anomaly_service.Row) (f : AnomalyResponse) :
  f ∈ anomaly_service._detect_statistical_anomalies df
      ++ anomaly_service._detect_merchant_anomalies df
      ++ anomaly_service._detect_temporal_anomalies df ->
  anomaly_type f <> UNUSUAL_MERCHANT.
Proof.
  rewrite !elem_of_app. intros [Hf|[Hf|Hf]].
  - unfold anomaly_service._detect_statistical_anomalies in Hf.
    apply elem_of_app in Hf as [Hf|Hf].
    + unfold anomaly_service.overall_amount_anomalies in Hf.
      apply list_elem_of_omap in Hf as ([row [z|]] & _ & Hmk); [|discriminate].
      case_decide; [|discriminate]. injection Hmk as <-. discriminate.
    + unfold anomaly_service.category_specific_anomalies in Hf.
      apply elem_of_concat in Hf as (l & Hf & Hl).
      apply list_elem_of_fmap in Hl as (c & -> & _).
      unfold anomaly_service.category_anomalies in Hf.
      case_decide; [inversion Hf|].
      apply list_elem_of_omap in Hf as ([row [z|]] & _ & Hmk); [|discriminate].
      case_decide; [|discriminate]. injection Hmk as <-. discriminate.
  - unfold anomaly_service._detect_merchant_anomalies in Hf.
    apply list_elem_of_omap in Hf as (row & _ & Hmk).
    unfold anomaly_service.check_against_profile in Hmk.
    destruct (_ !! _); [|discriminate].
    case_decide; [|discriminate]. case_decide; [|discriminate].
    injection Hmk as <-. discriminate.
  - unfold anomaly_service._detect_temporal_anomalies in Hf.
    apply elem_of_app in Hf as [Hf|Hf].
    + unfold anomaly_service.unusual_timing_anomalies in Hf.
      apply list_elem_of_omap in Hf as (row & _ & Hmk).
      case_decide; [|discriminate]. injection Hmk as <-. discriminate.
    + apply frequency_scan_elem in Hf as (row & _ & ->). discriminate.
Qed.

(** X5.  On a batch of fewer than 20 records no finding of type
    UNUSUAL_MERCHANT is returned: the isolation forest, which is the only
    detector that emits the type, is skipped below 20 rows. *)
Theorem small_batch_has_no_unusual_merchant (transactions : list TransactionData) :
  (length transactions < 20)%nat ->
  exists out, detect_anomalies transactions = Ok out
    /\ Forall (fun f => anomaly_type f <> UNUSUAL_MERCHANT) out.
Proof.
  intros Hlen.
  destruct (detect_anomalies_findings transactions) as (out & Hout & Hall).
  exists out. split; [exact Hout|]. apply Forall_forall. intros f Hf.
  destruct (Hall f Hf) as (df & cands & Hdf & Hcands & Hin).
  apply prepare_data_length in Hdf.
  unfold anomaly_service.anomalies, anomaly_service._detect_ml_anomalies in Hcands.
  rewrite decide_True in Hcands by lia. simpl in Hcands.
  injection Hcands as <-.
  apply (statistical_candidate_type df). exact Hin.
Qed.

(** X6.  In the three amount passes the confidence reaches its cap before
    the severity leaves low: a category finding of severity medium or high
    has confidence 0.90, a merchant finding of severity medium or high has
    confidence 0.85, and an overall finding of severity medium or high has a
    confidence above 0.9. *)
Theorem severity_above_low_has_capped_confidence (df : list anomaly_service.Row) :
  Forall (fun f => severity f <> low -> 0.9 < confidence f)
    (anomaly_service.overall_amount_anomalies df)
  /\ Forall (fun f => severity f <> low -> confidence f = 0.90)
       (anomaly_service.category_specific_anomalies df)
  /\ Forall (fun f => severity f <> low -> confidence f = 0.85)
       (anomaly_service._detect_merchant_anomalies df).
Proof.
  split; [|split]; apply Forall_forall; intros f Hf.
  - unfold anomaly_service.overall_amount_anomalies in Hf.
    apply list_elem_of_omap in Hf as ([row [z|]] & _ & Hmk); [|discriminate].
    case_decide; [|discriminate]. injection Hmk as <-. cbn.
    unfold anomaly_service._calculate_severity, builtins.min.
    repeat case_decide; intros Hsev; try congruence; lra.
  - unfold anomaly_service.category_specific_anomalies in Hf.
    apply elem_of_concat in Hf as (l & Hf & Hl).
    apply list_elem_of_fmap in Hl as (c & -> & _).
    unfold anomaly_service.category_anomalies in Hf.
    case_decide; [inversion Hf|].
    apply list_elem_of_omap in Hf as ([row [z|]] & _ & Hmk); [|discriminate].
    case_decide; [|discriminate]. injection Hmk as <-. cbn.
    unfold anomaly_service._calculate_severity, builtins.min.
    repeat case_decide; intros Hsev; try congruence; lra.
  - unfold anomaly_service._detect_merchant_anomalies in Hf.
    apply list_elem_of_omap in Hf as (row & _ & Hmk).
    unfold anomaly_service.check_against_profile in Hmk.
    destruct (_ !! _) as [profile|]; [|discriminate].
    case_decide; [|discriminate]. case_decide; [|discriminate].
    injection Hmk as <-. cbn.
    set (z := Rabs _ / _). clearbody z.
    unfold anomaly_service._calculate_severity, builtins.min.
    repeat case_decide; intros Hsev; try congruence; lra.
Qed.
End finding_invariants.

Section isolation_forest_findings.
Import schemas.
Local Open Scope R_scope.
Variable scaler_fit_transform : list (list R) -> result (list (list R)).
Variable isolation_forest_fit_predict : list (list R) -> result (list Z).
Variable isolation_forest_decision_function : list (list R) -> result (list R).

(** X25.  Every finding of the isolation-forest pass has the type
    UNUSUAL_MERCHANT; one of severity high has a confidence above 0.6, and
    one of severity medium a confidence above 0.2 and at most 0.6. *)
Theorem isolation_forest_severity_and_confidence (df : list anomaly_service.Row) :
  match anomaly_service._detect_ml_anomalies scaler_fit_transform
          isolation_forest_fit_predict isolation_forest_decision_function df with
  | Ok found =>
      Forall (fun f =>
        anomaly_type f = UNUSUAL_MERCHANT
        /\ (severity f = high -> 0.6 < confidence f)
        /\ (severity f = medium -> 0.2 < confidence f <= 0.6)) found
  | Raise e => True
  end.
Proof.
  unfold anomaly_service._detect_ml_anomalies. case_decide; [constructor|].
  destruct (scaler_fit_transform _) as [X|e]; [|exact I]. simpl.
  destruct (isolation_forest_fit_predict X) as [labels|e]; [|exact I]. simpl.
  destruct (isolation_forest_decision_function X) as [scores|e]; [|exact I].
  simpl. destruct (mapM _ _) as [chunks|e] eqn:Hchunks; [|exact I].
  simpl. apply Forall_forall. intros f Hf.
  apply elem_of_concat in Hf as (chunk & Hf & Hchunk).
  apply mapM_Ok_Forall2 in Hchunks.
  destruct (Forall2_elem_of_r _ _ _ _ Hchunks Hchunk) as ([idx [label score]] & _ & Hmk).
  simpl in Hmk. case_decide; [|injection Hmk as <-; inversion Hf].
  destruct (df !! idx) as [row|] eqn:Hrow; [|discriminate].
  injection Hmk as <-. apply list_elem_of_singleton in Hf as ->. cbn.
  split; [reflexivity|].
  unfold anomaly_service._calculate_severity_from_score.
  destruct (decide (score < -0.3)) as [Hhigh|Hhigh].
  - split; [intros _|discriminate].
    apply min_glb_lt; [lra|]. rewrite Rabs_left by lra. lra.
  - destruct (decide (score < -0.1)) as [Hmed|Hmed].
    + split; [discriminate|intros _].
      unfold builtins.min. rewrite Rabs_left by lra. case_decide; lra.
    + split; discriminate.
Qed.
End isolation_forest_findings.

(** ** Deduplication, continued *)

Section deduplication_order.
Import schemas.
Local Open Scope R_scope.

Lemma keep_unseen_sublist (seen : gset string) (l : list AnomalyResponse) :
  anomaly_service.keep_unseen seen l `sublist_of` l.
Proof.
  revert seen. induction l as [|a l IH]; intros seen; simpl; [constructor|].
  case_decide; [apply sublist_skip | apply sublist_cons]; apply IH.
Qed.

Lemma keep_unseen_all (seen : gset string) (l : list AnomalyResponse) :
  NoDup (map transaction_id l) ->
  (forall f, f ∈ l -> transaction_id f ∉ seen) ->
  anomaly_service.keep_unseen seen l = l.
Proof.
  revert seen. induction l as [|a l IH]; intros seen Hnd Hseen; simpl; [reflexivity|].
  cbn [map] in Hnd. apply NoDup_cons in Hnd as [Ha Hnd].
  rewrite decide_True by (apply Hseen; left).
  f_equal. apply IH; [exact Hnd|].
  intros f Hf. rewrite elem_of_union, elem_of_singleton.
  intros [Heq|Hin].
  - apply Ha. rewrite <- Heq. apply list_elem_of_In, in_map, list_elem_of_In. exact Hf.
  - apply (Hseen f); [right; exact Hf | exact Hin].
Qed.

Lemma deduplicate_StronglySorted (l : list AnomalyResponse) :
  StronglySorted (fun a b => ~ (confidence b > confidence a))
    (anomaly_service._deduplicate_anomalies l).
Proof.
  unfold anomaly_service._deduplicate_anomalies.
  eapply StronglySorted_sublist; [apply keep_unseen_sublist|].
  apply sorted_StronglySorted; [exact Rgt_asym | exact Rgt_negtrans].
Qed.

(** X7.  [_deduplicate_anomalies] returns its findings in non-increasing
    order of confidence already, so the [sorted] call that ends
    [detect_anomalies] leaves the deduplicated list as it is. *)
Theorem final_sort_keeps_deduplicated_order (anomalies : list AnomalyResponse) :
  builtins.sorted Rgt confidence (anomaly_service._deduplicate_anomalies anomalies)
  = anomaly_service._deduplicate_anomalies anomalies.
Proof. apply sorted_of_sorted, deduplicate_StronglySorted. Qed.

(** X8.  [_deduplicate_anomalies] is idempotent: deduplicating a
    deduplicated list changes nothing. *)
Theorem deduplicate_idempotent (anomalies : list AnomalyResponse) :
  anomaly_service._deduplicate_anomalies
    (anomaly_service._deduplicate_anomalies anomalies)
  = anomaly_service._deduplicate_anomalies anomalies.
Proof.
  unfold anomaly_service._deduplicate_anomalies at 1.
  rewrite sorted_of_sorted by apply deduplicate_StronglySorted.
  apply keep_unseen_all.
  - apply keep_unseen_NoDup.
  - intros f _. apply not_elem_of_empty.
Qed.

(** X9.  [_deduplicate_anomalies] loses no transaction and invents none: the
    transaction ids of its result are exactly the transaction ids of the
    findings it is given. *)
Theorem deduplicate_keeps_every_transaction (anomalies : list AnomalyResponse)
  (t : string) :
  t ∈ map transaction_id (anomaly_service._deduplicate_anomalies anomalies)
  <-> t ∈ map transaction_id anomalies.
Proof.
  unfold anomaly_service._deduplicate_anomalies.
  rewrite !list_elem_of_fmap. split.
  - intros (f & -> & Hf). exists f. split; [reflexivity|].
    apply keep_unseen_elem in Hf as [Hf _].
    apply elem_of_sorted in Hf. exact Hf.
  - intros (c & -> & Hc).
    destruct (keep_unseen_complete ∅ (builtins.sorted Rgt confidence anomalies) c)
      as (f & Hf & Hid).
    + apply elem_of_sorted. exact Hc.
    + apply not_elem_of_empty.
    + exists f. split; [symmetry; exact Hid | exact Hf].
Qed.
End deduplication_order.

(** ** How many records a z-score pass needs *)

Section minimum_sizes.
Import schemas.
Local Open Scope R_scope.




(** The deviation of a value from the mean of its [n] values is at most
    [(n - 1) / sqrt n] sample standard deviations: at most 2 for [n <= 5]. *)
Lemma sample_zscore_le_two (a : list R) (x : R) :
  x ∈ a -> (length a <= 5)%nat -> builtins.sample_std a > 0 ->
  Rabs (x - builtins.mean a) / builtins.sample_std a <= 2.
Proof.
  intros Hx Hlen Hsd.
  pose proof (deviation_square_le a x Hx) as Hdev. cbv zeta in Hdev.
  unfold builtins.sample_std in *. set (m := builtins.mean a) in *.
  pose proof (sum_squares_nonneg m a) as Hq.
  set (q := builtins.sum (map (fun y => (y - m) * (y - m)) a)) in *.
  assert (Hn5 : INR (length a) <= 5).
  { replace 5 with (INR 5) by (simpl; lra). apply le_INR. exact Hlen. }
  assert (Hn1 : 1 <= INR (length a)).
  { replace 1 with (INR 1) by (simpl; lra). apply le_INR.
    destruct a; [inversion Hx | simpl; lia]. }
  set (n := INR (length a)) in *. clearbody q n m.
  destruct (Rle_or_lt (q / (n - 1)) 0) as [Hv|Hv].
  { rewrite sqrt_neg_0 in Hsd by exact Hv. lra. }
  assert (Hn : 1 < n).
  { destruct (Rle_or_lt n 1) as [Hle|Hlt]; [|exact Hlt].
    assert (Hn1' : n = 1) by lra. rewrite Hn1' in Hv.
    replace (1 - 1) with 0 in Hv by lra. unfold Rdiv in Hv.
    rewrite Rinv_0, Rmult_0_r in Hv. lra. }
  pose proof (sqrt_sqrt (q / (n - 1)) ltac:(lra)) as Hss.
  set (s := sqrt (q / (n - 1))) in *. clearbody s.
  assert (Hqv : q = s * s * (n - 1)) by (rewrite Hss; field; lra).
  apply (Rmult_le_reg_r s); [lra|].
  replace (Rabs (x - m) / s * s) with (Rabs (x - m)) by (field; lra).
  pose proof (Rabs_pos (x - m)) as Hd0.
  pose proof (Rsqr_abs (x - m)) as Habs. unfold Rsqr in Habs.
  rewrite Habs in Hdev.
  set (d := Rabs (x - m)) in *. clearbody d.
  destruct (Rle_or_lt d (2 * s)) as [Hle|Hgt]; [exact Hle|exfalso].
  assert (H1 : d * d > 4 * (s * s)) by nra.
  assert (H2 : d * d * n <= (n - 1) * (n - 1) * (s * s)) by (rewrite Hqv in Hdev; lra).
  assert (H3 : (n - 1) * (n - 1) < 4 * n) by nra.
  assert (Hs2 : 0 < s * s) by nra.
  nra.
Qed.

(** X12.  A transaction of a merchant with at most 5 rows in the batch is
    never flagged by the merchant pass, although the pass lets in merchants
    from 3 rows on: among [n] amounts none is further than
    [(n - 1) / sqrt n] sample standard deviations from their mean, which is
    below the 2.0 the pass asks for up to [n = 5]. *)
Theorem merchant_pass_needs_six_records (df : list anomaly_service.Row)
  (row : anomaly_service.Row) :
  row ∈ df ->
  (length (anomaly_service.merchant_data df (anomaly_service.merchant row)) <= 5)%nat ->
  anomaly_service.check_against_profile
    (anomaly_service.build_merchant_profiles df) row = None.
Proof.
  intros Hrow Hlen. unfold anomaly_service.check_against_profile.
  rewrite build_merchant_profiles_lookup.
  set (data := anomaly_service.merchant_data df (anomaly_service.merchant row)) in *.
  case_decide; [|reflexivity].
  cbn [anomaly_service.std_amount anomaly_service.avg_amount
       anomaly_service.transaction_count anomaly_service.merchant_profile].
  case_decide as Hsd; [|reflexivity].
  rewrite decide_False; [reflexivity|]. intros [Hz _].
  assert (Hx : anomaly_service.amount row ∈ map anomaly_service.amount data).
  { apply list_elem_of_In, in_map, list_elem_of_In.
    apply elem_of_merchant_data. split; [reflexivity | exact Hrow]. }
  pose proof (sample_zscore_le_two _ _ Hx ltac:(rewrite length_map; exact Hlen) Hsd).
  lra.
Qed.

(** X13.  A transaction of a merchant whose rows all have the amount of the
    transaction is never flagged by the merchant pass: the sample standard
    deviation of the profile is 0 and the pass asks for a positive one. *)
Theorem merchant_of_one_amount_never_flagged (df : list anomaly_service.Row)
  (row : anomaly_service.Row) :
  (forall r, r ∈ anomaly_service.merchant_data df (anomaly_service.merchant row) ->
     anomaly_service.amount r = anomaly_service.amount row) ->
  anomaly_service.check_against_profile
    (anomaly_service.build_merchant_profiles df) row = None.
Proof.
  intros Hall. unfold anomaly_service.check_against_profile.
  rewrite build_merchant_profiles_lookup.
  set (data := anomaly_service.merchant_data df (anomaly_service.merchant row)) in *.
  case_decide as Hlen; [|reflexivity].
  cbn [anomaly_service.std_amount anomaly_service.avg_amount
       anomaly_service.transaction_count anomaly_service.merchant_profile].
  rewrite decide_False; [reflexivity|].
  assert (Hc : forall x, x ∈ map anomaly_service.amount data ->
                 x = anomaly_service.amount row).
  { intros x Hx. apply list_elem_of_fmap in Hx as (r & -> & Hr). exact (Hall r Hr). }
  unfold builtins.sample_std.
  rewrite (mean_constant _ (anomaly_service.amount row)); [|
    destruct data; [simpl in Hlen; lia | discriminate] | exact Hc].
  set (c := anomaly_service.amount row) in *.
  assert (Hq : builtins.sum (map (fun x => (x - c) * (x - c))
                               (map anomaly_service.amount data)) = 0).
  { revert Hc. generalize (map anomaly_service.amount data) as a.
    induction a as [|x a IH]; intros Hc; [reflexivity|].
    cbn [map builtins.sum foldr].
    fold (builtins.sum (map (fun x => (x - c) * (x - c)) a)).
    rewrite IH by (intros; apply Hc; right; assumption).
    rewrite (Hc x) by left. lra. }
  rewrite Hq. unfold Rdiv. rewrite Rmult_0_l, sqrt_0. lra.
Qed.
End minimum_sizes.

Section minimum_size_examples.
Import schemas.
Local Open Scope R_scope.



Lemma merchant_pass_needs_six_records_witness :
  examples.corner_shop_outlier ∈ take 5 examples.corner_shop_df
  /\ (length (anomaly_service.merchant_data (take 5 examples.corner_shop_df)
                (anomaly_service.merchant examples.corner_shop_outlier)) <= 5)%nat
  /\ anomaly_service.check_against_profile
       (anomaly_service.build_merchant_profiles (take 5 examples.corner_shop_df))
       examples.corner_shop_outlier = None.
Proof.
  assert (Hin : examples.corner_shop_outlier ∈ take 5 examples.corner_shop_df)
    by (right; right; left).
  split; [exact Hin|]. split; [vm_compute; lia|].
  apply merchant_pass_needs_six_records; [exact Hin|]. vm_compute. lia.
Defined.

Lemma merchant_of_one_amount_never_flagged_witness :
  (forall r,
     r ∈ anomaly_service.merchant_data examples.flat_df "Grocery Store" ->
     anomaly_service.amount r = 50)
  /\ anomaly_service.check_against_profile
       (anomaly_service.build_merchant_profiles examples.flat_df)
       (examples.anomaly_row "f1" (examples.day_at_noon 1) 50
          "Grocery Store" "Groceries") = None.
Proof.
  assert (Hall : forall r,
            r ∈ anomaly_service.merchant_data examples.flat_df "Grocery Store" ->
            anomaly_service.amount r = 50).
  { intros r Hr. apply elem_of_merchant_data in Hr as [_ Hr].
    unfold examples.flat_df in Hr.
    apply list_elem_of_fmap in Hr as (m & -> & _). reflexivity. }
  split; [exact Hall|].
  apply merchant_of_one_amount_never_flagged. exact Hall.
Defined.
End minimum_size_examples.

(** ** The isolation forest and the batch size *)

Section estimators.
Import schemas.
Local Open Scope R_scope.
Variable to_datetime : string -> option calendar.Timestamp.

(** X14.  On a batch of fewer than 20 records [detect_anomalies] does not
    consult the scaler or the isolation forest: its result is the same
    whatever the three estimator functions do, raise included. *)
Theorem small_batch_ignores_estimators
  (scaler scaler' : list (list R) -> result (list (list R)))
  (fit_predict fit_predict' : list (list R) -> result (list Z))
  (decision_function decision_function' : list (list R) -> result (list R))
  (transactions : list TransactionData) :
  (length transactions < 20)%nat ->
  anomaly_service.detect_anomalies to_datetime scaler fit_predict
    decision_function transactions
  = anomaly_service.detect_anomalies to_datetime scaler' fit_predict'
      decision_function' transactions.
Proof.
  intros Hlen.
  unfold anomaly_service.detect_anomalies, anomaly_service.detect_anomalies_body.
  case_decide; [reflexivity|].
  destruct (anomaly_service._prepare_data to_datetime transactions) as [df|e] eqn:Hdf;
    [|reflexivity].
  apply prepare_data_length in Hdf. simpl.
  unfold anomaly_service.anomalies, anomaly_service._detect_ml_anomalies.
  rewrite !decide_True by lia. reflexivity.
Qed.

(** X15.  On a batch of at least 20 records, when the scaler, the forest's
    [fit_predict] or its [decision_function] raises, [detect_anomalies]
    returns the empty list: the findings of the statistical pass are lost
    with the failed pass, and the merchant and temporal passes are not
    reached. *)
Theorem failing_estimator_empties_the_result
  (scaler : list (list R) -> result (list (list R)))
  (fit_predict : list (list R) -> result (list Z))
  (decision_function : list (list R) -> result (list R))
  (transactions : list TransactionData) :
  (20 <= length transactions)%nat ->
  (forall X, exists e, scaler X = Raise e)
  \/ (forall X, exists e, fit_predict X = Raise e)
  \/ (forall X, exists e, decision_function X = Raise e) ->
  anomaly_service.detect_anomalies to_datetime scaler fit_predict
    decision_function transactions = Ok [].
Proof.
  intros Hlen Hfail.
  unfold anomaly_service.detect_anomalies, anomaly_service.detect_anomalies_body.
  case_decide; [reflexivity|].
  destruct (anomaly_service._prepare_data to_datetime transactions) as [df|e] eqn:Hdf;
    [|reflexivity].
  apply prepare_data_length in Hdf. simpl.
  unfold anomaly_service.anomalies, anomaly_service._detect_ml_anomalies.
  rewrite decide_False by lia.
  destruct (scaler _) as [X|e] eqn:HX; [|reflexivity]. simpl.
  destruct (fit_predict X) as [labels|e] eqn:Hlabels; [|reflexivity]. simpl.
  destruct (decision_function X) as [scores|e] eqn:Hscores; [|reflexivity].
  exfalso. destruct Hfail as [Hf|[Hf|Hf]].
  - match type of HX with scaler ?features = _ =>
      destruct (Hf features) as [e He] end. congruence.
  - destruct (Hf X) as [e He]. congruence.
  - destruct (Hf X) as [e He]. congruence.
Qed.
End estimators.

Section estimator_examples.
Import schemas.

Lemma small_batch_has_no_unusual_merchant_witness :
  (length examples.outlier_transactions < 20)%nat
  /\ exists out,
       anomaly_service.detect_anomalies calendar.iso_to_datetime
         examples.scaler_fit_transform examples.isolation_forest_fit_predict
         examples.isolation_forest_decision_function examples.outlier_transactions
       = Ok out
       /\ Forall (fun f => anomaly_type f <> UNUSUAL_MERCHANT) out.
Proof.
  split; [simpl; lia|].
  apply small_batch_has_no_unusual_merchant. simpl. lia.
Defined.

Lemma small_batch_ignores_estimators_witness :
  (length examples.outlier_transactions < 20)%nat
  /\ anomaly_service.detect_anomalies calendar.iso_to_datetime
       examples.scaler_fit_transform examples.isolation_forest_fit_predict
       examples.isolation_forest_decision_function examples.outlier_transactions
     = anomaly_service.detect_anomalies calendar.iso_to_datetime
         examples.failing_scaler examples.failing_fit_predict
         examples.failing_decision_function examples.outlier_transactions.
Proof.
  split; [simpl; lia|].
  apply small_batch_ignores_estimators. simpl. lia.
Defined.

Lemma failing_estimator_empties_the_result_witness :
  (20 <= length examples.twenty_transactions)%nat
  /\ (forall X, exists e, examples.failing_scaler X = Raise e)
  /\ anomaly_service.detect_anomalies calendar.iso_to_datetime
       examples.failing_scaler examples.isolation_forest_fit_predict
       examples.isolation_forest_decision_function examples.twenty_transactions
     = Ok [].
Proof.
  assert (Hfail : forall X, exists e, examples.failing_scaler X = Raise e)
    by (intros X; eexists; reflexivity).
  split; [simpl; lia|]. split; [exact Hfail|].
  apply failing_estimator_empties_the_result; [simpl; lia|].
  left. exact Hfail.
Defined.
End estimator_examples.

(** ** The frequency pass reports one burst *)

Section frequency_count.
Import schemas.

Lemma frequency_scan_length (s : list anomaly_service.Row) (range : list nat) :
  (forall i, i ∈ range -> (i + 5 <= length s)%nat) ->
  length (anomaly_service.frequency_scan s range) = 0%nat
  \/ length (anomaly_service.frequency_scan s range) = 5%nat.
Proof.
  induction range as [|i range IH]; intros Hr; simpl; [left; reflexivity|].
  case_decide.
  - right. rewrite length_map, length_take, length_drop.
    specialize (Hr i ltac:(left)). lia.
  - apply IH. intros j Hj. apply Hr. right. exact Hj.
Qed.

(** X16.  The frequency pass reports at most one burst per call: it returns
    no finding or exactly five, however many windows of five records lie
    within an hour; with fewer than 5 rows it returns none. *)
Theorem at_most_one_burst_reported (df : list anomaly_service.Row) :
  (length (anomaly_service.frequency_anomalies df) = 0%nat
   \/ length (anomaly_service.frequency_anomalies df) = 5%nat)
  /\ ((length df < 5)%nat -> anomaly_service.frequency_anomalies df = []).
Proof.
  unfold anomaly_service.frequency_anomalies. split.
  - apply frequency_scan_length. intros i Hi.
    apply elem_of_seq in Hi. lia.
  - intros Hlen. rewrite sorted_length.
    replace (length df - 4)%nat with 0%nat by lia. reflexivity.
Qed.
End frequency_count.

(** ** What every rising-payment finding went through *)

Section rising_payment_findings.
Import schemas.
Local Open Scope R_scope.

(** The gates a merchant has passed when [_analyze_merchant_payments]
    returns a finding. *)
Lemma analyze_Some (merchant_name : string) (group : list payment_service.Row)
  (f : RisingPaymentResponse) :
  payment_service._analyze_merchant_payments merchant_name group = Some f ->
  let sorted_group := builtins.sorted Z.lt payment_service.date group in
  let amounts := map payment_service.amount sorted_group in
  let slope := (builtins.polyfit1 (builtins.arange (length amounts)) amounts).1 in
  let percent :=
    default 0 (payment_service.percent_increase (List.last amounts 0) (hd 0 amounts)) in
  payment_service._is_recurring_pattern sorted_group = true
  /\ (3 <= length group)%nat
  /\ slope > 0.5
  /\ 5 <= percent
  /\ rp_merchant_name f = merchant_name
  /\ increase_percentage f = builtins.round percent 1
  /\ rp_confidence f
     = payment_service._calculate_confidence sorted_group slope percent.
Proof.
  unfold payment_service._analyze_merchant_payments.
  destruct (payment_service._is_recurring_pattern _) eqn:Hrec; [|discriminate].
  cbn [negb]. case_decide as Hlen; [discriminate|].
  unfold builtins.polyfit1. cbv zeta.
  case_decide as Hslope; [discriminate|].
  destruct (payment_service.percent_increase _ _) as [percent|]; [|discriminate].
  case_decide as Hpct; [discriminate|].
  intros [= <-]. cbn.
  rewrite length_map, sorted_length in Hlen.
  split; [reflexivity|]. split; [lia|]. split; [lra|]. split; [lra|].
  split; [reflexivity|]. split; reflexivity.
Qed.

Lemma calculate_confidence_range (group : list payment_service.Row)
  (slope percent : R) :
  0.3 <= payment_service._calculate_confidence group slope percent <= 0.95.
Proof.
  unfold payment_service._calculate_confidence, builtins.min, builtins.max.
  repeat case_decide; destruct (payment_service._has_consistent_intervals group);
    lra.
Qed.

Lemma calculate_confidence_passed (group : list payment_service.Row)
  (slope percent : R) :
  (3 <= length group)%nat -> slope > 0.5 -> 5 <= percent ->
  0.66 < payment_service._calculate_confidence group slope percent.
Proof.
  intros Hlen Hslope Hpct.
  assert (Hn : 3 <= INR (length group)).
  { replace 3 with (INR 3) by (simpl; lra). apply le_INR. exact Hlen. }
  unfold payment_service._calculate_confidence, builtins.min, builtins.max.
  set (n := INR (length group)) in *. clearbody n.
  repeat case_decide; destruct (payment_service._has_consistent_intervals group);
    lra.
Qed.

(** X17.  A merchant whose latest amount is below 1.05 times its earliest
    amount is not reported, whatever lies between: flat and falling series
    never give a finding. *)
Theorem increase_below_five_percent_not_reported (merchant_name : string)
  (group : list payment_service.Row) :
  List.last (map payment_service.amount
               (builtins.sorted Z.lt payment_service.date group)) 0
  < 1.05 * hd 0 (map payment_service.amount
                   (builtins.sorted Z.lt payment_service.date group)) ->
  payment_service._analyze_merchant_payments merchant_name group = None.
Proof.
  set (amounts := map payment_service.amount
                    (builtins.sorted Z.lt payment_service.date group)).
  intros Hlast.
  destruct (payment_service._analyze_merchant_payments merchant_name group)
    as [f|] eqn:Hf; [|reflexivity].
  exfalso. apply analyze_Some in Hf. cbv zeta in Hf.
  destruct Hf as (_ & _ & _ & Hpct & _). fold amounts in Hpct.
  set (older := hd 0 amounts) in *. set (recent := List.last amounts 0) in *.
  clearbody older recent.
  destruct (decide (older > 0)) as [Holder|Holder].
  2:{ unfold payment_service.percent_increase in Hpct.
      rewrite decide_False in Hpct by exact Holder. simpl in Hpct. lra. }
  rewrite percent_increase_positive in Hpct by exact Holder. simpl in Hpct.
  assert (Hq : (recent - older) / older * 100 < 5); [|lra].
  apply (Rmult_lt_reg_r older); [lra|].
  replace ((recent - older) / older * 100 * older) with ((recent - older) * 100)
    by (field; lra).
  lra.
Qed.

(** The groups [groupby] iterates over: one per merchant name, each name
    once, each group the rows of that name. *)
Lemma groupby_merchant_groups (df : list payment_service.Row)
  (merchant_groups : list (string * list payment_service.Row)) :
  payment_service.groupby_merchant df = Ok merchant_groups ->
  NoDup (map fst merchant_groups)
  /\ forall name group, (name, group) ∈ merchant_groups ->
       group = filter (fun row => payment_service.merchant row = name) df.
Proof.
  unfold payment_service.groupby_merchant. destruct df as [|row df]; [discriminate|].
  set (rows := row :: df). intros Heq.
  assert (Hgroups : merchant_groups
            = map (fun name => (name, filter (fun r => payment_service.merchant r = name) rows))
                (builtins.sorted builtins.string_lt (fun name => name)
                   (builtins.unique (map payment_service.merchant rows))))
    by (injection Heq as <-; reflexivity).
  clear Heq. subst merchant_groups. split.
  - rewrite map_map. cbn [fst]. rewrite map_id.
    rewrite sorted_Permutation. apply NoDup_unique.
  - intros name group Hin. apply list_elem_of_fmap in Hin as (n & [= -> ->] & _).
    reflexivity.
Qed.

Lemma rising_payments_names (merchant_groups : list (string * list payment_service.Row)) :
  map rp_merchant_name (payment_service.rising_payments merchant_groups)
  `sublist_of` map fst merchant_groups.
Proof.
  unfold payment_service.rising_payments.
  induction merchant_groups as [|[name group] groups IH]; [constructor|].
  cbn [omap list_omap map fst]. case_decide; [apply sublist_cons; exact IH|].
  destruct (payment_service._analyze_merchant_payments name group) as [f|] eqn:Hf.
  - apply analyze_Some in Hf. cbv zeta in Hf.
    destruct Hf as (_ & _ & _ & _ & Hname & _).
    cbn [map]. rewrite Hname. apply sublist_skip. exact IH.
  - apply sublist_cons. exact IH.
Qed.

Section PaymentAnalysisService.
Variable to_datetime : string -> option calendar.Timestamp.

(** Every finding [detect_rising_payments] returns is the analysis of the
    rows of its merchant, and no two are of one merchant. *)
Lemma detect_rising_payments_findings (transactions : list TransactionData) :
  exists out, payment_service.detect_rising_payments to_datetime transactions = Ok out
    /\ NoDup (map rp_merchant_name out)
    /\ forall f, f ∈ out ->
         exists df group,
           payment_service._prepare_data to_datetime transactions = Ok df
           /\ group = filter (fun row => payment_service.merchant row
                                         = rp_merchant_name f) df
           /\ payment_service._analyze_merchant_payments (rp_merchant_name f) group
              = Some f.
Proof.
  destruct (detect_rising_payments_cases to_datetime transactions)
    as [Hnone|(df & groups & Hdf & Hgroups & Hout)].
  - exists []. split; [exact Hnone|]. split; [constructor|].
    intros f Hf. inversion Hf.
  - eexists. split; [exact Hout|].
    apply groupby_merchant_groups in Hgroups as [Hnd Hgroup]. split.
    + eapply sublist_NoDup;
        [|change map with (@fmap list _); rewrite fmap_take; apply sublist_take].
      change (@fmap list _) with map. rewrite sorted_Permutation.
      exact (sublist_NoDup _ _ Hnd (rising_payments_names groups)).
    + intros f Hf.
      pose proof (elem_of_sublist _ _ _ Hf (sublist_take _ 10)) as Hf'.
      apply elem_of_sorted in Hf'. unfold payment_service.rising_payments in Hf'.
      apply list_elem_of_omap in Hf' as ([name group] & Hin & Hmk).
      case_decide; [discriminate|].
      pose proof (analyze_Some _ _ _ Hmk) as Hgates. cbv zeta in Hgates.
      destruct Hgates as (_ & _ & _ & _ & Hname & _).
      exists df, group. split; [exact Hdf|]. rewrite Hname.
      split; [exact (Hgroup name group Hin) | exact Hmk].
Qed.

(** X18.  [detect_rising_payments] reports a merchant at most once, and only
    a merchant with at least 3 spending records in the batch under that very
    name. *)
Theorem one_finding_per_merchant_with_three_payments
  (transactions : list TransactionData) :
  exists out, payment_service.detect_rising_payments to_datetime transactions = Ok out
    /\ NoDup (map rp_merchant_name out)
    /\ Forall (fun f =>
          (3 <= length (filter (fun txn => merchant_name txn = rp_merchant_name f
                                           /\ (amount txn < 0)%R) transactions))%nat)
         out.
Proof.
  destruct (detect_rising_payments_findings transactions) as (out & Hout & Hnd & Hall).
  exists out. split; [exact Hout|]. split; [exact Hnd|].
  apply Forall_forall. intros f Hf.
  destruct (Hall f Hf) as (df & group & Hdf & Hgroup & Hmk).
  apply analyze_Some in Hmk. cbv zeta in Hmk. destruct Hmk as (_ & Hlen & _).
  rewrite <- list_filter_filter, length_filter_map.
  rewrite <- (payment_rows_merchants to_datetime transactions df Hdf).
  rewrite <- length_filter_map. rewrite <- Hgroup. exact Hlen.
Qed.

(** X19.  Every finding [detect_rising_payments] returns has an
    [increase_percentage] of at least 5 and a confidence above 0.66 and at
    most 0.95: the lower clamp 0.3 of [_calculate_confidence] is never what a
    reported finding carries. *)
Theorem reported_increase_and_confidence (transactions : list TransactionData) :
  exists out, payment_service.detect_rising_payments to_datetime transactions = Ok out
    /\ Forall (fun f => 5 <= increase_percentage f
                        /\ 0.66 < rp_confidence f <= 0.95) out.
Proof.
  destruct (detect_rising_payments_findings transactions) as (out & Hout & _ & Hall).
  exists out. split; [exact Hout|].
  apply Forall_forall. intros f Hf.
  destruct (Hall f Hf) as (df & group & _ & _ & Hmk).
  apply analyze_Some in Hmk. cbv zeta in Hmk.
  destruct Hmk as (_ & Hlen & Hslope & Hpct & _ & -> & ->).
  split; [apply round_ge_5; exact Hpct|].
  split; [|apply calculate_confidence_range].
  apply calculate_confidence_passed; [|exact Hslope | exact Hpct].
  rewrite sorted_length. exact Hlen.
Qed.

(** X20.  A batch without a spending record (no negative amount) gives no
    rising payment, and from 10 records on it does so through the handler:
    the DataFrame is empty, [groupby('merchant')] raises [KeyError], and
    the entry point returns the empty list. *)
Theorem batch_without_spending_reports_nothing (transactions : list TransactionData) :
  Forall (fun txn => 0 <= amount txn) transactions ->
  payment_service.detect_rising_payments to_datetime transactions = Ok []
  /\ ((10 <= length transactions)%nat ->
      payment_service.detect_rising_payments_body to_datetime transactions
      = Raise (KeyError "merchant")).
Proof.
  intros Hall.
  assert (Hbody : (10 <= length transactions)%nat ->
            payment_service.detect_rising_payments_body to_datetime transactions
            = Raise (KeyError "merchant")).
  { intros Hlen. unfold payment_service.detect_rising_payments_body.
    rewrite decide_False by lia.
    unfold payment_service._prepare_data.
    rewrite filter_none; [reflexivity|].
    intros txn Htxn. rewrite Forall_forall in Hall.
    specialize (Hall txn Htxn). lra. }
  split; [|exact Hbody].
  unfold payment_service.detect_rising_payments.
  destruct (decide (length transactions < 10)%nat) as [Hlt|Hge].
  - unfold payment_service.detect_rising_payments_body.
    rewrite decide_True by exact Hlt. reflexivity.
  - rewrite Hbody by lia. reflexivity.
Qed.
End PaymentAnalysisService.
End rising_payment_findings.

(** ** Recurrence and the gaps between payments *)

Section recurrence.
Import schemas.
Local Open Scope R_scope.

Lemma intervals_cons (a b : payment_service.Row) (group : list payment_service.Row) :
  payment_service.intervals (a :: b :: group)
  = calendar.days (payment_service.date b - payment_service.date a)%Z
    :: payment_service.intervals (b :: group).
Proof. reflexivity. Qed.

Lemma intervals_length (group : list payment_service.Row) :
  length (payment_service.intervals group) = (length group - 1)%nat.
Proof.
  induction group as [|a group IH]; [reflexivity|].
  destruct group as [|b group]; [reflexivity|].
  rewrite intervals_cons. cbn [length] in *. rewrite IH. lia.
Qed.

(** X21.  A group of at least 3 payments at one fixed gap of 7 to 90 days
    is a recurring pattern, and its intervals count as consistent (the
    confidence gets the 0.1 bonus). *)
Theorem fixed_interval_is_recurring (group : list payment_service.Row) (gap : Z) :
  (3 <= length group)%nat ->
  (forall i, i ∈ payment_service.intervals group -> i = gap) ->
  (7 <= gap <= 90)%Z ->
  payment_service._is_recurring_pattern group = true
  /\ payment_service._has_consistent_intervals group = true.
Proof.
  intros Hlen Hall [Hlo Hhi].
  unfold payment_service._is_recurring_pattern,
    payment_service._has_consistent_intervals.
  rewrite length_map.
  destruct (decide (length group < 3)%nat) as [Hlt|_]; [lia|].
  pose proof (intervals_length group) as Hn.
  destruct (payment_service.intervals group) as [|i ivs] eqn:Hivs;
    [simpl in Hn; lia|].
  assert (Hc : forall x, x ∈ map IZR (i :: ivs) -> x = IZR gap).
  { intros x Hx. apply list_elem_of_fmap in Hx as (j & -> & Hj).
    rewrite (Hall j Hj). reflexivity. }
  rewrite (mean_constant _ (IZR gap)), (std_constant _ (IZR gap));
    [|discriminate|exact Hc|discriminate|exact Hc].
  apply IZR_le in Hlo, Hhi.
  rewrite !decide_True by lra.
  split; [reflexivity|]. apply bool_decide_eq_true. lra.
Qed.

Lemma intervals_nonneg (group : list payment_service.Row) :
  StronglySorted
    (fun a b => (payment_service.date a <= payment_service.date b)%Z) group ->
  Forall (fun i => (0 <= i)%Z) (payment_service.intervals group).
Proof.
  induction group as [|a group IH]; intros Hs; [constructor|].
  apply StronglySorted_inv in Hs as [Hs Hall].
  destruct group as [|b group]; [constructor|].
  rewrite intervals_cons. constructor; [|exact (IH Hs)].
  apply Forall_cons in Hall as [Hab _].
  unfold calendar.days. apply Z.div_pos; [lia | reflexivity].
Qed.

Lemma sum_ge_monthly (ivs : list Z) :
  Forall (fun i => (0 <= i)%Z) ivs ->
  25 * INR (length (filter (fun i => 25 <= i <= 35)%Z ivs))
  <= builtins.sum (map IZR ivs).
Proof.
  induction 1 as [|i ivs Hi _ IH]; [simpl; lra|].
  rewrite filter_cons. cbn [map builtins.sum foldr].
  fold (builtins.sum (map IZR ivs)). apply IZR_le in Hi.
  case_decide as Hm.
  - cbn [length]. rewrite S_INR. destruct Hm as [Hm _]. apply IZR_le in Hm. lra.
  - lra.
Qed.

Lemma not_recurring_below_a_week (group : list payment_service.Row) :
  StronglySorted
    (fun a b => (payment_service.date a <= payment_service.date b)%Z) group ->
  builtins.mean (map IZR (payment_service.intervals group)) < 7 ->
  payment_service._is_recurring_pattern group = false.
Proof.
  intros Hs Hmean. unfold payment_service._is_recurring_pattern.
  case_decide; [reflexivity|].
  pose proof (sum_ge_monthly _ (intervals_nonneg group Hs)) as Hsum.
  destruct (payment_service.intervals group) as [|i ivs]; [reflexivity|].
  rewrite decide_False by lra.
  rewrite decide_False; [reflexivity|].
  unfold builtins.mean in Hmean. rewrite length_map in Hmean.
  assert (Hn : 0 < INR (length (i :: ivs))) by (apply lt_0_INR; simpl; lia).
  set (n := INR (length (i :: ivs))) in *.
  set (s := builtins.sum (map IZR (i :: ivs))) in *.
  set (m := INR (length (filter _ (i :: ivs)))) in *.
  clearbody n s m.
  assert (Hs7 : s < 7 * n).
  { apply (Rmult_lt_reg_r (/ n)); [apply Rinv_0_lt_compat; exact Hn|].
    replace (7 * n * / n) with 7 by (field; lra). exact Hmean. }
  lra.
Qed.

(** X22.  A merchant paid more often than weekly on average (mean day gap
    below 7) is never reported, however its amounts rise: neither rule of
    [_is_recurring_pattern] can hold. *)
Theorem more_often_than_weekly_not_reported (merchant_name : string)
  (group : list payment_service.Row) :
  builtins.mean
    (map IZR (payment_service.intervals
                (builtins.sorted Z.lt payment_service.date group))) < 7 ->
  payment_service._analyze_merchant_payments merchant_name group = None.
Proof.
  intros Hmean. unfold payment_service._analyze_merchant_payments.
  rewrite not_recurring_below_a_week;
    [reflexivity | apply sorted_by_date_StronglySorted | exact Hmean].
Qed.
End recurrence.

(** ** A monthly subscription that doubles *)

Section monthly_rise.
Import schemas.
Local Open Scope R_scope.

(** The mean of values between two bounds lies between the bounds, and
    their standard deviation is at most the distance of the bounds. *)
Lemma sum_bounds (a : list R) (lo hi : R) :
  (forall x, x ∈ a -> lo <= x <= hi) ->
  INR (length a) * lo <= builtins.sum a <= INR (length a) * hi.
Proof.
  induction a as [|x a IH]; intros Hall; [simpl; lra|].
  cbn [builtins.sum foldr length]. fold (builtins.sum a). rewrite S_INR.
  specialize (IH (fun y Hy => Hall y ltac:(right; exact Hy))).
  specialize (Hall x ltac:(left)). lra.
Qed.

Lemma mean_bounds (a : list R) (lo hi : R) :
  a <> [] -> (forall x, x ∈ a -> lo <= x <= hi) ->
  lo <= builtins.mean a <= hi.
Proof.
  intros Hne Hall. pose proof (sum_bounds a lo hi Hall) as Hsum.
  assert (Hn : 0 < INR (length a)).
  { apply lt_0_INR. destruct a; [congruence | simpl; lia]. }
  unfold builtins.mean. set (n := INR (length a)) in *.
  set (s := builtins.sum a) in *. clearbody n s.
  split.
  - apply (Rmult_le_reg_r n); [exact Hn|].
    replace (s / n * n) with s by (field; lra). lra.
  - apply (Rmult_le_reg_r n); [exact Hn|].
    replace (s / n * n) with s by (field; lra). lra.
Qed.

Lemma std_le_width (a : list R) (lo hi : R) :
  a <> [] -> (forall x, x ∈ a -> lo <= x <= hi) ->
  builtins.std a <= hi - lo.
Proof.
  intros Hne Hall. pose proof (mean_bounds a lo hi Hne Hall) as Hm.
  unfold builtins.std. set (m := builtins.mean a) in *. clearbody m.
  assert (Hw : 0 <= hi - lo) by lra.
  rewrite <- (sqrt_square (hi - lo)) by exact Hw.
  apply sqrt_le_1_alt.
  apply (mean_bounds _ 0 ((hi - lo) * (hi - lo))).
  - destruct a; [congruence | discriminate].
  - intros y Hy. apply list_elem_of_fmap in Hy as (x & -> & Hx).
    specialize (Hall x Hx). cbv beta.
    pose proof (Rle_0_sqr (x - m)) as Hsq. unfold Rsqr in Hsq.
    split; [exact Hsq|].
    assert (H1 : 0 <= hi - lo - (x - m)) by lra.
    assert (H2 : 0 <= hi - lo + (x - m)) by lra.
    pose proof (Rmult_le_pos _ _ H1 H2). lra.
Qed.

(** Payments at day gaps of 28 to 31 are recurring by both rules, monthly
    and consistent. *)
Lemma monthly_gaps (group : list payment_service.Row) :
  (3 <= length group)%nat ->
  Forall (fun gap => 28 <= gap <= 31)%Z (payment_service.intervals group) ->
  payment_service._is_recurring_pattern group = true
  /\ (let gaps := payment_service.intervals group in
      ((7 <= builtins.mean (map IZR gaps) /\ builtins.mean (map IZR gaps) <= 90)
       /\ builtins.std (map IZR gaps) < builtins.mean (map IZR gaps) * 0.3)
      /\ INR (length (filter (fun i => 25 <= i <= 35)%Z gaps))
         >= INR (length gaps) * 0.7)
  /\ payment_service._determine_frequency group = "monthly"%string
  /\ payment_service._has_consistent_intervals group = true.
Proof.
  intros Hlen Hgaps.
  unfold payment_service._is_recurring_pattern,
    payment_service._determine_frequency,
    payment_service._has_consistent_intervals.
  rewrite length_map. cbv zeta.
  destruct (decide (length group < 3)%nat) as [Hlt|_]; [lia|].
  destruct (decide (length group < 2)%nat) as [Hlt|_]; [lia|].
  pose proof (intervals_length group) as Hn.
  set (gaps := payment_service.intervals group) in *.
  assert (Hne : map IZR gaps <> []).
  { destruct gaps; [simpl in Hn; lia | discriminate]. }
  assert (Hall : forall x, x ∈ map IZR gaps -> 28 <= x <= 31).
  { intros x Hx. apply list_elem_of_fmap in Hx as (i & -> & Hi).
    rewrite Forall_forall in Hgaps. destruct (Hgaps i Hi) as [Hlo Hhi].
    apply IZR_le in Hlo, Hhi. lra. }
  pose proof (mean_bounds _ 28 31 Hne Hall) as Hmean.
  pose proof (std_le_width _ 28 31 Hne Hall) as Hstd.
  assert (Hmonthly : filter (fun i => 25 <= i <= 35)%Z gaps = gaps).
  { apply filter_all. intros i Hi. rewrite Forall_forall in Hgaps.
    specialize (Hgaps i Hi). lia. }
  assert (Hcount : INR (length gaps) >= INR (length gaps) * 0.7).
  { pose proof (pos_INR (length gaps)). lra. }
  clearbody gaps.
  destruct gaps as [|gap gaps']; [exfalso; apply Hne; reflexivity|].
  set (avg := builtins.mean (map IZR (gap :: gaps'))) in *.
  set (sd := builtins.std (map IZR (gap :: gaps'))) in *. clearbody avg sd.
  rewrite Hmonthly.
  rewrite (decide_True (P := (7 <= avg /\ avg <= 90) /\ sd < avg * 0.3)) by lra.
  rewrite (decide_False (P := avg <= 10)) by lra.
  rewrite (decide_True (P := 25 <= avg /\ avg <= 35)) by lra.
  rewrite (decide_True (P := avg > 0)) by lra.
  split; [reflexivity|].
  split; [split; [lra | exact Hcount]|].
  split; [reflexivity|]. apply bool_decide_eq_true. lra.
Qed.

Lemma monthly_rise_confidence (group : list payment_service.Row) :
  length group = 7%nat ->
  payment_service._has_consistent_intervals group = true ->
  payment_service._calculate_confidence group (15 / 14) (100000 / 999) = 0.95.
Proof.
  intros Hlen Hconsistent.
  unfold payment_service._calculate_confidence. cbv zeta.
  rewrite Hconsistent, Hlen.
  replace (INR 7) with 7 by (simpl; lra).
  unfold builtins.min, builtins.max.
  rewrite (decide_True (P := 7 / 50 < 0.2)) by lra.
  rewrite (decide_True (P := 15 / 14 / 10 < 0.2)) by lra.
  rewrite (decide_False (P := 100000 / 999 / 100 < 0.2)) by lra.
  rewrite (decide_True (P := _ > 0.3)) by lra.
  rewrite decide_False by lra. reflexivity.
Qed.

(** The analysis of seven payments in date order, at day gaps of 28 to 31,
    six of 9.99 and the last of 19.99. *)
Lemma monthly_rise_analysis (merchant_name : string)
  (group : list payment_service.Row) :
  builtins.sorted Z.lt payment_service.date group = group ->
  map payment_service.amount group
  = [9.99; 9.99; 9.99; 9.99; 9.99; 9.99; 19.99] ->
  Forall (fun gap => 28 <= gap <= 31)%Z (payment_service.intervals group) ->
  exists f,
    payment_service._analyze_merchant_payments merchant_name group = Some f
    /\ rp_merchant_name f = merchant_name
    /\ current_amount f = 19.99
    /\ previous_amount f = 9.99
    /\ increase_percentage f = 100.1
    /\ frequency f = "monthly"%string
    /\ rp_confidence f = 0.95.
Proof.
  intros Hsorted Hamounts Hgaps.
  assert (Hlen : length group = 7%nat).
  { rewrite <- (length_map payment_service.amount), Hamounts. reflexivity. }
  destruct (monthly_gaps group ltac:(lia) Hgaps)
    as (Hrecurring & _ & Hfrequency & Hconsistent).
  unfold payment_service._analyze_merchant_payments.
  rewrite Hsorted, Hrecurring. cbn [negb]. rewrite Hamounts.
  rewrite decide_False by (simpl; lia).
  replace (length [9.99; 9.99; 9.99; 9.99; 9.99; 9.99; 19.99]) with 7%nat
    by reflexivity.
  rewrite subscription_polyfit.
  rewrite decide_False by lra.
  cbn [List.last hd]. rewrite subscription_percent.
  rewrite decide_False by lra.
  rewrite Hfrequency, (monthly_rise_confidence group Hlen Hconsistent).
  destruct subscription_rounding as (-> & -> & -> & ->).
  eexists. split; [reflexivity|]. cbn.
  repeat split; reflexivity.
Qed.

(** A finding of a list sorted by a key, highest first, is among the first
    [n] unless [n] others with a key at least as high come before it. *)
Lemma take_or_crowded_out {A : Type} (key : A -> R) (l : list A) (f : A) (n : nat) :
  StronglySorted (fun a b => key a >= key b) l ->
  f ∈ l ->
  f ∈ take n l
  \/ (length (take n l) = n /\ Forall (fun a => key a >= key f) (take n l)).
Proof.
  intros Hs Hf. rewrite <- (take_drop n l) in Hs, Hf.
  apply elem_of_app in Hf as [Hf|Hf]; [left; exact Hf|right].
  apply StronglySorted_app in Hs as (Hcross & _ & _). split.
  - rewrite length_take. apply Nat.min_l.
    destruct (decide (n <= length l)%nat) as [Hle|Hgt]; [exact Hle|].
    rewrite drop_ge in Hf by lia. inversion Hf.
  - apply Forall_forall. intros a Ha. exact (Hcross a f Ha Hf).
Qed.

Section PaymentAnalysisService.
Variable to_datetime : string -> option calendar.Timestamp.

(** C7, as the code has it.  For a merchant with seven spending records,
    six of 9.99 and the latest of 19.99, consecutive ones 28 to 31 days apart,
    in a batch of at least 10 records that [_prepare_data] accepts:
    [_analyze_merchant_payments] returns a finding for the merchant; the gaps
    satisfy both rules of the classification (the regular-interval rule is
    the one the code tests first), the fitted slope is 15/14, above 0.5, the
    increase is 100000/999 percent, reported as 100.1, the frequency is
    "monthly" and the confidence is 0.95; and [detect_rising_payments]
    returns that finding unless its result is ten findings of an increase of
    at least 100.1, which take the ten places. *)
Theorem subscription_price_rise_detected
  (transactions : list TransactionData) (df : list payment_service.Row)
  (merchant_name : string) :
  (10 <= length transactions)%nat ->
  payment_service._prepare_data to_datetime transactions = Ok df ->
  map payment_service.amount
    (filter (fun row => payment_service.merchant row = merchant_name) df)
  = [9.99; 9.99; 9.99; 9.99; 9.99; 9.99; 19.99] ->
  Forall (fun gap => 28 <= gap <= 31)%Z
    (payment_service.intervals
       (filter (fun row => payment_service.merchant row = merchant_name) df)) ->
  let group := filter (fun row => payment_service.merchant row = merchant_name) df in
  exists f out,
    payment_service._analyze_merchant_payments merchant_name group = Some f
    /\ payment_service.detect_rising_payments to_datetime transactions = Ok out
    /\ (f ∈ out
        \/ (length out = 10%nat
            /\ Forall (fun other => increase_percentage other >= 100.1) out))
    /\ rp_merchant_name f = merchant_name
    /\ payment_service._is_recurring_pattern group = true
    /\ (let gaps := payment_service.intervals group in
        ((7 <= builtins.mean (map IZR gaps) /\ builtins.mean (map IZR gaps) <= 90)
         /\ builtins.std (map IZR gaps) < builtins.mean (map IZR gaps) * 0.3)
        /\ INR (length (filter (fun i => 25 <= i <= 35)%Z gaps))
           >= INR (length gaps) * 0.7)
    /\ (builtins.polyfit1 (builtins.arange 7)
          (map payment_service.amount group)).1 = 15 / 14
    /\ 15 / 14 > 0.5
    /\ payment_service.percent_increase 19.99 9.99 = Some (100000 / 999)
    /\ increase_percentage f = 100.1
    /\ increase_percentage f >= 5
    /\ frequency f = "monthly"%string
    /\ rp_confidence f = 0.95
    /\ rp_confidence f <= 0.95.
Proof.
  intros Hlen Hdf Hamounts Hgaps group. fold group in Hamounts, Hgaps.
  assert (Hlength : length group = 7%nat).
  { rewrite <- (length_map payment_service.amount), Hamounts. reflexivity. }
  assert (Hsorted : builtins.sorted Z.lt payment_service.date group = group).
  { apply sorted_of_sorted.
    eapply StronglySorted_sublist; [apply sublist_filter|].
    apply payment_prepare_data_Ok in Hdf as (_ & _ & _ & Hs).
    eapply StronglySorted_weaken; [|exact Hs]. intros a b. simpl. lia. }
  destruct (monthly_rise_analysis merchant_name group Hsorted Hamounts Hgaps)
    as (f & Hf & Hname & _ & _ & Hpercent & Hfrequency & Hconfidence).
  destruct (monthly_gaps group ltac:(lia) Hgaps) as (Hrecurring & Hrules & _ & _).
  exists f.
  (* the result of the entry point *)
  assert (Hrow : exists row, row ∈ group).
  { destruct group as [|row rest]; [discriminate|]. exists row. left. }
  destruct Hrow as (row & Hrow).
  pose proof Hrow as Hrow'. apply list_elem_of_filter in Hrow' as [Hmerchant Hindf].
  assert (Hfound : f ∈ payment_service.rising_payments
                         (map (fun name => (name, filter (fun r => payment_service.merchant r = name) df))
                            (builtins.sorted builtins.string_lt (fun name => name)
                               (builtins.unique (map payment_service.merchant df))))).
  { unfold payment_service.rising_payments. apply list_elem_of_omap.
    exists (merchant_name, group). split.
    - apply list_elem_of_fmap. exists merchant_name. split; [reflexivity|].
      apply elem_of_sorted, elem_of_unique.
      apply list_elem_of_fmap. exists row. split; [symmetry; exact Hmerchant | exact Hindf].
    - rewrite decide_False by lia. exact Hf. }
  eexists. split; [exact Hf|]. split.
  { unfold payment_service.detect_rising_payments,
      payment_service.detect_rising_payments_body.
    rewrite decide_False by lia. rewrite Hdf. cbn [mbind result_bind].
    unfold payment_service.groupby_merchant.
    destruct df as [|row0 df0] eqn:Hdfeq; [inversion Hindf|].
    rewrite <- Hdfeq in *. cbn [mbind result_bind mret result_ret try_except].
    reflexivity. }
  split.
  { destruct (take_or_crowded_out increase_percentage _ f 10
                (sorted_reverse_nonincreasing increase_percentage _)
                (proj2 (elem_of_sorted _ _ _ _) Hfound)) as [Hin|[Hten Hall]].
    - left. exact Hin.
    - right. split; [exact Hten|]. rewrite <- Hpercent. exact Hall. }
  split; [exact Hname|]. split; [exact Hrecurring|]. split; [exact Hrules|].
  split; [rewrite Hamounts, subscription_polyfit; reflexivity|].
  split; [lra|]. split; [exact subscription_percent|].
  split; [exact Hpercent|]. split; [lra|]. split; [exact Hfrequency|].
  split; [exact Hconfidence | lra].
Qed.
End PaymentAnalysisService.
End monthly_rise.

Section monthly_rise_example.
Import schemas.
Local Open Scope R_scope.

Lemma subscription_price_rise_detected_witness :
  (10 <= length examples.subscription_batch)%nat
  /\ payment_service._prepare_data calendar.iso_to_datetime
       examples.subscription_batch = Ok examples.subscription_df
  /\ filter (fun row => payment_service.merchant row = "Netflix"%string)
       examples.subscription_df = examples.subscription_group
  /\ payment_service.intervals examples.subscription_group
     = [31; 29; 31; 30; 31; 30]%Z
  /\ payment_service._analyze_merchant_payments "Netflix"
       examples.subscription_group = Some examples.subscription_finding
  /\ payment_service.detect_rising_payments calendar.iso_to_datetime
       examples.subscription_batch = Ok [examples.subscription_finding].
Proof.
  assert (Hgroup : filter (fun row => payment_service.merchant row = "Netflix"%string)
                     examples.subscription_df = examples.subscription_group)
    by reflexivity.
  assert (Hgaps : Forall (fun gap => 28 <= gap <= 31)%Z
                    (payment_service.intervals
                       (filter (fun row => payment_service.merchant row
                                           = "Netflix"%string)
                          examples.subscription_df))).
  { rewrite Hgroup, subscription_intervals. repeat constructor; lia. }
  pose proof (subscription_price_rise_detected calendar.iso_to_datetime
                examples.subscription_batch examples.subscription_df "Netflix"
                ltac:(simpl; lia) subscription_prepared
                ltac:(rewrite Hgroup; reflexivity) Hgaps) as Hthm.
  cbv zeta in Hthm. rewrite Hgroup in Hthm.
  destruct Hthm as (f & out & Hf & Hout & _).
  split; [simpl; lia|]. split; [exact subscription_prepared|].
  split; [exact Hgroup|]. split; [exact subscription_intervals|].
  rewrite subscription_analysis in Hf. injection Hf as <-.
  split; [exact subscription_analysis|].
  rewrite Hout. f_equal.
  rewrite subscription_detected in Hout. injection Hout as <-. reflexivity.
Defined.
End monthly_rise_example.

(** ** The slope gate *)

Section slope_gate.
Import schemas.
Local Open Scope R_scope.

Lemma sum_arange (n : nat) :
  builtins.sum (builtins.arange n) = INR n * (INR n - 1) / 2.
Proof.
  unfold builtins.arange. induction n as [|n IH]; [simpl; lra|].
  rewrite seq_S, map_app, sum_app, IH. cbn [map builtins.sum foldr Nat.add].
  rewrite S_INR. lra.
Qed.

Lemma mean_arange (n : nat) :
  (0 < n)%nat -> builtins.mean (builtins.arange n) = (INR n - 1) / 2.
Proof.
  intros Hn. unfold builtins.mean. rewrite sum_arange.
  unfold builtins.arange. rewrite length_map, length_seq.
  field. apply not_0_INR. lia.
Qed.

(** The positions 0, 1, ..., n-1 are at the mean position or at least half
    a step from it. *)
Lemma arange_deviation (n : nat) (x : R) :
  x ∈ builtins.arange n ->
  let d := x - (INR n - 1) / 2 in d = 0 \/ 1 / 2 <= d \/ d <= - (1 / 2).
Proof.
  unfold builtins.arange. intros Hx.
  apply list_elem_of_fmap in Hx as (i & -> & _). cbv zeta.
  rewrite !INR_IZR_INZ.
  assert (Hk : 2 * (IZR (Z.of_nat i) - (IZR (Z.of_nat n) - 1) / 2)
               = IZR (2 * Z.of_nat i - Z.of_nat n + 1)).
  { rewrite plus_IZR, minus_IZR, mult_IZR. lra. }
  set (d := IZR (Z.of_nat i) - (IZR (Z.of_nat n) - 1) / 2) in *.
  set (k := (2 * Z.of_nat i - Z.of_nat n + 1)%Z) in *. clearbody d k.
  destruct (Z.lt_trichotomy k 0) as [Hlt|[Heq|Hgt]].
  - right; right. assert (Hle : (k <= -1)%Z) by lia. apply IZR_le in Hle. lra.
  - left. subst k. lra.
  - right; left. assert (Hle : (1 <= k)%Z) by lia. apply IZR_le in Hle. lra.
Qed.

Lemma slope_numerator_le (mx my lo : R) (x y : list R) :
  length x = length y ->
  (forall xi, xi ∈ x ->
     xi - mx = 0 \/ 1 / 2 <= xi - mx \/ xi - mx <= - (1 / 2)) ->
  (forall yi, yi ∈ y -> lo <= yi <= lo + 0.5) ->
  builtins.sum (zip_with (fun xi yi => (xi - mx) * (yi - my)) x y)
  <= 0.5 * builtins.sum (map (fun xi => (xi - mx) * (xi - mx)) x)
     + (0.25 - (my - lo)) * builtins.sum (map (fun xi => xi - mx) x).
Proof.
  revert y. induction x as [|xi x IH]; intros [|yi y] Hlen Hx Hy;
    try discriminate; [simpl; lra|].
  cbn [zip_with map builtins.sum foldr].
  fold (builtins.sum (zip_with (fun xi yi => (xi - mx) * (yi - my)) x y)).
  fold (builtins.sum (map (fun xi => (xi - mx) * (xi - mx)) x)).
  fold (builtins.sum (map (fun xi => xi - mx) x)).
  specialize (IH y ltac:(simpl in Hlen; lia)
                (fun a Ha => Hx a ltac:(right; exact Ha))
                (fun b Hb => Hy b ltac:(right; exact Hb))).
  specialize (Hx xi ltac:(left)). specialize (Hy yi ltac:(left)).
  set (d := xi - mx) in *. clearbody d.
  assert (Hterm : d * (yi - lo) <= 0.5 * (d * d) + 0.25 * d)
    by (destruct Hx as [Hd|[Hd|Hd]]; nra).
  replace (d * (yi - my)) with (d * (yi - lo) - (my - lo) * d) by lra.
  lra.
Qed.

(** The least-squares slope of at least one amount over the positions
    0, 1, ... is at most a half when the amounts lie within a half of one
    another. *)
Lemma slope_le_half (amounts : list R) (lo : R) :
  (forall a, a ∈ amounts -> lo <= a <= lo + 0.5) ->
  (builtins.polyfit1 (builtins.arange (length amounts)) amounts).1 <= 0.5.
Proof.
  intros Hy. unfold builtins.polyfit1. cbv zeta. cbn [fst].
  destruct (decide (length amounts = 0%nat)) as [Hnil|Hpos].
  { destruct amounts; [|discriminate]. simpl. unfold Rdiv. rewrite Rmult_0_l. lra. }
  set (x := builtins.arange (length amounts)).
  set (mx := builtins.mean x). set (my := builtins.mean amounts).
  pose proof (sum_squares_nonneg mx x) as Hsxx.
  assert (Hlen : length x = length amounts).
  { unfold x, builtins.arange. rewrite length_map, length_seq. reflexivity. }
  assert (Hzero : builtins.sum (map (fun xi => xi - mx) x) = 0).
  { rewrite sum_shift. unfold mx, builtins.mean. field.
    rewrite Hlen. apply not_0_INR. exact Hpos. }
  assert (Hx : forall xi, xi ∈ x ->
                 xi - mx = 0 \/ 1 / 2 <= xi - mx \/ xi - mx <= - (1 / 2)).
  { intros xi Hxi. unfold mx, x. rewrite mean_arange by lia.
    exact (arange_deviation (length amounts) xi Hxi). }
  pose proof (slope_numerator_le mx my lo x amounts Hlen Hx Hy) as Hnum.
  rewrite Hzero, Rmult_0_r, Rplus_0_r in Hnum.
  set (sxy := builtins.sum (zip_with _ x amounts)) in *.
  set (sxx := builtins.sum (map _ x)) in *. clearbody sxy sxx.
  destruct (Req_dec sxx 0) as [Hz|Hnz].
  - rewrite Hz. unfold Rdiv. rewrite Rinv_0, Rmult_0_r. lra.
  - apply (Rmult_le_reg_r sxx); [lra|].
    replace (sxy / sxx * sxx) with sxy by (field; exact Hnz). lra.
Qed.

(** X23.  A merchant whose amounts all lie within 0.50 of one another is
    never reported, however large the rise is in proportion: the slope gate
    is in currency units per payment, and the least-squares slope of such a
    series does not exceed 0.5. *)
Theorem amounts_within_half_a_unit_not_reported (merchant_name : string)
  (group : list payment_service.Row) (lo : R) :
  (forall row, row ∈ group ->
     lo <= payment_service.amount row <= lo + 0.5) ->
  payment_service._analyze_merchant_payments merchant_name group = None.
Proof.
  intros Hall.
  destruct (payment_service._analyze_merchant_payments merchant_name group)
    as [f|] eqn:Hf; [|reflexivity].
  exfalso. apply analyze_Some in Hf. cbv zeta in Hf.
  destruct Hf as (_ & _ & Hslope & _).
  pose proof (slope_le_half
                (map payment_service.amount
                   (builtins.sorted Z.lt payment_service.date group)) lo) as Hle.
  assert (Hy : forall a,
            a ∈ map payment_service.amount
                  (builtins.sorted Z.lt payment_service.date group) ->
            lo <= a <= lo + 0.5).
  { intros a Ha. apply list_elem_of_fmap in Ha as (row & -> & Hrow).
    apply elem_of_sorted in Hrow. exact (Hall row Hrow). }
  specialize (Hle Hy). lra.
Qed.
End slope_gate.


Section rising_payment_examples.
Import schemas.
Local Open Scope R_scope.

Lemma increase_below_five_percent_not_reported_witness :
  map payment_service.amount
    (builtins.sorted Z.lt payment_service.date (take 6 examples.subscription_group))
  = [9.99; 9.99; 9.99; 9.99; 9.99; 9.99]
  /\ payment_service._analyze_merchant_payments "Netflix"
       (take 6 examples.subscription_group) = None.
Proof.
  split; [reflexivity|].
  apply increase_below_five_percent_not_reported. simpl. lra.
Defined.

Lemma batch_without_spending_reports_nothing_witness :
  Forall (fun txn => 0 <= amount txn) examples.income_batch
  /\ payment_service.detect_rising_payments calendar.iso_to_datetime
       examples.income_batch = Ok []
  /\ payment_service.detect_rising_payments_body calendar.iso_to_datetime
       examples.income_batch = Raise (KeyError "merchant").
Proof.
  assert (Hall : Forall (fun txn => 0 <= amount txn) examples.income_batch)
    by (repeat constructor; simpl; lra).
  destruct (batch_without_spending_reports_nothing calendar.iso_to_datetime
              examples.income_batch Hall) as [Hout Hbody].
  split; [exact Hall|]. split; [exact Hout|]. apply Hbody. simpl. lia.
Defined.

Lemma fixed_interval_is_recurring_witness :
  (3 <= length examples.weekly_group)%nat
  /\ payment_service.intervals examples.weekly_group = [7; 7]%Z
  /\ payment_service._is_recurring_pattern examples.weekly_group = true
  /\ payment_service._has_consistent_intervals examples.weekly_group = true.
Proof.
  split; [simpl; lia|]. split; [vm_compute; reflexivity|].
  apply (fixed_interval_is_recurring examples.weekly_group 7); [simpl; lia| |lia].
  intros i Hi. change (payment_service.intervals examples.weekly_group)
    with [7; 7]%Z in Hi.
  repeat (apply elem_of_cons in Hi as [->|Hi]; [reflexivity|]). inversion Hi.
Defined.

Lemma more_often_than_weekly_not_reported_witness :
  payment_service.intervals
    (builtins.sorted Z.lt payment_service.date examples.daily_group)
  = [1; 1; 1]%Z
  /\ payment_service._analyze_merchant_payments "Coffee Shop" examples.daily_group
     = None.
Proof.
  split; [vm_compute; reflexivity|].
  apply more_often_than_weekly_not_reported.
  change (payment_service.intervals
            (builtins.sorted Z.lt payment_service.date examples.daily_group))
    with [1; 1; 1]%Z.
  unfold builtins.mean. simpl. lra.
Defined.
Lemma amounts_within_half_a_unit_not_reported_witness :
  (forall row, row ∈ examples.cheap_group ->
     0.5 <= payment_service.amount row <= 0.5 + 0.5)
  /\ payment_service._analyze_merchant_payments "Newsletter" examples.cheap_group
     = None.
Proof.
  assert (Hall : forall row, row ∈ examples.cheap_group ->
            0.5 <= payment_service.amount row <= 0.5 + 0.5).
  { intros row Hrow. unfold examples.cheap_group in Hrow.
    repeat (apply elem_of_cons in Hrow as [->|Hrow]; [simpl; lra|]).
    inversion Hrow. }
  split; [exact Hall|].
  exact (amounts_within_half_a_unit_not_reported "Newsletter"
           examples.cheap_group 0.5 Hall).
Defined.
End rising_payment_examples.

(** ** The endpoints *)

Section endpoint_facts.
Import schemas.
Variable to_datetime : string -> option calendar.Timestamp.

(** X24.  The endpoints [/anomalies/detect] and [/payments/rising-detection]
    raise their HTTP 500 exactly when the service global is still [None]:
    before [lifespan] has run every request fails with the [AttributeError]
    of the call on [None]; once a service object is bound the endpoint
    returns the list the service returns, whatever the request body, since
    the service catches its own failures. *)
Theorem endpoints_raise_http_500_only_before_startup :
  (forall (g : main.globals) (transactions : list TransactionData),
     match main.anomaly_service_global g with
     | None =>
         main.detect_anomalies to_datetime g transactions
         = main.HTTPException 500 "Anomaly detection failed: "
             (AttributeError
                "'NoneType' object has no attribute 'detect_anomalies'")
     | Some service =>
         exists anomalies,
           main.detect_anomalies to_datetime g transactions
           = main.Return anomalies
           /\ anomaly_service.detect_anomalies to_datetime
                (main.scaler_fit_transform service)
                (main.isolation_forest_fit_predict service)
                (main.isolation_forest_decision_function service)
                transactions = Ok anomalies
     end)
  /\ (forall (g : main.globals) (transactions : list TransactionData),
        match main.payment_service_global g with
        | None =>
            main.detect_rising_payments to_datetime g transactions
            = main.HTTPException 500 "Rising payment detection failed: "
                (AttributeError
                   "'NoneType' object has no attribute 'detect_rising_payments'")
        | Some service =>
            exists rising_payments,
              main.detect_rising_payments to_datetime g transactions
              = main.Return rising_payments
              /\ payment_service.detect_rising_payments to_datetime transactions
                 = Ok rising_payments
        end)
  /\ (forall transactions : list TransactionData,
        (exists e, main.detect_anomalies to_datetime main.at_import transactions
                   = main.HTTPException 500 "Anomaly detection failed: " e)
        /\ (exists e, main.detect_rising_payments to_datetime main.at_import
                        transactions
                      = main.HTTPException 500
                          "Rising payment detection failed: " e))
  /\ (forall (estimators : main.AnomalyDetectionService)
             (transactions : list TransactionData),
        (exists anomalies,
           main.detect_anomalies to_datetime (main.lifespan estimators)
             transactions = main.Return anomalies)
        /\ (exists rising_payments,
              main.detect_rising_payments to_datetime (main.lifespan estimators)
                transactions = main.Return rising_payments)).
Proof.
  assert (Hanomalies : forall g transactions,
    match main.anomaly_service_global g with
    | None =>
        main.detect_anomalies to_datetime g transactions
        = main.HTTPException 500 "Anomaly detection failed: "
            (AttributeError
               "'NoneType' object has no attribute 'detect_anomalies'")
    | Some service =>
        exists anomalies,
          main.detect_anomalies to_datetime g transactions
          = main.Return anomalies
          /\ anomaly_service.detect_anomalies to_datetime
               (main.scaler_fit_transform service)
               (main.isolation_forest_fit_predict service)
               (main.isolation_forest_decision_function service)
               transactions = Ok anomalies
    end).
  { intros g transactions. unfold main.detect_anomalies.
    destruct (main.anomaly_service_global g) as [service|]; [|reflexivity].
    unfold anomaly_service.detect_anomalies.
    destruct (try_except_returns
                (anomaly_service.detect_anomalies_body to_datetime
                   (main.scaler_fit_transform service)
                   (main.isolation_forest_fit_predict service)
                   (main.isolation_forest_decision_function service)
                   transactions) [])
      as (out & -> & _).
    exists out. split; reflexivity. }
  assert (Hpayments : forall g transactions,
    match main.payment_service_global g with
    | None =>
        main.detect_rising_payments to_datetime g transactions
        = main.HTTPException 500 "Rising payment detection failed: "
            (AttributeError
               "'NoneType' object has no attribute 'detect_rising_payments'")
    | Some service =>
        exists rising_payments,
          main.detect_rising_payments to_datetime g transactions
          = main.Return rising_payments
          /\ payment_service.detect_rising_payments to_datetime transactions
             = Ok rising_payments
    end).
  { intros g transactions. unfold main.detect_rising_payments.
    destruct (main.payment_service_global g) as [service|]; [|reflexivity].
    unfold payment_service.detect_rising_payments.
    destruct (try_except_returns
                (payment_service.detect_rising_payments_body to_datetime
                   transactions) [])
      as (out & -> & _).
    exists out. split; reflexivity. }
  split; [exact Hanomalies|]. split; [exact Hpayments|]. split.
  - intros transactions. split; eexists; reflexivity.
  - intros estimators transactions. split.
    + destruct (Hanomalies (main.lifespan estimators) transactions)
        as (out & Hout & _).
      exists out. exact Hout.
    + destruct (Hpayments (main.lifespan estimators) transactions)
        as (out & Hout & _).
      exists out. exact Hout.
Qed.
End endpoint_facts.
